(** * Amen detection by chroma template matching

    A shallow embedding of [scripts/detect_amen.py] and of
    [scripts/create_amen_template.py], with the properties of the
    matcher, of the localisation arithmetic and of the error paths.

    The matcher is read at two levels.

    - Module [Float64] follows it in binary64: the accumulator
      [correlations], its in-place addition and division, [np.argmax]
      and the final division by 12 are the IEEE 754 operations.  The
      reductions of NumPy and SciPy ([mean], [std], [correlate]), whose
      summation order and element type the libraries leave open, are a
      parameter of the model.  Which entry the matcher selects, and how
      it breaks ties, is stated at this level.

    - Modules [Np] and [DetectAmen] read Python floats as real numbers.
      This is the arithmetic the formulas of the documentation are
      written in; the pipeline around the matcher (the search window,
      the threshold, the timestamps) is stated over it, with the answer
      of the matcher taken as given.

    Integers are [Z] or [nat].  A [str] is the [string] of its UTF-8
    bytes.  Exceptions are values of [exn] carried by the [result]
    monad. *)

From Stdlib Require Import Floats.
From Stdlib Require Uint63.
From Stdlib Require Import Reals Lra Lia ZArith NArith Bool.
From Stdlib Require Import Ascii String.
From Stdlib Require Import List.
Import ListNotations.

Set Implicit Arguments.

(* ================================================================== *)
(** * Python values and builtins *)
(* ================================================================== *)

Module Py.

(** The exceptions that the scripts and their libraries raise. *)
Inductive exn : Type :=
  | ValueError
  | IndexError
  | RuntimeError
  | OSError.

(** A Python computation either returns a value or raises. *)
Inductive result (A : Type) : Type :=
  | Ok (a : A)
  | Raise (e : exn).

Arguments Ok {A} a.
Arguments Raise {A} e.

Definition bind {A B : Type} (m : result A) (f : A -> result B) : result B :=
  match m with
  | Ok a => f a
  | Raise e => Raise e
  end.

(** [for x in xs: acc = body(x, acc)], stopping at the first exception. *)
Fixpoint for_each {A X : Type} (xs : list X) (body : X -> A -> result A)
    (acc : A) : result A :=
  match xs with
  | [] => Ok acc
  | x :: rest => bind (body x acc) (for_each rest body)
  end.

(** [seq[i]] on a Python sequence, for a non-negative index. *)
Definition getitem {A : Type} (l : list A) (i : nat) : result A :=
  match nth_error l i with
  | Some a => Ok a
  | None => Raise IndexError
  end.

(** ** Numbers *)

(** [int(x)] for a float [x]: truncation toward zero. *)
Definition int_of_float (x : R) : Z :=
  if Rle_dec 0 x then Int_part x else (- Int_part (- x))%Z.

(** ** Strings *)

Local Open Scope string_scope.

(** A [str] is read through its UTF-8 encoding, the form in which the
    command line hands it to the process and in which the process
    prints it: a [string] holds the bytes. *)

(** The ASCII characters that [int] skips before and after a number
    (C's [isspace]).  [str.strip] also removes the separators 28 to 31;
    [int] refuses them. *)
Definition is_space (c : ascii) : bool :=
  let n := nat_of_ascii c in
  ((9 <=? n) && (n <=? 13) || (n =? 32))%nat.

Definition is_digit (c : ascii) : bool :=
  let n := nat_of_ascii c in ((48 <=? n) && (n <=? 57))%nat.

Definition digit_value (c : ascii) : Z := Z.of_nat (nat_of_ascii c - 48).

Definition digit_char (d : Z) : ascii := ascii_of_nat (48 + Z.to_nat d).

(** The code points above ASCII that are white space. *)
Definition unicode_space (cp : N) : bool :=
  ((cp =? 0x85) || (cp =? 0xA0) || (cp =? 0x1680)
   || ((0x2000 <=? cp) && (cp <=? 0x200A))
   || (cp =? 0x2028) || (cp =? 0x2029) || (cp =? 0x202F)
   || (cp =? 0x205F) || (cp =? 0x3000))%N.

(** The decimal digits above ASCII come in runs of ten, zero to nine:
    the first code point of each run (the table of Unicode 14.0, which
    Python 3.10 and 3.11 carry; later versions add runs). *)
Definition decimal_runs : list N :=
  [ 0x660; 0x6F0; 0x7C0; 0x966; 0x9E6; 0xA66; 0xAE6; 0xB66; 0xBE6;
    0xC66; 0xCE6; 0xD66; 0xDE6; 0xE50; 0xED0; 0xF20; 0x1040; 0x1090;
    0x17E0; 0x1810; 0x1946; 0x19D0; 0x1A80; 0x1A90; 0x1B50; 0x1BB0;
    0x1C40; 0x1C50; 0xA620; 0xA8D0; 0xA900; 0xA9D0; 0xA9F0; 0xAA50;
    0xABF0; 0xFF10; 0x104A0; 0x10D30; 0x11066; 0x110F0; 0x11136;
    0x111D0; 0x112F0; 0x11450; 0x114D0; 0x11650; 0x116C0; 0x11730;
    0x118E0; 0x11950; 0x11C50; 0x11D50; 0x11DA0; 0x16A60; 0x16AC0;
    0x16B50; 0x1D7CE; 0x1D7D8; 0x1D7E2; 0x1D7EC; 0x1D7F6; 0x1E140;
    0x1E2F0; 0x1E950; 0x1FBF0 ]%N.

Definition unicode_decimal (cp : N) : option N :=
  match find (fun z => (z <=? cp) && (cp <? z + 10))%N decimal_runs with
  | Some z => Some (cp - z)%N
  | None => None
  end.

(** What [int] makes of a code point above ASCII: a space for white
    space, the ASCII digit for a decimal digit, nothing otherwise. *)
Definition ascii_of_code_point (cp : N) : option ascii :=
  if unicode_space cp then Some " "%char
  else
    match unicode_decimal cp with
    | Some d => Some (ascii_of_N (48 + d))
    | None => None
    end.

(** The payload of a continuation byte of UTF-8. *)
Definition continuation (c : ascii) : option N :=
  let b := N_of_ascii c in
  if ((0x80 <=? b) && (b <? 0xC0))%N then Some (b - 0x80)%N else None.

Definition translated (cp : N) (rest : option string) : option string :=
  match ascii_of_code_point cp, rest with
  | Some c, Some t => Some (String c t)
  | _, _ => None
  end.

(** The first step of [int(s)]: ASCII characters are kept, white space
    and decimal digits of other scripts are replaced by a space and by
    the ASCII digit.  [None] when the string holds anything else (also
    bytes that are not well-formed UTF-8, which reach the program as
    lone surrogates): [int] then raises. *)
Fixpoint to_ascii_decimal (s : string) : option string :=
  match s with
  | EmptyString => Some EmptyString
  | String c0 rest =>
      let b0 := N_of_ascii c0 in
      if (b0 <? 0x80)%N then
        match to_ascii_decimal rest with
        | Some t => Some (String c0 t)
        | None => None
        end
      else
      match rest with
      | EmptyString => None
      | String c1 rest1 =>
      match continuation c1 with
      | None => None
      | Some x1 =>
      if ((0xC0 <=? b0) && (b0 <? 0xE0))%N then
        let cp := ((b0 - 0xC0) * 64 + x1)%N in
        if (0x80 <=? cp)%N then translated cp (to_ascii_decimal rest1) else None
      else
      match rest1 with
      | EmptyString => None
      | String c2 rest2 =>
      match continuation c2 with
      | None => None
      | Some x2 =>
      if ((0xE0 <=? b0) && (b0 <? 0xF0))%N then
        let cp := (((b0 - 0xE0) * 64 + x1) * 64 + x2)%N in
        if ((0x800 <=? cp) && negb ((0xD800 <=? cp) && (cp <? 0xE000)))%N
        then translated cp (to_ascii_decimal rest2) else None
      else
      match rest2 with
      | EmptyString => None
      | String c3 rest3 =>
      match continuation c3 with
      | None => None
      | Some x3 =>
      if ((0xF0 <=? b0) && (b0 <? 0xF8))%N then
        let cp := ((((b0 - 0xF0) * 64 + x1) * 64 + x2) * 64 + x3)%N in
        if ((0x10000 <=? cp) && (cp <? 0x110000))%N
        then translated cp (to_ascii_decimal rest3) else None
      else None
      end
      end
      end
      end
      end
      end
  end.

Fixpoint trim_left (s : string) : string :=
  match s with
  | EmptyString => EmptyString
  | String c rest => if is_space c then trim_left rest else s
  end.

Fixpoint trim_right (s : string) : string :=
  match s with
  | EmptyString => EmptyString
  | String c rest =>
      match trim_right rest with
      | EmptyString => if is_space c then EmptyString else String c EmptyString
      | rest' => String c rest'
      end
  end.

(** The blanks that [int] skips on both sides. *)
Definition trim (s : string) : string := trim_right (trim_left s).

(** The digits of an integer literal: decimal digits, single underscores
    allowed between two digits.  [after_digit] tells whether the
    previous character was a digit. *)
Fixpoint parse_digits (acc : Z) (after_digit : bool) (s : string) : option Z :=
  match s with
  | EmptyString => if after_digit then Some acc else None
  | String c rest =>
      if is_digit c then parse_digits (10 * acc + digit_value c) true rest
      else if Ascii.eqb c "_" then
        if after_digit then parse_digits acc false rest else None
      else None
  end.

Definition int_of_digits (s : string) : result Z :=
  match parse_digits 0 false s with
  | Some n => Ok n
  | None => Raise ValueError
  end.

(** An optional sign, then the digits. *)
Definition int_of_literal (s : string) : result Z :=
  match s with
  | String "-" rest => bind (int_of_digits rest) (fun n => Ok (- n)%Z)
  | String "+" rest => int_of_digits rest
  | body => int_of_digits body
  end.

(** [int(s)] for a string [s], base ten: blanks around, an optional
    sign, then the digits.  The limit that recent interpreters put on
    the number of digits (4300 unless configured otherwise) is not part
    of the model. *)
Definition int_of_str (s : string) : result Z :=
  match to_ascii_decimal s with
  | None => Raise ValueError
  | Some t => int_of_literal (trim t)
  end.

(** The decimal digits of a non-negative integer, most significant
    first, put in front of [acc]. *)
Fixpoint digits_fuel (fuel : nat) (n : Z) (acc : string) : string :=
  match fuel with
  | O => acc
  | S fuel' =>
      let acc' := String (digit_char (n mod 10)) acc in
      if (n / 10 =? 0)%Z then acc' else digits_fuel fuel' (n / 10) acc'
  end.

Definition digits (n : Z) : string :=
  digits_fuel (S (Z.to_nat (Z.log2 n))) n EmptyString.

(** [str(n)], which is also [f"{n:d}"]. *)
Definition str_of_int (n : Z) : string :=
  if (n <? 0)%Z then String "-" (digits (- n)) else digits n.

(** [f"{n:02d}"]: at least two characters, padded with a zero. *)
Definition format_02d (n : Z) : string :=
  if ((0 <=? n) && (n <? 10))%Z then String "0" (digits n) else str_of_int n.

(** [s.split(sep)] for a one-character separator. *)
Fixpoint split (sep : ascii) (s : string) : list string :=
  match s with
  | EmptyString => [EmptyString]
  | String c rest =>
      if Ascii.eqb c sep then EmptyString :: split sep rest
      else
        match split sep rest with
        | piece :: pieces => String c piece :: pieces
        | [] => [String c EmptyString]
        end
  end.

Fixpoint ends_with_slash (s : string) : bool :=
  match s with
  | EmptyString => false
  | String c EmptyString => Ascii.eqb c "/"
  | String _ rest => ends_with_slash rest
  end.

(** [os.path.join(a, b)] on POSIX. *)
Definition path_join (a b : string) : string :=
  match b with
  | String "/" _ => b
  | _ =>
      match a with
      | EmptyString => b
      | _ => if ends_with_slash a then a ++ b else a ++ "/" ++ b
      end
  end.

End Py.

Import Py.

Declare Scope py_scope.
Delimit Scope py_scope with py.
Notation "x <- m ;; k" := (Py.bind m (fun x => k))
  (at level 61, m at next level, right associativity) : py_scope.

(* ================================================================== *)
(** * NumPy and SciPy operations used by the matcher *)
(* ================================================================== *)

Module Np.

Local Open Scope R_scope.
Local Open Scope py_scope.

(** A two-dimensional array, row by row.  An array of the library is
    rectangular; [is_matrix] says so. *)
Definition matrix : Type := list (list R).

Definition is_matrix (r c : nat) (A : matrix) : Prop :=
  length A = r /\ Forall (fun row => length row = c) A.

(** [A.shape[1]] *)
Definition shape1 (A : matrix) : nat :=
  match A with
  | [] => 0%nat
  | row :: _ => length row
  end.

(** [A.size] *)
Definition size (A : matrix) : nat := length (concat A).

Definition sum_list (l : list R) : R := fold_right Rplus 0 l.

(** [A.mean()]: the mean of all entries. *)
Definition mean (A : matrix) : R := sum_list (concat A) / INR (size A).

(** [A.std()]: the population standard deviation of all entries,
    [sqrt(mean(abs(A - A.mean())**2))]. *)
Definition std (A : matrix) : R :=
  sqrt (sum_list (map (fun x => (x - mean A) * (x - mean A)) (concat A))
        / INR (size A)).

(** [(A - a) / b] with scalars [a] and [b], entry by entry. *)
Definition sub_div (A : matrix) (a b : R) : matrix :=
  map (map (fun x => (x - a) / b)) A.

(** [np.zeros(n)] *)
Definition zeros (n : Z) : result (list R) :=
  if (n <? 0)%Z then Raise ValueError else Ok (repeat 0 (Z.to_nat n)).

Definition dot (a b : list R) : R :=
  sum_list (map (fun p => fst p * snd p) (combine a b)).

(** [l[k : k + m]] *)
Definition window (k m : nat) (l : list R) : list R := firstn m (skipn k l).

(** [scipy.signal.correlate(in1, in2, mode='valid')] on real vectors:
    entry [k] is the dot product of [in2] with [in1[k : k + len(in2)]].
    When [in2] is the longer one SciPy swaps the operands and mirrors
    the output.  On an empty operand SciPy either raises [ValueError]
    or hands back an empty array on which the in-place addition that
    follows in the caller raises [ValueError]; the model raises here. *)
Definition correlate_valid (in1 in2 : list R) : result (list R) :=
  if ((length in1 =? 0) || (length in2 =? 0))%nat then Raise ValueError
  else if (length in2 <=? length in1)%nat then
    Ok (map (fun k => dot (window k (length in2) in1) in2)
            (seq 0 (length in1 - length in2 + 1)))
  else
    Ok (rev (map (fun k => dot (window k (length in1) in2) in1)
                 (seq 0 (length in2 - length in1 + 1)))).

(** [a += b] on one-dimensional arrays: equal lengths add entry by
    entry, a one-entry [b] is broadcast, anything else is refused. *)
Definition iadd (a b : list R) : result (list R) :=
  if (length a =? length b)%nat then
    Ok (map (fun p => fst p + snd p) (combine a b))
  else
    match b with
    | [y] => Ok (map (fun x => x + y) a)
    | _ => Raise ValueError
    end.

(** [a /= d] with a scalar [d]. *)
Definition idiv (a : list R) (d : R) : list R := map (fun x => x / d) a.

(** The scan of [np.argmax]: the running best is replaced only by a
    strictly larger entry. *)
Fixpoint argmax_from (best_i : nat) (best : R) (i : nat) (l : list R) : nat :=
  match l with
  | [] => best_i
  | x :: rest =>
      if Rlt_dec best x then argmax_from i x (S i) rest
      else argmax_from best_i best (S i) rest
  end.

(** [np.argmax(a)] *)
Definition argmax (a : list R) : result nat :=
  match a with
  | [] => Raise ValueError
  | x :: rest => Ok (argmax_from 0 x 1 rest)
  end.

End Np.

(* ================================================================== *)
(** * The matcher in binary64 *)
(* ================================================================== *)

Module Float64.

Local Open Scope float_scope.
Local Open Scope py_scope.

(** A two-dimensional array of floating-point numbers, row by row.  A
    binary32 entry is held as the binary64 number of the same value. *)
Definition matrix : Type := list (list float).

(** [A.shape[1]] *)
Definition shape1 (A : matrix) : nat :=
  match A with
  | [] => 0%nat
  | row :: _ => length row
  end.

(** The literal [1e-10]: the binary64 number nearest to it. *)
Definition epsilon : float := 0x1.b7cdfd9d7bdbbp-34.

(** An integer in a floating-point operation; frame counts are far
    below [2^53] and convert exactly. *)
Definition of_nat (n : nat) : float :=
  PrimFloat.of_uint63 (Uint63.of_Z (Z.of_nat n)).

(** The arithmetic of the array library on the chroma matrices, in
    their element type: the two reductions over all entries, the
    element-wise operations of the normalisation, and
    [scipy.signal.correlate(in1, in2, mode='valid')]. *)
Record numerics : Type := {
  mean : matrix -> float;
  std : matrix -> float;
  sub : float -> float -> float;
  add : float -> float -> float;
  div : float -> float -> float;
  correlate : list float -> list float -> result (list float)
}.

(** [(A - a) / b] with scalars [a] and [b], entry by entry. *)
Definition sub_div (lib : numerics) (A : matrix) (a b : float) : matrix :=
  map (map (fun x => div lib (sub lib x a) b)) A.

(** [np.zeros(n)], an array of binary64 zeros. *)
Definition zeros (n : Z) : result (list float) :=
  if (n <? 0)%Z then Raise ValueError else Ok (repeat 0 (Z.to_nat n)).

(** [a += b] on a binary64 array [a]: equal lengths add entry by
    entry, a one-entry [b] is broadcast, anything else is refused. *)
Definition iadd (a b : list float) : result (list float) :=
  if (length a =? length b)%nat then
    Ok (map (fun p => fst p + snd p) (combine a b))
  else
    match b with
    | [y] => Ok (map (fun x => x + y) a)
    | _ => Raise ValueError
    end.

(** [a /= d] with a scalar [d]. *)
Definition idiv (a : list float) (d : float) : list float :=
  map (fun x => x / d) a.

(** The scan of [np.argmax] on floating-point numbers: an entry
    replaces the running best when it is not less than or equal to it,
    and the scan stops at the first NaN. *)
Fixpoint argmax_from (best_i : nat) (best : float) (i : nat) (l : list float)
  : nat :=
  match l with
  | [] => best_i
  | x :: rest =>
      if x <=? best then argmax_from best_i best (S i) rest
      else if is_nan x then i
      else argmax_from i x (S i) rest
  end.

(** [np.argmax(a)] *)
Definition argmax (a : list float) : result nat :=
  match a with
  | [] => Raise ValueError
  | x :: rest => if is_nan x then Ok 0%nat else Ok (argmax_from 0 x 1 rest)
  end.

(** Lines 121 to 132 of [match_template_chroma]: the array
    [correlations] as it stands before [np.argmax] reads it. *)
Definition correlations (lib : numerics) (template_chroma search_chroma : matrix)
  : result (list float) :=
  (* Normalize both *)
  let template_norm :=
    sub_div lib template_chroma (mean lib template_chroma)
      (add lib (std lib template_chroma) epsilon) in
  let search_norm :=
    sub_div lib search_chroma (mean lib search_chroma)
      (add lib (std lib search_chroma) epsilon) in
  (* Cross-correlate each chroma bin and sum *)
  correlations <-
    zeros (Z.of_nat (shape1 search_chroma) - Z.of_nat (shape1 template_chroma) + 1) ;;
  correlations <-
    for_each (seq 0 12)
      (fun i correlations =>
         search_row <- getitem search_norm i ;;
         template_row <- getitem template_norm i ;;
         corr <- correlate lib search_row template_row ;;
         iadd correlations corr)
      correlations ;;
  (* Normalize by template length *)
  Ok (idiv correlations (of_nat (shape1 template_chroma))).

(** Lines 134 to 137: the selection. *)
Definition best (correlations : list float) : result (nat * float) :=
  best_idx <- argmax correlations ;;
  let best_score := nth best_idx correlations nan / 12 in
  Ok (best_idx, best_score).

Definition match_template_chroma (lib : numerics)
    (template_chroma search_chroma : matrix) : result (nat * float) :=
  correlations <- correlations lib template_chroma search_chroma ;;
  best correlations.

(** ** One instance of the library: binary64 entries, every reduction
    summed from left to right *)

Definition sum (l : list float) : float := fold_left PrimFloat.add l 0.

Definition size (A : matrix) : nat := length (concat A).

Definition direct_mean (A : matrix) : float := sum (concat A) / of_nat (size A).

Definition direct_std (A : matrix) : float :=
  PrimFloat.sqrt
    (sum (map (fun x => (x - direct_mean A) * (x - direct_mean A)) (concat A))
     / of_nat (size A)).

Definition dot (a b : list float) : float :=
  sum (map (fun p => fst p * snd p) (combine a b)).

Definition window (k m : nat) (l : list float) : list float :=
  firstn m (skipn k l).

Definition correlate_valid (in1 in2 : list float) : result (list float) :=
  if ((length in1 =? 0) || (length in2 =? 0))%nat then Raise ValueError
  else if (length in2 <=? length in1)%nat then
    Ok (map (fun k => dot (window k (length in2) in1) in2)
            (seq 0 (length in1 - length in2 + 1)))
  else
    Ok (rev (map (fun k => dot (window k (length in1) in2) in1)
                 (seq 0 (length in2 - length in1 + 1)))).

Definition direct : numerics :=
  {| mean := direct_mean;
     std := direct_std;
     sub := PrimFloat.sub;
     add := PrimFloat.add;
     div := PrimFloat.div;
     correlate := correlate_valid |}.

End Float64.

(* ================================================================== *)
(** * The outside world of the scripts *)
(* ================================================================== *)

Module Sys.

(** What a run finds outside the interpreter: the import flags set at
    the top of [detect_amen.py], the file system, and the answers of
    the external tools ([ffprobe], [ffmpeg], [librosa]).  Creating the
    temporary file and removing it are taken to succeed. *)
Record world : Type := {
  numpy_available : bool;
  librosa_available : bool;
  scipy_available : bool;
  (** [os.path.exists] *)
  path_exists : string -> bool;
  (** [np.load] *)
  np_load : string -> result Np.matrix;
  (** [subprocess.run] of [ffprobe]: the exception it raises when the
      program cannot be started ([FileNotFoundError], a kind of
      [OSError], when it is not installed), otherwise the return code
      and what [float(stdout.strip())] gives ([None] when it is not a
      number) *)
  ffprobe : string -> result (Z * option R);
  (** [subprocess.run] of [ffmpeg]: the exception it raises when the
      program cannot be started, otherwise the return code *)
  ffmpeg : string -> Z -> R -> string -> result Z;
  (** the name chosen by [tempfile.NamedTemporaryFile] *)
  tmp_name : string;
  (** [librosa.load] followed by [librosa.feature.chroma_cqt] *)
  librosa_chroma : string -> Z -> result Np.matrix;
  (** [str(Path(__file__).parent.parent / "config" / "audio_templates")] *)
  default_template_dir : string
}.

(** The stages of a run that reach outside, in the order they happen. *)
Inductive event : Type :=
  | EvExists (path : string)
  | EvLoad (path : string)
  | EvProbe (video_path : string)
  | EvMkTemp (path : string)
  | EvExtract (video_path : string) (start_sec : Z) (duration_sec : R)
              (output_path : string)
  | EvChroma (audio_path : string)
  | EvMatch
  | EvRemove (path : string).

(** A computation that records its events and returns or raises. *)
Definition io (A : Type) : Type := (list event * result A)%type.

Definition ret {A : Type} (a : A) : io A := ([], Ok a).

Definition raise {A : Type} (e : exn) : io A := ([], Raise e).

Definition emit (ev : event) : io unit := ([ev], Ok tt).

Definition lift {A : Type} (r : result A) : io A := ([], r).

Definition bind {A B : Type} (m : io A) (f : A -> io B) : io B :=
  match m with
  | (t, Ok a) => let (t', r) := f a in (t ++ t', r)
  | (t, Raise e) => (t, Raise e)
  end.

(** [try: body / except Exception as e: handler(e)] *)
Definition try_except {A : Type} (body : io A) (handler : exn -> io A) : io A :=
  match body with
  | (t, Raise e) => let (t', r) := handler e in (t ++ t', r)
  | done => done
  end.

(** [try: body / finally: cleanup] *)
Definition try_finally {A : Type} (body : io A) (cleanup : io unit) : io A :=
  let (t, r) := body in
  match cleanup with
  | (t', Ok _) => (t ++ t', r)
  | (t', Raise e) => (t ++ t', Raise e)
  end.

Definition trace {A : Type} (m : io A) : list event := fst m.

Definition outcome_of {A : Type} (m : io A) : result A := snd m.

End Sys.

Declare Scope io_scope.
Delimit Scope io_scope with io.
Notation "x <- m ;; k" := (Sys.bind m (fun x => k))
  (at level 61, m at next level, right associativity) : io_scope.
Notation "m ;; k" := (Sys.bind m (fun _ => k))
  (at level 61, right associativity) : io_scope.

(* ================================================================== *)
(** * [scripts/detect_amen.py] *)
(* ================================================================== *)

Module DetectAmen.

Import Np Sys.
Local Open Scope R_scope.
Local Open Scope string_scope.

(** The text of the ["error"] entry, kept as data: which message it is
    and the values formatted into it. *)
Inductive error_message : Type :=
  | MissingPackages (missing : list string)
  | Usage
  | VideoNotFound (video_path : string)
  | TemplateNotFound (template_path : string)
  | DurationFailed (e : exn)
  | VideoTooShort (video_duration : R) (search_start : Z)
  | ExtractFailed
  | BelowThreshold (best_score min_confidence : R).

(** The dictionaries that the script prints: [{"detected": True, ...}]
    and [{"detected": False, "error": ...}], the latter with
    ["best_score"] and ["best_time"] when a match was scored. *)
Inductive outcome : Type :=
  | Detected (amen_start : string) (amen_start_seconds : Z)
             (amen_end : string) (amen_end_seconds : Z) (confidence : R)
  | NotDetected (error : error_message) (best : option (R * string)).

(** [None] when nothing is missing. *)
Definition check_dependencies (w : world) : option outcome :=
  let missing :=
    ((if numpy_available w then [] else ["numpy"]) ++
     (if librosa_available w then [] else ["librosa"]) ++
     (if scipy_available w then [] else ["scipy"]))%list in
  match missing with
  | [] => None
  | _ => Some (NotDetected (MissingPackages missing) None)
  end.

Definition seconds_to_timestamp (secs : R) : string :=
  let h := (int_of_float secs / 3600)%Z in
  let m := ((int_of_float secs mod 3600) / 60)%Z in
  let s := (int_of_float secs mod 60)%Z in
  format_02d h ++ ":" ++ format_02d m ++ ":" ++ format_02d s.

Local Open Scope io_scope.

(** [ffprobe] is run; a return code other than 0 raises [RuntimeError],
    an output that is not a number makes [float] raise [ValueError]. *)
Definition get_video_duration (w : world) (video_path : string) : io R :=
  emit (EvProbe video_path) ;;
  result <- lift (ffprobe w video_path) ;;
  let (returncode, duration) := (result : Z * option R) in
  if (returncode =? 0)%Z then
    match duration with
    | Some d => ret d
    | None => raise ValueError
    end
  else raise RuntimeError.

(** [ffmpeg] is run; the answer is whether its return code is 0. *)
Definition extract_audio (w : world) (video_path : string) (start_sec : Z)
    (duration_sec : R) (output_path : string) : io bool :=
  emit (EvExtract video_path start_sec duration_sec output_path) ;;
  returncode <- lift (ffmpeg w video_path start_sec duration_sec output_path) ;;
  ret (returncode =? 0)%Z.

(** [librosa.load(audio_path, sr=22050)] gives the sample rate 22050
    back; [find_amen] calls with the default [hop_length=512]. *)
Definition compute_chroma (w : world) (audio_path : string) (hop_length : Z)
  : io (matrix * Z * Z) :=
  emit (EvChroma audio_path) ;;
  let sr := 22050%Z in
  chroma <- lift (librosa_chroma w audio_path hop_length) ;;
  ret (chroma, sr, hop_length).

Local Open Scope py_scope.

(** The literal [1e-10]. *)
Definition epsilon : R := / 10 ^ 10.

(** The matcher with its floats read as real numbers;
    [Float64.match_template_chroma] is the same code in binary64. *)

Definition match_template_chroma (template_chroma search_chroma : matrix)
  : result (nat * R) :=
  (* Normalize both *)
  let template_norm :=
    sub_div template_chroma (mean template_chroma) (std template_chroma + epsilon) in
  let search_norm :=
    sub_div search_chroma (mean search_chroma) (std search_chroma + epsilon) in
  (* Cross-correlate each chroma bin and sum *)
  correlations <-
    zeros (Z.of_nat (shape1 search_chroma) - Z.of_nat (shape1 template_chroma) + 1) ;;
  correlations <-
    for_each (seq 0 12)
      (fun i correlations =>
         search_row <- getitem search_norm i ;;
         template_row <- getitem template_norm i ;;
         corr <- correlate_valid search_row template_row ;;
         iadd correlations corr)
      correlations ;;
  (* Normalize by template length *)
  let correlations := idiv correlations (INR (shape1 template_chroma)) in
  best_idx <- argmax correlations ;;
  let best_score := nth best_idx correlations 0 / 12 in
  Ok (best_idx, best_score).

Local Close Scope py_scope.
Local Open Scope io_scope.

(** Lines 202 to 225 of [find_amen], from the answer of the matcher to
    the dictionary that is returned; they are named here so that
    properties of the localisation can be stated on their own. *)
Definition localize (template_chroma : matrix) (search_start sr hop : Z)
    (min_confidence : R) (best_idx : nat) (best_score : R) : outcome :=
  (* Convert frame index to time *)
  let best_time_in_search := IZR (Z.of_nat best_idx * hop) / IZR sr in
  let best_time_absolute := IZR search_start + best_time_in_search in
  (* End of amen = start + template duration *)
  let template_duration :=
    IZR (Z.of_nat (shape1 template_chroma) * hop) / IZR sr in
  let amen_end_absolute := best_time_absolute + template_duration in
  if Rlt_dec best_score min_confidence then
    NotDetected (BelowThreshold best_score min_confidence)
      (Some (best_score, seconds_to_timestamp amen_end_absolute))
  else
    Detected (seconds_to_timestamp best_time_absolute)
      (int_of_float best_time_absolute)
      (seconds_to_timestamp amen_end_absolute)
      (int_of_float amen_end_absolute)
      best_score.

Definition find_amen (w : world) (video_path : string)
    (start_offset_minutes search_duration_minutes : Z) (template_dir : string)
    (min_confidence : R) : io outcome :=
  (* Load template chromagram *)
  let template_path := path_join template_dir "amen_chroma.npy" in
  emit (EvExists template_path) ;;
  if negb (path_exists w template_path) then
    ret (NotDetected (TemplateNotFound template_path) None)
  else
  template_chroma <- (emit (EvLoad template_path) ;; lift (np_load w template_path)) ;;
  (* Get video duration *)
  duration <- try_except
                (d <- get_video_duration w video_path ;; ret (inr d))
                (fun e => ret (inl (NotDetected (DurationFailed e) None))) ;;
  match duration with
  | inl failure => ret failure
  | inr video_duration =>
  (* Search from start_offset for search_duration minutes *)
  let search_start := (start_offset_minutes * 60)%Z in
  let search_duration :=
    Rmin (IZR (search_duration_minutes * 60)) (video_duration - IZR search_start) in
  if Rle_dec search_duration 0 then
    ret (NotDetected (VideoTooShort video_duration search_start) None)
  else
  (* Extract audio to temp file *)
  let search_audio_path := tmp_name w in
  emit (EvMkTemp search_audio_path) ;;
  try_finally
    (extracted <- extract_audio w video_path search_start search_duration
                    search_audio_path ;;
     if negb extracted then ret (NotDetected ExtractFailed None)
     else
     (* Compute chromagram of search region *)
     computed <- compute_chroma w search_audio_path 512 ;;
     let '(search_chroma, sr, hop) := computed in
     (* Match template *)
     matched <- (emit EvMatch ;;
                 lift (match_template_chroma template_chroma search_chroma)) ;;
     let '(best_idx, best_score) := matched in
     ret (localize template_chroma search_start sr hop min_confidence
            best_idx best_score))
    (emit (EvExists search_audio_path) ;;
     if path_exists w search_audio_path then emit (EvRemove search_audio_path)
     else ret tt)
  end.

(** The default of [min_confidence]. *)
Definition default_min_confidence : R := 50 / 100.

(** What the process wrote on standard output. *)
Inductive printed : Type :=
  | PrintDoc
  | PrintJson (o : outcome).

(** How the process ended: [sys.exit(code)] or falling off the end of
    [main] (code 0), or an exception nobody caught (a traceback). *)
Inductive termination : Type :=
  | Exit (code : Z)
  | Traceback (e : exn).

(** The exit status that the caller of the script sees: the code given
    to [sys.exit], 0 at the end of [main], and 1 when the interpreter
    ends on an exception nobody caught. *)
Definition exit_status (t : termination) : Z :=
  match t with
  | Exit code => code
  | Traceback _ => 1%Z
  end.

Record process : Type := {
  stdout : list printed;
  events : list event;
  status : termination
}.

Definition is_help (arg : string) : bool :=
  String.eqb arg "-h" || String.eqb arg "--help".

(** [main], given [sys.argv]. *)
Definition main (w : world) (argv : list string) : process :=
  (* Handle help flag *)
  if ((1 <? length argv)%nat && is_help (nth 1 argv ""))%bool then
    {| stdout := [PrintDoc]; events := []; status := Exit 0 |}
  (* Check arguments *)
  else if (length argv <? 2)%nat then
    {| stdout := [PrintJson (NotDetected Usage None)]; events := [];
       status := Exit 1 |}
  else
  (* Check dependencies *)
  match check_dependencies w with
  | Some dep_error =>
      {| stdout := [PrintJson dep_error]; events := []; status := Exit 1 |}
  | None =>
  let video_path := nth 1 argv "" in
  match (if (2 <? length argv)%nat then int_of_str (nth 2 argv "") else Ok 20%Z) with
  | Raise e => {| stdout := []; events := []; status := Traceback e |}
  | Ok start_offset_minutes =>
  match (if (3 <? length argv)%nat then int_of_str (nth 3 argv "") else Ok 90%Z) with
  | Raise e => {| stdout := []; events := []; status := Traceback e |}
  | Ok search_duration_minutes =>
  (* Determine template directory *)
  let template_dir :=
    if (4 <? length argv)%nat then nth 4 argv "" else default_template_dir w in
  (* Check video exists *)
  if negb (path_exists w video_path) then
    {| stdout := [PrintJson (NotDetected (VideoNotFound video_path) None)];
       events := [EvExists video_path]; status := Exit 1 |}
  else
  (* Run detection *)
  match find_amen w video_path start_offset_minutes search_duration_minutes
          template_dir default_min_confidence with
  | (t, Ok result) =>
      {| stdout := [PrintJson result]; events := EvExists video_path :: t;
         status := Exit 0 |}
  | (t, Raise e) =>
      {| stdout := []; events := EvExists video_path :: t; status := Traceback e |}
  end
  end
  end
  end.

End DetectAmen.

(* ================================================================== *)
(** * [scripts/create_amen_template.py] *)
(* ================================================================== *)

Module CreateAmenTemplate.

Local Open Scope py_scope.

Definition parse_timestamp (ts : string) : result Z :=
  let parts := split ":" ts in
  match parts with
  | [p0; p1; p2] =>
      a <- int_of_str p0 ;;
      b <- int_of_str p1 ;;
      c <- int_of_str p2 ;;
      Ok (a * 3600 + b * 60 + c)%Z
  | [p0; p1] =>
      a <- int_of_str p0 ;;
      b <- int_of_str p1 ;;
      Ok (a * 60 + b)%Z
  | _ => Raise ValueError
  end.

End CreateAmenTemplate.

(** The rest of the script: [extract_audio], [compute_chroma] and
    [main], once the imports at the top of the file have succeeded. *)
Module CreateAmenTemplateRun.

Import Np Sys CreateAmenTemplate.
Local Open Scope py_scope.
Local Open Scope string_scope.

(** What the script prints, one constructor for each [print], with the
    values formatted into the line. *)
Inductive line : Type :=
  | Doc
  | VideoNotFound (video_path : string)
  | TimestampError (e : exn)
  | EndNotAfterStart
  | Creating (video_path : string)
  | StartAt (start_ts : string) (start_sec : Z)
  | EndAt (end_ts : string) (end_sec : Z)
  | Duration (duration : Z)
  | Output (output_dir : string)
  | Extracting
  | FfmpegError
  | ExtractFailed
  | Created (path : string)
  | Computing
  | Shape (rows cols : nat)
  | ComputedDuration (seconds : R)
  | Success
  | Files
  | FileItem (path : string).

(** What the script does outside the interpreter, in order. *)
Inductive action : Type :=
  | AExists (path : string)
  | AMakedirs (path : string)
  | AFfmpeg (video_path : string) (start_sec duration_sec : Z)
            (output_path : string)
  | AChroma (audio_path : string)
  | ASave (path : string) (chroma : matrix).

(** A run of the script: the lines printed, the actions, and how the
    process ended. *)
Record run : Type := {
  lines : list line;
  actions : list action;
  ending : DetectAmen.termination
}.

(** [extract_audio] of this script: on a return code other than 0 it
    prints the error of [ffmpeg] and answers [False]. *)
Definition extract_audio (w : world) (video_path : string)
    (start_sec duration_sec : Z) (output_path : string)
  : result (list line * bool) :=
  returncode <- ffmpeg w video_path start_sec (IZR duration_sec) output_path ;;
  if (returncode =? 0)%Z then Ok ([], true) else Ok ([FfmpegError], false).

Definition compute_chroma (w : world) (audio_path : string) (hop_length : Z)
  : result (matrix * Z * Z) :=
  let sr := 22050%Z in
  chroma <- librosa_chroma w audio_path hop_length ;;
  Ok (chroma, sr, hop_length).

Definition main (w : world) (argv : list string) : run :=
  if (length argv <? 4)%nat then
    {| lines := [Doc]; actions := []; ending := DetectAmen.Exit 1 |}
  else
  let video_path := nth 1 argv "" in
  let start_ts := nth 2 argv "" in
  let end_ts := nth 3 argv "" in
  (* Determine output directory *)
  let output_dir :=
    if (4 <? length argv)%nat then nth 4 argv "" else default_template_dir w in
  (* Validate inputs *)
  if negb (path_exists w video_path) then
    {| lines := [VideoNotFound video_path]; actions := [AExists video_path];
       ending := DetectAmen.Exit 1 |}
  else
  (* Parse timestamps *)
  match (start_sec <- parse_timestamp start_ts ;;
         end_sec <- parse_timestamp end_ts ;;
         Ok (start_sec, end_sec)) with
  | Raise ValueError =>
      {| lines := [TimestampError ValueError]; actions := [AExists video_path];
         ending := DetectAmen.Exit 1 |}
  | Raise e =>
      {| lines := []; actions := [AExists video_path];
         ending := DetectAmen.Traceback e |}
  | Ok (start_sec, end_sec) =>
  let duration := (end_sec - start_sec)%Z in
  if (duration <=? 0)%Z then
    {| lines := [EndNotAfterStart]; actions := [AExists video_path];
       ending := DetectAmen.Exit 1 |}
  else
  let header :=
    [Creating video_path; StartAt start_ts start_sec; EndAt end_ts end_sec;
     Duration duration; Output output_dir] in
  (* Create output directory; extract audio *)
  let wav_path := path_join output_dir "amen_template.wav" in
  let prepared :=
    [AExists video_path; AMakedirs output_dir;
     AFfmpeg video_path start_sec duration wav_path] in
  match extract_audio w video_path start_sec duration wav_path with
  | Raise e =>
      {| lines := (header ++ [Extracting])%list; actions := prepared;
         ending := DetectAmen.Traceback e |}
  | Ok (complaint, extracted) =>
  if negb extracted then
    {| lines := (header ++ [Extracting] ++ complaint ++ [ExtractFailed])%list;
       actions := prepared; ending := DetectAmen.Exit 1 |}
  else
  (* Compute and save chromagram *)
  match compute_chroma w wav_path 512 with
  | Raise e =>
      {| lines := (header ++ [Extracting] ++ complaint
                   ++ [Created wav_path; Computing])%list;
         actions := (prepared ++ [AChroma wav_path])%list;
         ending := DetectAmen.Traceback e |}
  | Ok (chroma, sr, hop) =>
      let chroma_path := path_join output_dir "amen_chroma.npy" in
      {| lines := (header ++ [Extracting] ++ complaint
                   ++ [Created wav_path; Computing; Created chroma_path;
                       Shape (length chroma) (shape1 chroma);
                       ComputedDuration
                         (IZR (Z.of_nat (shape1 chroma) * hop) / IZR sr);
                       Success; Files; FileItem wav_path;
                       FileItem chroma_path])%list;
         actions := (prepared ++ [AChroma wav_path; ASave chroma_path chroma])%list;
         ending := DetectAmen.Exit 0 |}
  end
  end
  end.

End CreateAmenTemplateRun.

(* ================================================================== *)
(** * The matcher as the specification words it *)
(* ================================================================== *)

Module Spec.

Local Open Scope R_scope.

(** The sum of [f 0 .. f (n - 1)]. *)
Fixpoint sum_upto (n : nat) (f : nat -> R) : R :=
  match n with
  | O => 0
  | S n' => sum_upto n' f + f n'
  end.

(** Row [i], column [j] of a matrix. *)
Definition entry (A : Np.matrix) (i j : nat) : R := nth j (nth i A []) 0.

(** The global mean of a 12-row matrix with [c] columns. *)
Definition global_mean (c : nat) (A : Np.matrix) : R :=
  sum_upto 12 (fun i => sum_upto c (fun j => entry A i j)) / INR (12 * c).

(** Its global standard deviation. *)
Definition global_std (c : nat) (A : Np.matrix) : R :=
  sqrt (sum_upto 12 (fun i => sum_upto c (fun j =>
          (entry A i j - global_mean c A) * (entry A i j - global_mean c A)))
        / INR (12 * c)).

(** Step 1: subtract the global mean, divide by the global standard
    deviation plus the epsilon [1e-10]. *)
Definition normalized (c : nat) (A : Np.matrix) (i j : nat) : R :=
  (entry A i j - global_mean c A) / (global_std c A + 1 / 10 ^ 10).

(** Step 2: for row [i] and offset [k], the dot product of the
    normalized template row with the window [k, k + M) of the normalized
    search row. *)
Definition row_correlation (M N : nat) (T S : Np.matrix) (i k : nat) : R :=
  sum_upto M (fun j => normalized M T i j * normalized N S i (k + j)).

(** Step 3: the sum over the 12 rows, divided by [M] and by 12. *)
Definition aggregate (M N : nat) (T S : Np.matrix) (k : nat) : R :=
  sum_upto 12 (fun i => row_correlation M N T S i k) / INR M / 12.

End Spec.

(* ================================================================== *)
(** * Notions used in the statements *)
(* ================================================================== *)

Unset Implicit Arguments.

(** ** The matcher *)

Section MatcherNotions.

Import Np Spec DetectAmen.
Local Open Scope R_scope.

(** The accumulation of the loop: starting from [acc], the terms
    [g a], [g (a + 1)], ... are added one after the other. *)
Fixpoint accumulate (g : nat -> nat -> R) (a n : nat) (acc : nat -> R)
  : nat -> R :=
  match n with
  | O => acc
  | S n' => accumulate g (S a) n' (fun k => acc k + g a k)
  end.

(** [k] is the first index below [n] where [f] is largest. *)
Definition first_max (f : nat -> R) (n k : nat) : Prop :=
  (k < n)%nat /\
  (forall j, (j < n)%nat -> f j <= f k) /\
  (forall j, (j < k)%nat -> f j < f k).

(** Row [i] of the normalised matrix, as the code builds it. *)
Definition norm_row (A : matrix) (i : nat) : list R :=
  map (fun x => (x - mean A) / (std A + epsilon)) (nth i A []).

(** The correlation of row [i] at offset [k], as the code builds it. *)
Definition code_row_corr (T S : matrix) (i k : nat) : R :=
  dot (window k (shape1 T) (norm_row S i)) (norm_row T i).

(** Entry [k] of [correlations] after the division by the template
    length. *)
Definition code_correlation (T S : matrix) (k : nat) : R :=
  accumulate (code_row_corr T S) 0 12 (fun _ => 0) k / INR (shape1 T).

(** A one-frame template and a two-frame search matrix, twelve rows
    each, used to instantiate the theorems. *)
Definition template_1 : matrix := repeat [1] 12.
Definition search_2 : matrix := repeat [1; 2] 12.



(** Six pitch classes sounding, six silent, one frame. *)
Definition loud_template : matrix := repeat [2] 6 ++ repeat [0] 6.

(** The same pattern at an amplitude of [2e-10]. *)
Definition quiet_search : matrix := repeat [2 * epsilon] 6 ++ repeat [0] 6.


(** A two-frame template and a one-frame search matrix. *)
Definition template_2 : matrix := repeat [1; 2] 12.
Definition search_1 : matrix := repeat [1] 12.

End MatcherNotions.

(** ** The matcher in binary64 *)

Section FloatNotions.

Local Open Scope float_scope.

(** The real number that a finite floating-point number stands for. *)
Definition value (x : float) : R :=
  match Prim2SF x with
  | S754_finite s m e =>
      (IZR (if s then Z.neg m else Z.pos m) * powerRZ 2 e)%R
  | _ => 0%R
  end.

(** The matrix of the values of the entries. *)
Definition reals (A : Float64.matrix) : Np.matrix := map (map value) A.

(** No entry of [c] is a NaN. *)
Definition nan_free (c : list float) : Prop :=
  Forall (fun x => is_nan x = false) c.

(** [k] is the first index below [n] where [f] is largest, in the
    order of binary64. *)
Definition first_largest (f : nat -> float) (n k : nat) : Prop :=
  (k < n)%nat /\
  (forall j, (j < n)%nat -> (f j <=? f k) = true) /\
  (forall j, (j < k)%nat -> (f k <=? f j) = false).

(** Entry [k] of [c] is a largest one. *)
Definition largest_at (c : list float) (k : nat) : Prop :=
  (k < length c)%nat /\
  forall j, (j < length c)%nat -> (nth j c nan <=? nth k c nan) = true.

(** Row [i] of the normalised matrix, in the arithmetic of the
    library. *)
Definition norm_row64 (lib : Float64.numerics) (A : Float64.matrix) (i : nat)
  : list float :=
  map (fun x => Float64.div lib (Float64.sub lib x (Float64.mean lib A))
                  (Float64.add lib (Float64.std lib A) Float64.epsilon))
      (nth i A []).

(** What [a += b] adds to entry [k] of an array [a] of [n] entries: the
    entry of [b], or the only entry of a [b] that is broadcast. *)
Definition broadcast (n : nat) (b : list float) (k : nat) : float :=
  if (length b =? n)%nat then nth k b nan else nth 0 b nan.

(** Entry [k] of the accumulator after the results [rows] of the row
    correlations were added to it one after the other. *)
Fixpoint accumulate64 (n : nat) (rows : list (list float)) (k : nat)
    (acc : float) : float :=
  match rows with
  | [] => acc
  | row :: rest => accumulate64 n rest k (acc + broadcast n row k)
  end.

(** Six pitch classes sounding, six silent, one frame. *)
Definition loud_frame : Float64.matrix := repeat [2] 6 ++ repeat [0] 6.



(** Three frames: the pattern of [loud_frame] in the first and in the
    third, its complement in the second. *)
Definition echo_search : Float64.matrix :=
  repeat [2; 0; 2] 6 ++ repeat [0; 2; 0] 6.

(** The array [correlations] of [loud_frame] against [echo_search]
    when every reduction is summed from left to right. *)
Definition echo_correlations : list float :=
  [0x1.7ffffffeb6258p+3; -0x1.7ffffffeb6258p+3; 0x1.7ffffffeb6258p+3].

(** One pitch class at an amplitude of [2^-600], one frame; and two
    frames with that frame second and silence first. *)
Definition faint_template : Float64.matrix := [0x1p-600] :: repeat [0] 11.
Definition faint_search : Float64.matrix := [0; 0x1p-600] :: repeat [0; 0] 11.

End FloatNotions.

(** ** The pipeline and the process *)

Section PipelineNotions.

Import Np Sys DetectAmen.
Local Open Scope R_scope.
Local Open Scope string_scope.

(** The events of the [finally] clause. *)
Definition cleanup (w : world) : list event :=
  EvExists (tmp_name w)
  :: (if path_exists w (tmp_name w) then [EvRemove (tmp_name w)] else []).

(** The duration of the search window, in seconds. *)
Definition window_duration (search_duration_minutes start_offset_minutes : Z)
    (video_duration : R) : R :=
  Rmin (IZR (search_duration_minutes * 60))
       (video_duration - IZR (start_offset_minutes * 60)).

(** The template is there and loads as [T], and the probe gives the
    duration [d]. *)
Definition probed (w : world) (video_path template_dir : string)
    (T : matrix) (d : R) : Prop :=
  path_exists w (path_join template_dir "amen_chroma.npy") = true /\
  np_load w (path_join template_dir "amen_chroma.npy") = Ok T /\
  ffprobe w video_path = Ok (0%Z, Some d).

(** Every stage before the matcher succeeds: the window is not empty,
    the extraction succeeds and the chromagram of the window is [S]. *)
Definition reaches_matcher (w : world) (video_path : string)
    (start_offset_minutes search_duration_minutes : Z) (template_dir : string)
    (T S : matrix) : Prop :=
  exists d,
    probed w video_path template_dir T d /\
    0 < window_duration search_duration_minutes start_offset_minutes d /\
    ffmpeg w video_path (start_offset_minutes * 60)
      (window_duration search_duration_minutes start_offset_minutes d)
      (tmp_name w) = Ok 0%Z /\
    librosa_chroma w (tmp_name w) 512 = Ok S.

(** A machine with every package, every file and both tools, where the
    tools answer as given. *)
Definition studio (template : result matrix) (probe : Z * option R)
    (ffmpeg_code : Z) (chroma : result matrix) : world :=
  {| numpy_available := true;
     librosa_available := true;
     scipy_available := true;
     path_exists := fun _ => true;
     np_load := fun _ => template;
     ffprobe := fun _ => Ok probe;
     ffmpeg := fun _ _ _ _ => Ok ffmpeg_code;
     tmp_name := "/tmp/search.wav";
     librosa_chroma := fun _ _ => chroma;
     default_template_dir := "config/audio_templates" |}.

(** The same machine with [ffmpeg] not installed: [subprocess.run]
    raises [FileNotFoundError], a kind of [OSError]. *)
Definition without_ffmpeg (w : world) : world :=
  {| numpy_available := numpy_available w;
     librosa_available := librosa_available w;
     scipy_available := scipy_available w;
     path_exists := path_exists w;
     np_load := np_load w;
     ffprobe := ffprobe w;
     ffmpeg := fun _ _ _ _ => Raise OSError;
     tmp_name := tmp_name w;
     librosa_chroma := librosa_chroma w;
     default_template_dir := default_template_dir w |}.

(** The start and the end of the match found at frame 0 of a window
    that begins at minute 20, for the one-frame template. *)
Definition studio_start : R :=
  IZR (20 * 60) + IZR (Z.of_nat 0 * 512) / IZR 22050.

Definition studio_end : R :=
  studio_start + IZR (Z.of_nat (shape1 loud_template) * 512) / IZR 22050.




(** The three fields of a timestamp for a whole number of seconds. *)
Definition clock (n : Z) : string :=
  format_02d (n / 3600) ++ ":" ++ format_02d (n mod 3600 / 60) ++ ":"
  ++ format_02d (n mod 60).

(** The arguments as [main] reads them. *)
Definition arg_offset (argv : list string) : result Z :=
  if (2 <? length argv)%nat then int_of_str (nth 2 argv "") else Ok 20%Z.

Definition arg_duration (argv : list string) : result Z :=
  if (3 <? length argv)%nat then int_of_str (nth 3 argv "") else Ok 90%Z.

Definition arg_template_dir (w : world) (argv : list string) : string :=
  if (4 <? length argv)%nat then nth 4 argv "" else default_template_dir w.

(** [main] gets as far as calling [find_amen] on the video [video_path]
    with the offset [so], the duration [sd] and the directory [dir]. *)
Definition launches (w : world) (argv : list string) (video_path : string)
    (so sd : Z) (dir : string) : Prop :=
  (2 <= length argv)%nat /\
  video_path = nth 1 argv "" /\
  is_help video_path = false /\
  check_dependencies w = None /\
  arg_offset argv = Ok so /\
  arg_duration argv = Ok sd /\
  dir = arg_template_dir w argv /\
  path_exists w video_path = true.

(** The failures that the script turns into a dictionary: the outcome
    printed, the events of the run until then, and the exit code. *)
Inductive handled_failure (w : world) (argv : list string)
  : outcome -> list event -> Z -> Prop :=
  | missing_arguments :
      (length argv < 2)%nat ->
      handled_failure w argv (NotDetected Usage None) [] 1
  | missing_packages (dep_error : outcome) :
      (2 <= length argv)%nat ->
      is_help (nth 1 argv "") = false ->
      check_dependencies w = Some dep_error ->
      handled_failure w argv dep_error [] 1
  | missing_video (so sd : Z) :
      (2 <= length argv)%nat ->
      is_help (nth 1 argv "") = false ->
      check_dependencies w = None ->
      arg_offset argv = Ok so ->
      arg_duration argv = Ok sd ->
      path_exists w (nth 1 argv "") = false ->
      handled_failure w argv
        (NotDetected (VideoNotFound (nth 1 argv "")) None)
        [EvExists (nth 1 argv "")] 1
  | missing_template (video_path : string) (so sd : Z) (dir : string) :
      launches w argv video_path so sd dir ->
      path_exists w (path_join dir "amen_chroma.npy") = false ->
      handled_failure w argv
        (NotDetected (TemplateNotFound (path_join dir "amen_chroma.npy")) None)
        [EvExists video_path; EvExists (path_join dir "amen_chroma.npy")] 0
  | failed_probe (video_path : string) (so sd : Z) (dir : string)
      (T : matrix) (e : exn) :
      launches w argv video_path so sd dir ->
      path_exists w (path_join dir "amen_chroma.npy") = true ->
      np_load w (path_join dir "amen_chroma.npy") = Ok T ->
      outcome_of (get_video_duration w video_path) = Raise e ->
      handled_failure w argv
        (NotDetected (DurationFailed e) None)
        [EvExists video_path; EvExists (path_join dir "amen_chroma.npy");
         EvLoad (path_join dir "amen_chroma.npy"); EvProbe video_path] 0
  | empty_window (video_path : string) (so sd : Z) (dir : string)
      (T : matrix) (d : R) :
      launches w argv video_path so sd dir ->
      probed w video_path dir T d ->
      (window_duration sd so d <= 0)%R ->
      handled_failure w argv
        (NotDetected (VideoTooShort d (so * 60)) None)
        [EvExists video_path; EvExists (path_join dir "amen_chroma.npy");
         EvLoad (path_join dir "amen_chroma.npy"); EvProbe video_path] 0
  | failed_extraction (video_path : string) (so sd : Z) (dir : string)
      (T : matrix) (d : R) (returncode : Z) :
      launches w argv video_path so sd dir ->
      probed w video_path dir T d ->
      (0 < window_duration sd so d)%R ->
      ffmpeg w video_path (so * 60) (window_duration sd so d) (tmp_name w)
        = Ok returncode ->
      returncode <> 0%Z ->
      handled_failure w argv
        (NotDetected ExtractFailed None)
        ([EvExists video_path; EvExists (path_join dir "amen_chroma.npy");
          EvLoad (path_join dir "amen_chroma.npy"); EvProbe video_path;
          EvMkTemp (tmp_name w);
          EvExtract video_path (so * 60) (window_duration sd so d) (tmp_name w)]
         ++ cleanup w)%list 0.

(** The stages after the extraction. *)
Definition later_stage (ev : event) : bool :=
  match ev with
  | EvChroma _ | EvMatch => true
  | _ => false
  end.

End PipelineNotions.

(** ** Printed integers *)

Section NumeralNotions.

Local Open Scope string_scope.
Local Open Scope Z_scope.

(** The characters of a printed integer: digits and the minus sign. *)
Definition plain_char (c : ascii) : bool := is_digit c || Ascii.eqb c "-".

Fixpoint plain (s : string) : bool :=
  match s with
  | EmptyString => true
  | String c rest => plain_char c && plain rest
  end.

End NumeralNotions.

(** ** Further notions *)

Section FurtherNotions.

(** The number of colons of a string. *)
Fixpoint colons (s : string) : nat :=
  match s with
  | EmptyString => 0%nat
  | String c rest => ((if Ascii.eqb c ":" then 1 else 0) + colons rest)%nat
  end.

End FurtherNotions.

Set Implicit Arguments.

(* ================================================================== *)
(** * Sums, rows and windows *)
(* ================================================================== *)

Section ListSums.

Import Np Spec.
Local Open Scope R_scope.

Lemma sum_list_app (l1 l2 : list R) :
  sum_list (l1 ++ l2) = sum_list l1 + sum_list l2.
Proof.
  induction l1 as [|x l1 IH]; simpl.
  - lra.
  - rewrite IH. lra.
Qed.

Lemma sum_upto_ext (n : nat) (f g : nat -> R) :
  (forall i, (i < n)%nat -> f i = g i) -> sum_upto n f = sum_upto n g.
Proof.
  induction n as [|n IH]; intros H; simpl.
  - reflexivity.
  - rewrite IH by (intros; apply H; lia). rewrite H by lia. reflexivity.
Qed.

Lemma sum_list_nth (l : list R) :
  sum_list l = sum_upto (length l) (fun j => nth j l 0).
Proof.
  induction l as [|x l IH] using rev_ind.
  - reflexivity.
  - rewrite sum_list_app, length_app, Nat.add_1_r. simpl.
    rewrite IH. rewrite app_nth2 by lia. rewrite Nat.sub_diag. simpl.
    f_equal; [|lra].
    apply sum_upto_ext. intros i Hi. rewrite app_nth1 by lia. reflexivity.
Qed.

Lemma sum_list_map_nth (f : R -> R) (l : list R) :
  sum_list (map f l) = sum_upto (length l) (fun j => f (nth j l 0)).
Proof.
  rewrite sum_list_nth, length_map.
  apply sum_upto_ext. intros i Hi.
  rewrite (nth_indep _ 0 (f 0)) by (rewrite length_map; exact Hi).
  apply map_nth.
Qed.

Lemma sum_list_concat (A : matrix) :
  sum_list (concat A) = sum_upto (length A) (fun i => sum_list (nth i A [])).
Proof.
  induction A as [|row A IH] using rev_ind.
  - reflexivity.
  - rewrite concat_app, sum_list_app, length_app, Nat.add_1_r. simpl.
    rewrite app_nil_r, IH, app_nth2 by lia. rewrite Nat.sub_diag. simpl.
    f_equal.
    apply sum_upto_ext. intros i Hi. rewrite app_nth1 by lia. reflexivity.
Qed.

Lemma is_matrix_row (r c : nat) (A : matrix) (i : nat) :
  is_matrix r c A -> (i < r)%nat -> length (nth i A []) = c.
Proof.
  intros [Hr Hc] Hi. rewrite Forall_forall in Hc.
  apply Hc, nth_In. lia.
Qed.

Lemma is_matrix_size (r c : nat) (A : matrix) :
  is_matrix r c A -> size A = (r * c)%nat.
Proof.
  unfold size. revert r. induction A as [|row A IH]; intros r [Hr Hc].
  - simpl in *. subst r. reflexivity.
  - simpl in Hr. subst r. inversion Hc as [|? ? Hrow Hrest]; subst.
    simpl. rewrite length_app, (IH (length A)) by (split; [reflexivity|assumption]).
    lia.
Qed.

Lemma is_matrix_shape1 (r c : nat) (A : matrix) :
  is_matrix r c A -> (0 < r)%nat -> shape1 A = c.
Proof.
  intros [Hr Hc] Hpos. destruct A as [|row A]; simpl in *; [lia|].
  inversion Hc; assumption.
Qed.

(** The sum of [f] over all entries of a matrix, row by row. *)
Lemma sum_list_matrix (r c : nat) (A : matrix) (f : R -> R) :
  is_matrix r c A ->
  sum_list (map f (concat A)) =
  sum_upto r (fun i => sum_upto c (fun j => f (entry A i j))).
Proof.
  intros HA. rewrite concat_map, sum_list_concat, length_map.
  destruct HA as [Hr Hc]. rewrite Hr.
  apply sum_upto_ext. intros i Hi.
  change (@nil R) with (map f []). rewrite map_nth, sum_list_map_nth.
  rewrite (@is_matrix_row r c A i) by (try split; assumption).
  reflexivity.
Qed.

Lemma mean_global (c : nat) (A : matrix) :
  is_matrix 12 c A -> mean A = global_mean c A.
Proof.
  intros HA. unfold mean, global_mean.
  rewrite (is_matrix_size HA).
  rewrite <- (map_id (concat A)) at 1.
  rewrite (sum_list_matrix (fun x => x) HA). reflexivity.
Qed.

Lemma std_global (c : nat) (A : matrix) :
  is_matrix 12 c A -> std A = global_std c A.
Proof.
  intros HA. unfold std, global_std.
  rewrite (is_matrix_size HA), <- (mean_global HA).
  rewrite (sum_list_matrix (fun x => (x - mean A) * (x - mean A)) HA).
  reflexivity.
Qed.


End ListSums.

(* ================================================================== *)
(** * The steps of [match_template_chroma] *)
(* ================================================================== *)

Section MatcherSteps.

Import Np Spec DetectAmen.
Local Open Scope R_scope.

Lemma dot_sum (a b : list R) :
  length a = length b ->
  dot a b = sum_upto (length a) (fun j => nth j a 0 * nth j b 0).
Proof.
  intros Hlen. unfold dot.
  rewrite sum_list_nth, length_map, length_combine, <- Hlen, Nat.min_id.
  apply sum_upto_ext. intros j Hj.
  set (f := fun p : R * R => fst p * snd p).
  rewrite (nth_indep _ 0 (f (0, 0))).
  - rewrite map_nth, combine_nth by exact Hlen. reflexivity.
  - rewrite length_map, length_combine. lia.
Qed.

Lemma window_length (k m : nat) (l : list R) :
  (k + m <= length l)%nat -> length (window k m l) = m.
Proof.
  intros H. unfold window. rewrite length_firstn, length_skipn. lia.
Qed.

Lemma window_nth (k m : nat) (l : list R) (j : nat) :
  (j < m)%nat -> nth j (window k m l) 0 = nth (k + j) l 0.
Proof.
  intros Hj. unfold window. rewrite nth_firstn, nth_skipn.
  destruct (Nat.ltb_spec j m); [reflexivity | lia].
Qed.

Lemma dot_window (k : nat) (s t : list R) :
  (k + length t <= length s)%nat ->
  dot (window k (length t) s) t =
  sum_upto (length t) (fun j => nth j t 0 * nth (k + j) s 0).
Proof.
  intros H. rewrite dot_sum by (apply window_length; exact H).
  rewrite window_length by exact H.
  apply sum_upto_ext. intros j Hj. rewrite window_nth by exact Hj. lra.
Qed.

Lemma correlate_valid_ok (s t : list R) :
  (1 <= length t <= length s)%nat ->
  correlate_valid s t =
  Ok (map (fun k => dot (window k (length t) s) t)
          (seq 0 (length s - length t + 1))).
Proof.
  intros [H1 H2]. unfold correlate_valid.
  destruct (Nat.eqb_spec (length s) 0); [lia|].
  destruct (Nat.eqb_spec (length t) 0); [lia|]. simpl.
  destruct (Nat.leb_spec (length t) (length s)); [reflexivity | lia].
Qed.

Lemma repeat_map_seq (x : R) (n a : nat) :
  repeat x n = map (fun _ => x) (seq a n).
Proof.
  revert a. induction n as [|n IH]; intros a; simpl.
  - reflexivity.
  - rewrite <- IH. reflexivity.
Qed.

Lemma zeros_ok (n : nat) :
  zeros (Z.of_nat n) = Ok (map (fun _ => 0) (seq 0 n)).
Proof.
  unfold zeros. destruct (Z.ltb_spec (Z.of_nat n) 0); [lia|].
  rewrite Nat2Z.id. f_equal. apply repeat_map_seq.
Qed.

Lemma combine_map_seq (A B : Type) (f : nat -> A) (g : nat -> B) (l : list nat) :
  combine (map f l) (map g l) = map (fun k => (f k, g k)) l.
Proof.
  induction l as [|x l IH]; simpl; [reflexivity | rewrite IH; reflexivity].
Qed.

Lemma iadd_ok (f g : nat -> R) (n : nat) :
  iadd (map f (seq 0 n)) (map g (seq 0 n)) =
  Ok (map (fun k => f k + g k) (seq 0 n)).
Proof.
  unfold iadd. rewrite !length_map, Nat.eqb_refl.
  rewrite combine_map_seq, map_map. reflexivity.
Qed.

Lemma getitem_sub_div (A : matrix) (a b : R) (i : nat) :
  (i < length A)%nat ->
  getitem (sub_div A a b) i = Ok (map (fun x => (x - a) / b) (nth i A [])).
Proof.
  intros Hi. unfold getitem, sub_div.
  rewrite nth_error_map, (nth_error_nth' A [] Hi). reflexivity.
Qed.

Lemma accumulate_sum (g : nat -> nat -> R) (n a : nat) (acc : nat -> R) (k : nat) :
  accumulate g a n acc k = acc k + sum_upto n (fun i => g (a + i)%nat k).
Proof.
  revert a acc. induction n as [|n IH]; intros a acc.
  - simpl. lra.
  - change (accumulate g a (S n) acc k)
      with (accumulate g (S a) n (fun k => acc k + g a k) k).
    rewrite IH. clear IH.
    assert (E : forall m, sum_upto (S m) (fun i => g (a + i)%nat k) =
                g a k + sum_upto m (fun i => g (S a + i)%nat k)).
    { induction m as [|m IHm].
      - simpl. rewrite Nat.add_0_r. lra.
      - change (sum_upto (S (S m)) (fun i => g (a + i)%nat k))
          with (sum_upto (S m) (fun i => g (a + i)%nat k) + g (a + S m)%nat k).
        rewrite IHm. simpl. rewrite Nat.add_succ_r. lra. }
    rewrite E. lra.
Qed.

Lemma for_each_accumulate (body : nat -> list R -> result (list R))
    (g : nat -> nat -> R) (L : nat) (n a : nat) (acc : nat -> R) :
  (forall i f, (a <= i < a + n)%nat ->
     body i (map f (seq 0 L)) = Ok (map (fun k => f k + g i k) (seq 0 L))) ->
  for_each (seq a n) body (map acc (seq 0 L)) =
  Ok (map (accumulate g a n acc) (seq 0 L)).
Proof.
  revert a acc. induction n as [|n IH]; intros a acc Hbody.
  - reflexivity.
  - simpl. rewrite Hbody by lia. simpl.
    apply IH. intros i f Hi. apply Hbody. lia.
Qed.

End MatcherSteps.

(* ================================================================== *)
(** * The scan of [np.argmax] *)
(* ================================================================== *)

Section Argmax.

Import Np.
Local Open Scope R_scope.

Lemma argmax_from_first_max (f : nat -> R) (rest : list R) :
  forall (best_i : nat) (best : R) (i : nat),
  (forall j, (j < length rest)%nat -> nth j rest 0 = f (i + j)%nat) ->
  best = f best_i ->
  first_max f i best_i ->
  first_max f (i + length rest) (argmax_from best_i best i rest).
Proof.
  induction rest as [|x rest IH]; intros best_i best i Hnth Hbest Hmax.
  - simpl. rewrite Nat.add_0_r. exact Hmax.
  - assert (Hx : x = f i).
    { specialize (Hnth 0%nat). simpl in Hnth. rewrite Nat.add_0_r in Hnth.
      apply Hnth. lia. }
    assert (Hrest : forall j, (j < length rest)%nat ->
                      nth j rest 0 = f (S i + j)%nat).
    { intros j Hj. specialize (Hnth (S j)). simpl in Hnth.
      rewrite Nat.add_succ_r in Hnth. apply Hnth. lia. }
    destruct Hmax as (Hlt & Hle & Hfirst).
    simpl length. rewrite Nat.add_succ_r, <- Nat.add_succ_l.
    simpl argmax_from. destruct (Rlt_dec best x) as [Hbx | Hbx].
    + apply IH; [exact Hrest | exact Hx |].
      subst best x. repeat split.
      * lia.
      * intros j Hj. destruct (Nat.eq_dec j i) as [-> | Hne]; [lra|].
        specialize (Hle j ltac:(lia)). lra.
      * intros j Hj. specialize (Hle j Hj). lra.
    + apply IH; [exact Hrest | exact Hbest |].
      subst best x. repeat split.
      * lia.
      * intros j Hj. destruct (Nat.eq_dec j i) as [-> | Hne]; [lra|].
        apply Hle. lia.
      * exact Hfirst.
Qed.

Lemma argmax_first_max (f : nat -> R) (n : nat) :
  (1 <= n)%nat ->
  exists k, argmax (map f (seq 0 n)) = Ok k /\ first_max f n k.
Proof.
  intros Hn. destruct n as [|n]; [lia|].
  simpl. eexists. split; [reflexivity|].
  change (S n) with (1 + n)%nat.
  rewrite <- (length_seq n 1) at 1.
  rewrite <- (length_map f (seq 1 n)).
  apply argmax_from_first_max.
  - intros j Hj. rewrite length_map, length_seq in Hj.
    rewrite (nth_indep _ 0 (f 0%nat)) by (rewrite length_map, length_seq; exact Hj).
    rewrite map_nth, seq_nth by exact Hj. reflexivity.
  - reflexivity.
  - repeat split; [lia | | lia].
    intros j Hj. replace j with 0%nat by lia. lra.
Qed.



End Argmax.

(* ================================================================== *)
(** * What [match_template_chroma] computes *)
(* ================================================================== *)

Section MatcherRun.

Import Np Spec DetectAmen.
Local Open Scope R_scope.

Lemma norm_row_length (r c : nat) (A : matrix) (i : nat) :
  is_matrix r c A -> (i < r)%nat -> length (norm_row A i) = c.
Proof.
  intros HA Hi. unfold norm_row. rewrite length_map.
  exact (is_matrix_row HA Hi).
Qed.

Lemma match_template_chroma_run (T S : matrix) (M N : nat) :
  is_matrix 12 M T -> is_matrix 12 N S -> (1 <= M <= N)%nat ->
  exists k,
    match_template_chroma T S = Ok (k, code_correlation T S k / 12) /\
    first_max (code_correlation T S) (N - M + 1) k.
Proof.
  intros HT HS HMN. unfold match_template_chroma.
  assert (HsT : shape1 T = M) by (apply (is_matrix_shape1 HT); lia).
  assert (HsS : shape1 S = N) by (apply (is_matrix_shape1 HS); lia).
  rewrite HsS.
  replace (Z.of_nat N - Z.of_nat (shape1 T) + 1)%Z with (Z.of_nat (N - M + 1))
    by (rewrite HsT; lia).
  rewrite zeros_ok. unfold Py.bind at 1.
  rewrite (@for_each_accumulate _ (code_row_corr T S) (N - M + 1) 12 0 (fun _ => 0)).
  - unfold Py.bind at 1. unfold idiv. rewrite map_map.
    destruct (@argmax_first_max (code_correlation T S) (N - M + 1) ltac:(lia))
      as (k & Hk & Hmax).
    exists k. unfold code_correlation in Hk at 1. rewrite Hk.
    split; [|exact Hmax].
    unfold Py.bind. do 2 f_equal.
    destruct Hmax as (Hlt & _).
    set (c := fun x => accumulate (code_row_corr T S) 0 12 (fun _ => 0) x / INR (shape1 T)).
    rewrite (nth_indep _ 0 (c 0%nat)) by (rewrite length_map, length_seq; exact Hlt).
    rewrite map_nth, seq_nth by exact Hlt. reflexivity.
  - intros i f Hi.
    rewrite getitem_sub_div by (destruct HS as [-> _]; lia).
    unfold Py.bind at 1.
    rewrite getitem_sub_div by (destruct HT as [-> _]; lia).
    unfold Py.bind at 1.
    fold (norm_row S i). fold (norm_row T i).
    assert (HlT : length (norm_row T i) = M) by (apply (norm_row_length HT); lia).
    assert (HlS : length (norm_row S i) = N) by (apply (norm_row_length HS); lia).
    rewrite correlate_valid_ok by lia.
    unfold Py.bind. rewrite HlT, HlS.
    rewrite iadd_ok. unfold code_row_corr. rewrite HsT. reflexivity.
Qed.

(** The code's correlation entry, divided by 12, is the aggregate of
    the specification. *)
Lemma code_correlation_aggregate (T S : matrix) (M N k : nat) :
  is_matrix 12 M T -> is_matrix 12 N S -> (k + M <= N)%nat ->
  code_correlation T S k / 12 = aggregate M N T S k.
Proof.
  intros HT HS Hk. unfold code_correlation, aggregate.
  assert (HsT : shape1 T = M) by (apply (is_matrix_shape1 HT); lia).
  rewrite accumulate_sum, HsT. do 2 f_equal.
  rewrite Rplus_0_l. apply sum_upto_ext. intros i Hi. simpl.
  unfold code_row_corr, row_correlation. rewrite HsT.
  assert (HlT : length (norm_row T i) = M) by (apply (norm_row_length HT); lia).
  assert (HlS : length (norm_row S i) = N) by (apply (norm_row_length HS); lia).
  rewrite <- HlT at 1. rewrite dot_window by lia. rewrite HlT.
  apply sum_upto_ext. intros j Hj.
  unfold norm_row, normalized, entry.
  assert (Heps : epsilon = 1 / 10 ^ 10) by (unfold epsilon; lra).
  rewrite <- (mean_global HT), <- (mean_global HS),
          <- (std_global HT), <- (std_global HS), <- Heps.
  set (fT := fun x => (x - mean T) / (std T + epsilon)).
  set (fS := fun x => (x - mean S) / (std S + epsilon)).
  rewrite (nth_indep (map fT _) 0 (fT 0))
    by (rewrite length_map, (is_matrix_row HT Hi); exact Hj).
  rewrite (nth_indep (map fS _) 0 (fS 0))
    by (rewrite length_map, (is_matrix_row HS Hi); lia).
  rewrite !map_nth. reflexivity.
Qed.

End MatcherRun.

(* ================================================================== *)
(** * The matrices of the examples *)
(* ================================================================== *)

Section SmallMatrices.

Import Np Spec DetectAmen.
Local Open Scope R_scope.


Lemma search_2_shape : is_matrix 12 2 search_2.
Proof. split; [reflexivity | repeat constructor]. Qed.

End SmallMatrices.

(* ================================================================== *)
(** * Scaling an input of the matcher *)
(* ================================================================== *)

Section Scaling.

Import Np Spec DetectAmen.
Local Open Scope R_scope.

Lemma epsilon_pos : 0 < epsilon.
Proof. unfold epsilon. apply Rinv_0_lt_compat. lra. Qed.



















End Scaling.

(* ================================================================== *)
(** * A loud template against a nearly silent search window *)
(* ================================================================== *)

Section QuietSearch.

Import Np Spec DetectAmen.
Local Open Scope R_scope.

Lemma loud_template_shape : is_matrix 12 1 loud_template.
Proof. split; [reflexivity | repeat constructor]. Qed.

Lemma quiet_search_shape : is_matrix 12 1 quiet_search.
Proof. split; [reflexivity | repeat constructor]. Qed.

Lemma INR_12 : INR 12 = 12.
Proof. simpl. lra. Qed.

Lemma loud_template_mean : global_mean 1 loud_template = 1.
Proof.
  unfold global_mean. cbn [sum_upto entry nth loud_template repeat app Nat.mul Nat.add].
  rewrite INR_12. lra.
Qed.

Lemma loud_template_std : global_std 1 loud_template = 1.
Proof.
  unfold global_std. rewrite loud_template_mean.
  cbn [sum_upto entry nth loud_template repeat app Nat.mul Nat.add].
  rewrite INR_12.
  match goal with |- sqrt ?e = _ => replace e with 1 by field end.
  apply sqrt_1.
Qed.

Lemma quiet_search_mean : global_mean 1 quiet_search = epsilon.
Proof.
  unfold global_mean. cbn [sum_upto entry nth quiet_search repeat app Nat.mul Nat.add].
  rewrite INR_12. lra.
Qed.

Lemma quiet_search_std : global_std 1 quiet_search = epsilon.
Proof.
  unfold global_std. rewrite quiet_search_mean.
  cbn [sum_upto entry nth quiet_search repeat app Nat.mul Nat.add].
  rewrite INR_12.
  match goal with
  | |- sqrt ?e = _ => replace e with (epsilon * epsilon) by field
  end.
  apply sqrt_square. left. exact epsilon_pos.
Qed.

Lemma quiet_search_score :
  match_template_chroma loud_template quiet_search =
  Ok (0%nat, / (2 * (1 + epsilon))).
Proof.
  destruct (match_template_chroma_run loud_template_shape quiet_search_shape
              ltac:(lia)) as (k & Hrun & Hlt & _).
  assert (k = 0%nat) by lia. subst k.
  rewrite Hrun. do 2 f_equal.
  rewrite (code_correlation_aggregate 0 loud_template_shape quiet_search_shape)
    by lia.
  unfold aggregate, row_correlation, normalized.
  rewrite loud_template_mean, loud_template_std,
          quiet_search_mean, quiet_search_std.
  cbn [sum_upto entry nth loud_template quiet_search repeat app Nat.add INR].
  unfold epsilon. field.
Qed.











End QuietSearch.

(* ================================================================== *)
(** * The order of binary64 numbers *)
(* ================================================================== *)

Section FloatOrder.

Local Open Scope float_scope.

Lemma SFcompare_refl (f : spec_float) :
  f <> S754_nan -> SFcompare f f = Some Eq.
Proof.
  destruct f as [s | s | | s m e]; intros H; try reflexivity.
  - destruct s; reflexivity.
  - congruence.
  - simpl. rewrite Z.compare_refl.
    change (Pos.compare_cont Eq m m) with (Pos.compare m m).
    rewrite Pos.compare_refl. destruct s; reflexivity.
Qed.

Lemma is_nan_spec (x : float) : is_nan x = false <-> Prim2SF x <> S754_nan.
Proof.
  unfold is_nan. rewrite FloatAxioms.eqb_spec. unfold SFeqb. split.
  - intros H Hn. rewrite Hn in H. discriminate H.
  - intros H. rewrite (SFcompare_refl H). reflexivity.
Qed.

Ltac compare_cases :=
  repeat match goal with
  | |- context [Z.compare ?a ?b] => destruct (Z.compare_spec a b)
  | H : context [Z.compare ?a ?b] |- _ => destruct (Z.compare_spec a b)
  | |- context [Pos.compare_cont Eq ?a ?b] =>
      change (Pos.compare_cont Eq a b) with (Pos.compare a b);
      destruct (Pos.compare_spec a b)
  | H : context [Pos.compare_cont Eq ?a ?b] |- _ =>
      change (Pos.compare_cont Eq a b) with (Pos.compare a b) in H;
      destruct (Pos.compare_spec a b)
  end.

Lemma SFleb_trans (f g h : spec_float) :
  SFleb f g = true -> SFleb g h = true -> SFleb f h = true.
Proof.
  unfold SFleb.
  destruct f as [s1 | s1 | | s1 m1 e1]; destruct g as [s2 | s2 | | s2 m2 e2];
    destruct h as [s3 | s3 | | s3 m3 e3];
    try destruct s1; try destruct s2; try destruct s3; simpl;
    try discriminate; try reflexivity; intros H1 H2;
    compare_cases; subst; simpl in *;
    try discriminate; try reflexivity; try lia.
Qed.

Lemma SFleb_total (f g : spec_float) :
  f <> S754_nan -> g <> S754_nan -> SFleb f g = false -> SFleb g f = true.
Proof.
  unfold SFleb.
  destruct f as [s1 | s1 | | s1 m1 e1]; destruct g as [s2 | s2 | | s2 m2 e2];
    try destruct s1; try destruct s2; simpl;
    try discriminate; try reflexivity; try congruence; intros _ _ H1;
    compare_cases; subst; simpl in *;
    try discriminate; try reflexivity; try lia.
Qed.

Lemma float_leb_trans (x y z : float) :
  (x <=? y) = true -> (y <=? z) = true -> (x <=? z) = true.
Proof. rewrite !FloatAxioms.leb_spec. apply SFleb_trans. Qed.

Lemma float_leb_total (x y : float) :
  is_nan x = false -> is_nan y = false ->
  (x <=? y) = false -> (y <=? x) = true.
Proof. rewrite !is_nan_spec, !FloatAxioms.leb_spec. apply SFleb_total. Qed.

Lemma float_leb_refl (x : float) : is_nan x = false -> (x <=? x) = true.
Proof.
  rewrite is_nan_spec, FloatAxioms.leb_spec. intros H. unfold SFleb.
  rewrite (SFcompare_refl H). reflexivity.
Qed.

End FloatOrder.

(* ================================================================== *)
(** * The selection of the matcher in binary64 *)
(* ================================================================== *)

Section FloatSelection.

Import Float64.
Local Open Scope float_scope.

Lemma argmax_from_first_largest (f : nat -> float) (rest : list float) :
  forall (best_i : nat) (best : float) (i : nat),
  (forall j, (j < length rest)%nat -> nth j rest nan = f (i + j)%nat) ->
  (forall j, (j < i + length rest)%nat -> is_nan (f j) = false) ->
  best = f best_i ->
  first_largest f i best_i ->
  first_largest f (i + length rest) (argmax_from best_i best i rest).
Proof.
  induction rest as [|x rest IH]; intros best_i best i Hnth Hnan Hbest Hmax.
  - simpl. rewrite Nat.add_0_r. exact Hmax.
  - assert (Hx : x = f i).
    { specialize (Hnth 0%nat). simpl in Hnth. rewrite Nat.add_0_r in Hnth.
      apply Hnth. lia. }
    assert (Hrest : forall j, (j < length rest)%nat ->
                      nth j rest nan = f (S i + j)%nat).
    { intros j Hj. specialize (Hnth (S j)). simpl in Hnth.
      rewrite Nat.add_succ_r in Hnth. apply Hnth. lia. }
    destruct Hmax as (Hlt & Hle & Hfirst).
    simpl length in *. rewrite Nat.add_succ_r, <- Nat.add_succ_l in *.
    simpl argmax_from. subst best x.
    destruct (f i <=? f best_i) eqn:Hcmp.
    + apply IH; [exact Hrest | exact Hnan | reflexivity |].
      repeat split.
      * lia.
      * intros j Hj. destruct (Nat.eq_dec j i) as [-> | Hne]; [exact Hcmp|].
        apply Hle. lia.
      * exact Hfirst.
    + rewrite (Hnan i) by lia.
      assert (Hbi : (f best_i <=? f i) = true)
        by (apply float_leb_total; [apply Hnan | apply Hnan | exact Hcmp]; lia).
      apply IH; [exact Hrest | exact Hnan | reflexivity |].
      repeat split.
      * lia.
      * intros j Hj. destruct (Nat.eq_dec j i) as [-> | Hne].
        -- apply float_leb_refl, Hnan. lia.
        -- apply float_leb_trans with (y := f best_i); [apply Hle; lia | exact Hbi].
      * intros j Hj. destruct (f i <=? f j) eqn:Hij; [|reflexivity].
        rewrite (float_leb_trans Hij (Hle j Hj)) in Hcmp. discriminate Hcmp.
Qed.

Lemma nan_free_nth (c : list float) (j : nat) :
  nan_free c -> (j < length c)%nat -> is_nan (nth j c nan) = false.
Proof.
  intros Hc Hj. unfold nan_free in Hc. rewrite Forall_forall in Hc.
  apply Hc, nth_In, Hj.
Qed.

(** [np.argmax] on an array without NaN: the first of the largest
    entries. *)
Lemma argmax_first_largest (c : list float) :
  c <> [] -> nan_free c ->
  exists k, argmax c = Ok k /\ first_largest (fun j => nth j c nan) (length c) k.
Proof.
  intros Hne Hnan. destruct c as [|x rest]; [congruence|].
  unfold argmax.
  assert (Hx : is_nan x = false)
    by (apply (nan_free_nth (j := 0) Hnan); simpl; lia).
  rewrite Hx. eexists. split; [reflexivity|].
  change (length (x :: rest)) with (1 + length rest)%nat.
  apply argmax_from_first_largest.
  - intros j Hj. reflexivity.
  - intros j Hj. apply (nan_free_nth Hnan). simpl. lia.
  - reflexivity.
  - repeat split; [lia | | lia].
    intros j Hj. replace j with 0%nat by lia.
    apply float_leb_refl. apply (nan_free_nth (j := 0) Hnan). simpl. lia.
Qed.

(** What the matcher answers once the array [correlations] stands. *)
Lemma best_first_largest (c : list float) :
  c <> [] -> nan_free c ->
  exists k,
    best c = Ok (k, nth k c nan / 12) /\
    first_largest (fun j => nth j c nan) (length c) k.
Proof.
  intros Hne Hnan.
  destruct (argmax_first_largest Hne Hnan) as (k & Hk & Hmax).
  exists k. split; [|exact Hmax].
  unfold best. rewrite Hk. reflexivity.
Qed.

Lemma for_each_invariant (A X : Type) (P : A -> Prop) (body : X -> A -> result A)
    (xs : list X) :
  (forall x a a', P a -> body x a = Ok a' -> P a') ->
  forall acc r, P acc -> for_each xs body acc = Ok r -> P r.
Proof.
  intros Hbody. induction xs as [|x xs IH]; intros acc r Hacc Hrun.
  - simpl in Hrun. injection Hrun as <-. exact Hacc.
  - simpl in Hrun. destruct (body x acc) as [a' | e] eqn:Hstep;
      [|discriminate Hrun].
    simpl in Hrun. exact (IH a' r (Hbody x acc a' Hacc Hstep) Hrun).
Qed.

Lemma iadd_length (a b r : list float) :
  iadd a b = Ok r -> length r = length a.
Proof.
  unfold iadd. destruct (Nat.eqb_spec (length a) (length b)) as [Hlen | Hlen].
  - intros H. injection H as <-.
    rewrite length_map, length_combine. lia.
  - destruct b as [|y [|z b]]; try discriminate.
    intros H. injection H as <-. apply length_map.
Qed.

Lemma correlations_step (lib : numerics) (T S : matrix) (n : nat)
    (i : nat) (a a' : list float) :
  length a = n ->
  Py.bind (getitem (sub_div lib S (mean lib S) (add lib (std lib S) epsilon)) i)
    (fun search_row =>
     Py.bind (getitem (sub_div lib T (mean lib T) (add lib (std lib T) epsilon)) i)
       (fun template_row =>
        Py.bind (correlate lib search_row template_row) (iadd a))) = Ok a' ->
  length a' = n.
Proof.
  intros Ha Hstep.
  destruct (getitem (sub_div lib S _ _) i) as [s|]; [|discriminate Hstep].
  destruct (getitem (sub_div lib T _ _) i) as [t|]; [|discriminate Hstep].
  simpl in Hstep.
  destruct (correlate lib s t) as [corr|]; [|discriminate Hstep].
  simpl in Hstep. rewrite (iadd_length _ _ Hstep). exact Ha.
Qed.

(** The array [correlations] has one entry for each offset from 0 to
    [N - M]. *)
Lemma correlations_length (lib : numerics) (T S : matrix) (c : list float) :
  correlations lib T S = Ok c ->
  Z.of_nat (length c) = (Z.of_nat (shape1 S) - Z.of_nat (shape1 T) + 1)%Z.
Proof.
  unfold correlations, zeros.
  destruct (Z.ltb_spec (Z.of_nat (shape1 S) - Z.of_nat (shape1 T) + 1) 0)
    as [Hneg | Hpos]; [discriminate|].
  unfold Py.bind at 1.
  match goal with
  | |- Py.bind (for_each ?xs ?body ?acc) _ = _ -> _ =>
      destruct (for_each xs body acc) as [r | e] eqn:Hloop; [|discriminate];
      pose proof (@for_each_invariant _ _
                    (fun a => length a = length acc) body xs) as Hinv
  end.
  simpl. intros H. injection H as <-.
  unfold idiv. rewrite length_map.
  rewrite (Hinv (fun i a a' => @correlations_step lib T S _ i a a') _ r eq_refl Hloop).
  rewrite repeat_length. lia.
Qed.

Lemma getitem_nth (A : Type) (l : list A) (i : nat) (a d : A) :
  getitem l i = Ok a -> nth i l d = a.
Proof.
  unfold getitem. destruct (nth_error l i) as [b|] eqn:Hnth; [|discriminate].
  intros H. injection H as <-. apply nth_error_nth. exact Hnth.
Qed.

Lemma getitem_sub_div64 (lib : numerics) (A : matrix) (a b : float)
    (i : nat) (row : list float) :
  getitem (sub_div lib A a b) i = Ok row ->
  row = map (fun x => div lib (sub lib x a) b) (nth i A []).
Proof.
  intros H. apply getitem_nth with (d := []) in H. rewrite <- H.
  unfold sub_div.
  exact (map_nth (map (fun x => div lib (sub lib x a) b)) A [] i).
Qed.

Lemma iadd_nth (a b r : list float) (k : nat) :
  iadd a b = Ok r -> (k < length a)%nat ->
  nth k r nan = nth k a nan + broadcast (length a) b k.
Proof.
  unfold iadd, broadcast.
  destruct (Nat.eqb_spec (length a) (length b)) as [Hlen | Hlen].
  - intros H Hk. injection H as <-.
    rewrite <- Hlen, Nat.eqb_refl.
    rewrite (nth_indep _ nan ((fun p => fst p + snd p) (nan, nan)))
      by (rewrite length_map, length_combine; lia).
    rewrite (map_nth (fun p => fst p + snd p)).
    rewrite combine_nth by exact Hlen. reflexivity.
  - destruct b as [|y [|z b]]; try discriminate.
    intros H Hk. injection H as <-.
    destruct (Nat.eqb_spec (length [y]) (length a)) as [Heq | _];
      [simpl in Heq, Hlen; lia|].
    rewrite (nth_indep _ nan ((fun x => x + y) nan)) by (rewrite length_map; lia).
    rewrite (map_nth (fun x => x + y)). reflexivity.
Qed.

(** The loop of the matcher: each round correlates one row and adds
    the result to the array. *)
Lemma correlations_loop (lib : numerics) (T S : matrix) (rounds : list nat) :
  forall (acc r : list float),
  for_each rounds
    (fun i correlations =>
       Py.bind (getitem (sub_div lib S (mean lib S) (add lib (std lib S) epsilon)) i)
         (fun search_row =>
          Py.bind (getitem (sub_div lib T (mean lib T) (add lib (std lib T) epsilon)) i)
            (fun template_row =>
             Py.bind (correlate lib search_row template_row) (iadd correlations))))
    acc = Ok r ->
  exists rows,
    Forall2 (fun i row =>
               correlate lib (norm_row64 lib S i) (norm_row64 lib T i) = Ok row)
            rounds rows /\
    length r = length acc /\
    forall k, (k < length acc)%nat ->
      nth k r nan = accumulate64 (length acc) rows k (nth k acc nan).
Proof.
  induction rounds as [|i rounds IH]; intros acc r Hrun.
  - simpl in Hrun. injection Hrun as <-.
    exists []. split; [constructor|]. split; reflexivity.
  - simpl in Hrun.
    destruct (getitem (sub_div lib S _ _) i) as [s|] eqn:Hs; [|discriminate Hrun].
    destruct (getitem (sub_div lib T _ _) i) as [t|] eqn:Ht; [|discriminate Hrun].
    simpl in Hrun.
    destruct (correlate lib s t) as [row|] eqn:Hrow; [|discriminate Hrun].
    simpl in Hrun.
    destruct (iadd acc row) as [acc'|] eqn:Hadd; [|discriminate Hrun].
    simpl in Hrun.
    destruct (IH acc' r Hrun) as (rows & Hrows & Hlen & Hnth).
    pose proof (@iadd_length acc row acc' Hadd) as Hlen'.
    apply getitem_sub_div64 in Hs. apply getitem_sub_div64 in Ht.
    exists (row :: rows). split; [|split].
    + constructor; [|exact Hrows].
      unfold norm_row64. rewrite <- Hs, <- Ht. exact Hrow.
    + lia.
    + intros k Hk. rewrite Hnth by lia. simpl accumulate64.
      rewrite Hlen'. rewrite (@iadd_nth acc row acc' k Hadd Hk). reflexivity.
Qed.

Lemma Forall2_seq_nth (A : Type) (P : nat -> A -> Prop) (d : A) (n : nat) :
  forall (a : nat) (l : list A),
  Forall2 P (seq a n) l ->
  length l = n /\ forall i, (i < n)%nat -> P (a + i)%nat (nth i l d).
Proof.
  induction n as [|n IH]; intros a l H.
  - inversion H. split; [reflexivity | intros i Hi; lia].
  - simpl in H. inversion H as [|x y xs ys Hxy Hrest]; subst.
    destruct (IH _ _ Hrest) as (Hlen & Hnth).
    split; [simpl; lia|].
    intros [|i] Hi.
    + rewrite Nat.add_0_r. exact Hxy.
    + simpl. rewrite Nat.add_succ_r. apply (Hnth i). lia.
Qed.

(** The array [correlations]: the twelve row correlations added to
    zero one after the other, divided by the number of frames of the
    template. *)
Lemma correlations_rows (lib : numerics) (T S : matrix) (c : list float) :
  correlations lib T S = Ok c ->
  exists rows,
    length rows = 12%nat /\
    (forall i, (i < 12)%nat ->
       correlate lib (norm_row64 lib S i) (norm_row64 lib T i)
         = Ok (nth i rows [])) /\
    forall k, (k < length c)%nat ->
      nth k c nan
        = accumulate64 (length c) rows k 0 / of_nat (shape1 T).
Proof.
  unfold correlations, zeros.
  destruct (Z.ltb_spec (Z.of_nat (shape1 S) - Z.of_nat (shape1 T) + 1) 0)
    as [Hneg | Hpos]; [discriminate|].
  unfold Py.bind at 1.
  match goal with
  | |- Py.bind (for_each ?xs ?body ?acc) _ = _ -> _ =>
      destruct (for_each xs body acc) as [r | e] eqn:Hloop; [|discriminate]
  end.
  simpl Py.bind. intros H. injection H as <-.
  destruct (@correlations_loop lib T S _ _ _ Hloop) as (rows & Hrows & Hlen & Hnth).
  destruct (@Forall2_seq_nth _ _ [] _ _ _ Hrows) as (Hlen12 & Hrow).
  exists rows. split; [exact Hlen12|]. split; [exact Hrow|].
  unfold idiv. rewrite length_map. intros k Hk.
  rewrite (nth_indep _ nan ((fun x => x / of_nat (shape1 T)) nan))
    by (rewrite length_map; exact Hk).
  rewrite (map_nth (fun x => x / of_nat (shape1 T))).
  rewrite Hnth by lia. rewrite Hlen.
  rewrite nth_repeat_lt by (rewrite repeat_length in Hlen; lia).
  reflexivity.
Qed.

End FloatSelection.

(* ================================================================== *)
(** * The matcher: offset and score *)
(* ================================================================== *)

Section MatcherSelects.

Import Np Spec DetectAmen.
Local Open Scope R_scope.

Lemma reals_shape1 (A : Float64.matrix) :
  shape1 (reals A) = Float64.shape1 A.
Proof. destruct A as [|row A]; [reflexivity | apply length_map]. Qed.

Lemma first_largest_at (c : list float) (k : nat) :
  first_largest (fun j => nth j c nan) (length c) k ->
  largest_at c k /\
  (forall j, (j < length c)%nat ->
     (nth k c nan <=? nth j c nan)%float = true -> (k <= j)%nat).
Proof.
  intros (Hlt & Hle & Hfirst). split; [split; assumption|].
  intros j Hj Hreach.
  destruct (Nat.le_gt_cases k j) as [Hkj | Hkj]; [exact Hkj|].
  rewrite (Hfirst j Hkj) in Hreach. discriminate Hreach.
Qed.

Lemma loud_frame_shape : is_matrix 12 1 (reals loud_frame).
Proof. split; [reflexivity | repeat constructor]. Qed.

Lemma echo_search_shape : is_matrix 12 3 (reals echo_search).
Proof. split; [reflexivity | repeat constructor]. Qed.

Lemma echo_search_correlations :
  Float64.correlations Float64.direct loud_frame echo_search = Ok echo_correlations.
Proof. vm_compute. reflexivity. Qed.

Lemma echo_correlations_nan_free : nan_free echo_correlations.
Proof. repeat (apply Forall_cons; [reflexivity|]). apply Forall_nil. Qed.

(** C1.  For a 12-row template with [M] columns and a 12-row search
    matrix with [N] columns, [1 <= M <= N], whatever the rounding of
    the array library.  Both matrices are normalised by their global
    mean and their global standard deviation plus 1e-10; the array
    [correlations] has one entry for each offset from 0 to [N - M], and
    entry [k] is what the correlations of the 12 pairs of normalised
    rows give at [k], added to zero one after the other in binary64 and
    divided by [M].  When no entry is a NaN the matcher returns the
    index of a largest entry of that array, together with that entry
    divided by 12.  In exact arithmetic on the same matrices the array
    is the aggregate correlation of the documentation (row-wise window
    dot products summed over the 12 rows, divided by [M] and by 12):
    there the returned offset lies in [[0, N - M]], the score is the
    aggregate at that offset, and no offset has a larger aggregate. *)
Theorem match_template_chroma_correct (lib : Float64.numerics)
    (T S : Float64.matrix) (c : list float) (M N : nat) :
  is_matrix 12 M (reals T) -> is_matrix 12 N (reals S) -> (1 <= M <= N)%nat ->
  Float64.correlations lib T S = Ok c -> nan_free c ->
  length c = (N - M + 1)%nat /\
  (exists rows,
     length rows = 12%nat /\
     (forall i, (i < 12)%nat ->
        Float64.correlate lib (norm_row64 lib S i) (norm_row64 lib T i)
          = Ok (nth i rows [])) /\
     (forall k, (k <= N - M)%nat ->
        nth k c nan
          = (accumulate64 (N - M + 1) rows k 0 / Float64.of_nat M)%float)) /\
  (exists best_offset,
     Float64.match_template_chroma lib T S
       = Ok (best_offset, (nth best_offset c nan / 12)%float) /\
     (best_offset <= N - M)%nat /\
     largest_at c best_offset) /\
  (exists best_offset score,
     match_template_chroma (reals T) (reals S) = Ok (best_offset, score) /\
     (best_offset <= N - M)%nat /\
     score = aggregate M N (reals T) (reals S) best_offset /\
     (forall k, (k <= N - M)%nat ->
        aggregate M N (reals T) (reals S) k <= score)).
Proof.
  intros HT HS HMN Hc Hnan.
  assert (HsT : Float64.shape1 T = M)
    by (rewrite <- reals_shape1; apply (is_matrix_shape1 HT); lia).
  assert (HsS : Float64.shape1 S = N)
    by (rewrite <- reals_shape1; apply (is_matrix_shape1 HS); lia).
  assert (Hlen : length c = (N - M + 1)%nat).
  { pose proof (@correlations_length lib T S c Hc) as Hlen.
    rewrite HsT, HsS in Hlen. lia. }
  split; [exact Hlen|]. split; [|split].
  - destruct (@correlations_rows lib T S c Hc) as (rows & Hrows & Hrow & Hnth).
    exists rows. split; [exact Hrows|]. split; [exact Hrow|].
    intros k Hk. rewrite Hnth by lia. rewrite Hlen, HsT. reflexivity.
  - assert (Hne : c <> []) by (intros ->; simpl in Hlen; lia).
    destruct (best_first_largest Hne Hnan) as (k & Hbest & Hmax).
    destruct (@first_largest_at c k Hmax) as (Hlargest & _).
    exists k. unfold Float64.match_template_chroma. rewrite Hc.
    split; [exact Hbest|]. split; [|exact Hlargest].
    destruct Hlargest as (Hk & _). lia.
  - destruct (match_template_chroma_run HT HS HMN) as (k & Hrun & Hlt & Hle & _).
    exists k, (code_correlation (reals T) (reals S) k / 12).
    split; [exact Hrun|]. split; [lia|].
    split; [apply (code_correlation_aggregate _ HT HS); lia|].
    intros j Hj.
    rewrite <- (code_correlation_aggregate j HT HS) by lia.
    specialize (Hle j ltac:(lia)). lra.
Qed.

Lemma match_template_chroma_correct_witness :
  length echo_correlations = (3 - 1 + 1)%nat /\
  (exists rows,
     length rows = 12%nat /\
     (forall i, (i < 12)%nat ->
        Float64.correlate Float64.direct
          (norm_row64 Float64.direct echo_search i)
          (norm_row64 Float64.direct loud_frame i)
          = Ok (nth i rows [])) /\
     (forall k, (k <= 3 - 1)%nat ->
        nth k echo_correlations nan
          = (accumulate64 (3 - 1 + 1) rows k 0 / Float64.of_nat 1)%float)) /\
  (exists best_offset,
     Float64.match_template_chroma Float64.direct loud_frame echo_search
       = Ok (best_offset, (nth best_offset echo_correlations nan / 12)%float) /\
     (best_offset <= 3 - 1)%nat /\
     largest_at echo_correlations best_offset) /\
  (exists best_offset score,
     match_template_chroma (reals loud_frame) (reals echo_search)
       = Ok (best_offset, score) /\
     (best_offset <= 3 - 1)%nat /\
     score = aggregate 1 3 (reals loud_frame) (reals echo_search) best_offset /\
     (forall k, (k <= 3 - 1)%nat ->
        aggregate 1 3 (reals loud_frame) (reals echo_search) k <= score)).
Proof.
  apply (@match_template_chroma_correct Float64.direct loud_frame echo_search
           echo_correlations 1 3).
  - exact loud_frame_shape.
  - exact echo_search_shape.
  - lia.
  - exact echo_search_correlations.
  - exact echo_correlations_nan_free.
Defined.



(** The pattern is found at the first of the two frames that carry
    it. *)
Example echo_search_match :
  Float64.match_template_chroma Float64.direct loud_frame echo_search
    = Ok (0%nat, 0x1.fffffffe4832p-1%float).
Proof. vm_compute. reflexivity. Qed.

End MatcherSelects.

(* ================================================================== *)
(** * A frame too faint for binary64 *)
(* ================================================================== *)

Section FaintFrame.

Import Np Spec DetectAmen.
Local Open Scope R_scope.

Lemma faint_value_pos : 0 < value 0x1p-600.
Proof.
  unfold value.
  replace (Prim2SF 0x1p-600) with (S754_finite false 4503599627370496 (-652))
    by (vm_compute; reflexivity).
  apply Rmult_lt_0_compat; [apply IZR_lt; lia | apply powerRZ_lt; lra].
Qed.

Lemma zero_value : value 0 = 0.
Proof. reflexivity. Qed.

Lemma faint_reals :
  reals faint_template = [value 0x1p-600] :: repeat [0] 11 /\
  reals faint_search = [0; value 0x1p-600] :: repeat [0; 0] 11.
Proof. split; reflexivity. Qed.

Lemma faint_aggregate (a : R) :
  0 < a ->
  exists d, 0 < d /\
    aggregate 1 2 ([a] :: repeat [0] 11) ([0; a] :: repeat [0; 0] 11) 0 = 0 /\
    aggregate 1 2 ([a] :: repeat [0] 11) ([0; a] :: repeat [0; 0] 11) 1
      = 11 / 144 * a * a / d.
Proof.
  intros Ha.
  set (T := [a] :: repeat [0] 11). set (S := [0; a] :: repeat [0; 0] 11).
  assert (HmT : global_mean 1 T = a / 12).
  { unfold global_mean, T.
    cbn [sum_upto entry nth repeat app Nat.mul Nat.add].
    rewrite INR_12. lra. }
  assert (HmS : global_mean 2 S = a / 24).
  { unfold global_mean, S.
    cbn [sum_upto entry nth repeat app Nat.mul Nat.add].
    replace (INR 24) with 24 by (simpl; lra). lra. }
  pose proof epsilon_pos as Hpos.
  assert (HdT : 0 < global_std 1 T + 1 / 10 ^ 10).
  { pose proof (sqrt_pos (sum_upto 12 (fun i => sum_upto 1 (fun j =>
        (entry T i j - global_mean 1 T) * (entry T i j - global_mean 1 T)))
        / INR (12 * 1))) as Hs.
    fold (global_std 1 T) in Hs. unfold epsilon in Hpos. lra. }
  assert (HdS : 0 < global_std 2 S + 1 / 10 ^ 10).
  { pose proof (sqrt_pos (sum_upto 12 (fun i => sum_upto 2 (fun j =>
        (entry S i j - global_mean 2 S) * (entry S i j - global_mean 2 S)))
        / INR (12 * 2))) as Hs.
    fold (global_std 2 S) in Hs. unfold epsilon in Hpos. lra. }
  exists ((global_std 1 T + 1 / 10 ^ 10) * (global_std 2 S + 1 / 10 ^ 10)).
  split; [nra|].
  unfold aggregate, row_correlation, normalized. rewrite HmT, HmS.
  set (dT := global_std 1 T + 1 / 10 ^ 10) in *.
  set (dS := global_std 2 S + 1 / 10 ^ 10) in *.
  unfold T, S.
  cbn [sum_upto entry nth repeat app Nat.add INR].
  split; field; lra.
Qed.

(** C1, counterexample.  One pitch class sounds at an amplitude of
    [2^-600] in the only frame of the template and in the second of the
    two frames of the search matrix.  The aggregate correlation of the
    documentation is zero at offset 0 and positive at offset 1.  In
    binary64 every squared deviation and every product of two
    normalised entries underflows to zero, in whatever order they are
    summed: the array [correlations] is [[0; 0]] and the matcher
    answers offset 0 with score 0, which is neither the index nor the
    value of the maximum of the aggregate. *)
Lemma faint_frame_is_missed :
  Float64.match_template_chroma Float64.direct faint_template faint_search
    = Ok (0%nat, 0%float) /\
  is_matrix 12 1 (reals faint_template) /\
  is_matrix 12 2 (reals faint_search) /\
  aggregate 1 2 (reals faint_template) (reals faint_search) 0 = value 0 /\
  value 0 < aggregate 1 2 (reals faint_template) (reals faint_search) 1.
Proof.
  split; [vm_compute; reflexivity|].
  split; [split; [reflexivity | repeat constructor]|].
  split; [split; [reflexivity | repeat constructor]|].
  destruct faint_reals as [-> ->]. rewrite zero_value.
  destruct (faint_aggregate faint_value_pos) as (d & Hd & H0 & H1).
  rewrite H0, H1. split; [reflexivity|].
  pose proof faint_value_pos as Ha.
  generalize dependent (value 0x1p-600). intros a _ _ Ha.
  assert (Hinv : 0 < / d) by (apply Rinv_0_lt_compat; exact Hd).
  assert (Hsq : 0 < a * a) by nra.
  unfold Rdiv. rewrite !Rmult_assoc.
  apply Rmult_lt_0_compat; [lra|].
  apply Rmult_lt_0_compat; [lra|].
  rewrite <- Rmult_assoc. apply Rmult_lt_0_compat; assumption.
Qed.

End FaintFrame.

(* ================================================================== *)
(** * A template longer than the search window *)
(* ================================================================== *)

Section LongTemplate.

Import Np Spec DetectAmen.
Local Open Scope R_scope.

(** One frame too many: the buffer is empty and the first row
    correlation cannot be added to it. *)
Lemma first_row_refused (s t : list R) :
  length t = S (length s) ->
  Py.bind (correlate_valid s t) (iadd []) = Raise ValueError.
Proof.
  intros Hlen. unfold correlate_valid.
  destruct (Nat.eqb_spec (length s) 0) as [Hs | Hs]; [reflexivity|].
  destruct (Nat.eqb_spec (length t) 0) as [Ht | Ht]; [lia|]. simpl orb.
  destruct (Nat.leb_spec (length t) (length s)); [lia|].
  replace (length t - length s + 1)%nat with 2%nat by lia.
  reflexivity.
Qed.

(** When the template has more frames than the search matrix the
    matcher raises the [ValueError] of the array library: from the
    allocation of the correlation buffer, or from the first
    accumulation into it when the template is one frame longer. *)
Lemma long_template_raises (T S : matrix) (M N : nat) :
  is_matrix 12 M T -> is_matrix 12 N S -> (N < M)%nat ->
  match_template_chroma T S = Raise ValueError.
Proof.
  intros HT HS HNM. unfold match_template_chroma.
  rewrite (is_matrix_shape1 HT), (is_matrix_shape1 HS) by lia.
  destruct (Nat.eq_dec M (N + 1)) as [-> | Hne].
  - replace (Z.of_nat N - Z.of_nat (N + 1) + 1)%Z with (Z.of_nat 0) by lia.
    rewrite zeros_ok. unfold Py.bind at 1.
    change (seq 0 12) with (0%nat :: seq 1 11). simpl map. simpl for_each.
    rewrite !getitem_sub_div
      by (first [destruct HS as [-> _] | destruct HT as [-> _]]; lia).
    unfold Py.bind at 3. unfold Py.bind at 3.
    rewrite first_row_refused; [reflexivity|].
    rewrite !length_map.
    rewrite (@is_matrix_row 12 (N + 1) T 0 HT), (@is_matrix_row 12 N S 0 HS) by lia.
    lia.
  - unfold zeros.
    destruct (Z.ltb_spec (Z.of_nat N - Z.of_nat M + 1) 0); [reflexivity | lia].
Qed.

End LongTemplate.

(* ================================================================== *)
(** * The stages of [find_amen] *)
(* ================================================================== *)

Section Pipeline.

Import Np Sys DetectAmen.
Local Open Scope R_scope.
Local Open Scope string_scope.

Lemma find_amen_no_template (w : world) (video_path : string)
    (so sd : Z) (dir : string) (thr : R) :
  path_exists w (path_join dir "amen_chroma.npy") = false ->
  find_amen w video_path so sd dir thr =
  ([EvExists (path_join dir "amen_chroma.npy")],
   Ok (NotDetected (TemplateNotFound (path_join dir "amen_chroma.npy")) None)).
Proof.
  intros Hp. unfold find_amen. cbv zeta. rewrite Hp. reflexivity.
Qed.

Lemma find_amen_load_raises (w : world) (video_path : string)
    (so sd : Z) (dir : string) (thr : R) (e : exn) :
  path_exists w (path_join dir "amen_chroma.npy") = true ->
  np_load w (path_join dir "amen_chroma.npy") = Raise e ->
  find_amen w video_path so sd dir thr =
  ([EvExists (path_join dir "amen_chroma.npy");
    EvLoad (path_join dir "amen_chroma.npy")], Raise e).
Proof.
  intros Hp Hl. unfold find_amen. cbv zeta. rewrite Hp, Hl. reflexivity.
Qed.

Lemma find_amen_too_short (w : world) (video_path : string)
    (so sd : Z) (dir : string) (thr : R) (T : matrix) (d : R) :
  probed w video_path dir T d ->
  window_duration sd so d <= 0 ->
  find_amen w video_path so sd dir thr =
  ([EvExists (path_join dir "amen_chroma.npy");
    EvLoad (path_join dir "amen_chroma.npy");
    EvProbe video_path],
   Ok (NotDetected (VideoTooShort d (so * 60)) None)).
Proof.
  intros (Hp & Hl & Hd) Hdur. unfold find_amen, get_video_duration. cbv zeta.
  rewrite Hp, Hl, Hd. simpl.
  fold (window_duration sd so d).
  destruct (Rle_dec (window_duration sd so d) 0); [reflexivity | contradiction].
Qed.

Lemma find_amen_extract_fails (w : world) (video_path : string)
    (so sd : Z) (dir : string) (thr : R) (T : matrix) (d : R) (returncode : Z) :
  probed w video_path dir T d ->
  0 < window_duration sd so d ->
  ffmpeg w video_path (so * 60) (window_duration sd so d) (tmp_name w)
    = Ok returncode ->
  returncode <> 0%Z ->
  find_amen w video_path so sd dir thr =
  (([EvExists (path_join dir "amen_chroma.npy");
     EvLoad (path_join dir "amen_chroma.npy");
     EvProbe video_path;
     EvMkTemp (tmp_name w);
     EvExtract video_path (so * 60) (window_duration sd so d) (tmp_name w)]
    ++ cleanup w)%list,
   Ok (NotDetected ExtractFailed None)).
Proof.
  intros (Hp & Hl & Hd) Hdur Hrun Hrc. unfold find_amen, get_video_duration. cbv zeta.
  rewrite Hp, Hl, Hd. simpl.
  fold (window_duration sd so d).
  destruct (Rle_dec (window_duration sd so d) 0); [lra|].
  unfold extract_audio, cleanup. simpl. rewrite Hrun. simpl.
  destruct (Z.eqb_spec returncode 0); [contradiction|].
  simpl. destruct (path_exists w (tmp_name w)); reflexivity.
Qed.

(** [ffmpeg] cannot be started: the exception of [subprocess.run]
    passes through [find_amen], after the [finally] clause. *)
Lemma find_amen_extract_raises (w : world) (video_path : string)
    (so sd : Z) (dir : string) (thr : R) (T : matrix) (d : R) (e : exn) :
  probed w video_path dir T d ->
  0 < window_duration sd so d ->
  ffmpeg w video_path (so * 60) (window_duration sd so d) (tmp_name w)
    = Raise e ->
  find_amen w video_path so sd dir thr =
  (([EvExists (path_join dir "amen_chroma.npy");
     EvLoad (path_join dir "amen_chroma.npy");
     EvProbe video_path;
     EvMkTemp (tmp_name w);
     EvExtract video_path (so * 60) (window_duration sd so d) (tmp_name w)]
    ++ cleanup w)%list,
   Raise e).
Proof.
  intros (Hp & Hl & Hd) Hdur Hrun. unfold find_amen, get_video_duration. cbv zeta.
  rewrite Hp, Hl, Hd. simpl.
  fold (window_duration sd so d).
  destruct (Rle_dec (window_duration sd so d) 0); [lra|].
  unfold extract_audio, cleanup. simpl. rewrite Hrun. simpl.
  destruct (path_exists w (tmp_name w)); reflexivity.
Qed.

Lemma find_amen_matched (w : world) (video_path : string)
    (so sd : Z) (dir : string) (thr : R) (T S : matrix) :
  reaches_matcher w video_path so sd dir T S ->
  outcome_of (find_amen w video_path so sd dir thr) =
  match match_template_chroma T S with
  | Ok (best_idx, best_score) =>
      Ok (localize T (so * 60) 22050 512 thr best_idx best_score)
  | Raise e => Raise e
  end.
Proof.
  intros (d & (Hp & Hl & Hd) & Hdur & Hrc & Hchroma).
  unfold find_amen, get_video_duration. cbv zeta.
  rewrite Hp, Hl, Hd. simpl.
  fold (window_duration sd so d).
  destruct (Rle_dec (window_duration sd so d) 0); [lra|].
  unfold extract_audio, compute_chroma. simpl.
  rewrite Hrc. simpl. rewrite Hchroma. simpl.
  destruct (match_template_chroma T S) as [[k s] | e]; simpl;
    destruct (path_exists w (tmp_name w)); reflexivity.
Qed.

End Pipeline.

(* ================================================================== *)
(** * Every run of [find_amen] *)
(* ================================================================== *)

Section PipelineCases.

Import Np Sys DetectAmen.
Local Open Scope R_scope.
Local Open Scope string_scope.

Unset Implicit Arguments.

Lemma get_video_duration_trace (w : world) (video_path : string) :
  trace (get_video_duration w video_path) = [EvProbe video_path].
Proof.
  unfold get_video_duration.
  destruct (ffprobe w video_path) as [[code duration] | e]; [|reflexivity].
  simpl. destruct (code =? 0)%Z; [destruct duration|]; reflexivity.
Qed.

Lemma find_amen_probe_raises (w : world) (video_path : string)
    (so sd : Z) (dir : string) (thr : R) (T : matrix) (e : exn) :
  path_exists w (path_join dir "amen_chroma.npy") = true ->
  np_load w (path_join dir "amen_chroma.npy") = Ok T ->
  outcome_of (get_video_duration w video_path) = Raise e ->
  find_amen w video_path so sd dir thr =
  ([EvExists (path_join dir "amen_chroma.npy");
    EvLoad (path_join dir "amen_chroma.npy");
    EvProbe video_path],
   Ok (NotDetected (DurationFailed e) None)).
Proof.
  intros Hp Hl Hraise. pose proof (get_video_duration_trace w video_path) as Ht.
  unfold find_amen. cbv zeta. rewrite Hp, Hl.
  destruct (get_video_duration w video_path) as [t r].
  unfold trace, outcome_of in *. simpl in Ht, Hraise. subst t r. reflexivity.
Qed.

Lemma get_video_duration_ok (w : world) (video_path : string) (d : R) :
  outcome_of (get_video_duration w video_path) = Ok d ->
  ffprobe w video_path = Ok (0%Z, Some d).
Proof.
  unfold get_video_duration, outcome_of.
  destruct (ffprobe w video_path) as [[code duration] | e]; [|discriminate]. simpl.
  destruct (Z.eqb_spec code 0) as [-> | Hcode]; [|discriminate].
  destruct duration as [d' |]; [|discriminate].
  simpl. intros H. injection H as ->. reflexivity.
Qed.

(** What the probe raises: the exception of [subprocess.run], or
    [RuntimeError] for a return code other than 0, or the [ValueError]
    of [float]. *)
Lemma get_video_duration_raises (w : world) (video_path : string) (e : exn) :
  outcome_of (get_video_duration w video_path) = Raise e <->
  ffprobe w video_path = Raise e \/
  (exists code duration,
     ffprobe w video_path = Ok (code, duration) /\ code <> 0%Z /\
     e = RuntimeError) \/
  (ffprobe w video_path = Ok (0%Z, None) /\ e = ValueError).
Proof.
  unfold get_video_duration, outcome_of.
  destruct (ffprobe w video_path) as [[code duration] | e']; simpl.
  - destruct (Z.eqb_spec code 0) as [-> | Hcode].
    + destruct duration as [d |]; simpl.
      * split; [discriminate|].
        intros [H | [(c & du & H & Hc & _) | (H & _)]]; try discriminate H.
        injection H as <- _. contradiction.
      * split.
        -- intros H. injection H as <-. auto.
        -- intros [H | [(c & du & H & Hc & _) | (_ & ->)]];
             [discriminate H | | reflexivity].
           injection H as <- _. contradiction.
    + simpl. split.
      * intros H. injection H as <-. right. left. eauto.
      * intros [H | [(c & du & _ & _ & ->) | (H & _)]];
          [discriminate H | reflexivity |].
        injection H as ->. contradiction.
  - split.
    + intros H. injection H as ->. auto.
    + intros [H | [(c & du & H & _) | (H & _)]]; [|discriminate H..].
      injection H as ->. reflexivity.
Qed.

Lemma find_amen_chroma_raises (w : world) (video_path : string)
    (so sd : Z) (dir : string) (thr : R) (T : matrix) (d : R) (e : exn) :
  probed w video_path dir T d ->
  0 < window_duration sd so d ->
  ffmpeg w video_path (so * 60) (window_duration sd so d) (tmp_name w) = Ok 0%Z ->
  librosa_chroma w (tmp_name w) 512 = Raise e ->
  find_amen w video_path so sd dir thr =
  (([EvExists (path_join dir "amen_chroma.npy");
     EvLoad (path_join dir "amen_chroma.npy");
     EvProbe video_path;
     EvMkTemp (tmp_name w);
     EvExtract video_path (so * 60) (window_duration sd so d) (tmp_name w);
     EvChroma (tmp_name w)]
    ++ cleanup w)%list,
   Raise e).
Proof.
  intros (Hp & Hl & Hd) Hdur Hrc Hchroma.
  unfold find_amen, get_video_duration. cbv zeta.
  rewrite Hp, Hl, Hd. simpl.
  fold (window_duration sd so d).
  destruct (Rle_dec (window_duration sd so d) 0); [lra|].
  unfold extract_audio, compute_chroma, cleanup. simpl.
  rewrite Hrc. simpl. rewrite Hchroma. simpl.
  destruct (path_exists w (tmp_name w)); reflexivity.
Qed.

Lemma find_amen_matched_run (w : world) (video_path : string)
    (so sd : Z) (dir : string) (thr : R) (T S : matrix) (d : R) :
  probed w video_path dir T d ->
  0 < window_duration sd so d ->
  ffmpeg w video_path (so * 60) (window_duration sd so d) (tmp_name w) = Ok 0%Z ->
  librosa_chroma w (tmp_name w) 512 = Ok S ->
  find_amen w video_path so sd dir thr =
  (([EvExists (path_join dir "amen_chroma.npy");
     EvLoad (path_join dir "amen_chroma.npy");
     EvProbe video_path;
     EvMkTemp (tmp_name w);
     EvExtract video_path (so * 60) (window_duration sd so d) (tmp_name w);
     EvChroma (tmp_name w);
     EvMatch]
    ++ cleanup w)%list,
   match match_template_chroma T S with
   | Ok (best_idx, best_score) =>
       Ok (localize T (so * 60) 22050 512 thr best_idx best_score)
   | Raise e => Raise e
   end).
Proof.
  intros (Hp & Hl & Hd) Hdur Hrc Hchroma.
  unfold find_amen, get_video_duration. cbv zeta.
  rewrite Hp, Hl, Hd. simpl.
  fold (window_duration sd so d).
  destruct (Rle_dec (window_duration sd so d) 0); [lra|].
  unfold extract_audio, compute_chroma, cleanup. simpl.
  rewrite Hrc. simpl. rewrite Hchroma. simpl.
  destruct (match_template_chroma T S) as [[k s] | e]; simpl;
    destruct (path_exists w (tmp_name w)); reflexivity.
Qed.

(** The eight ways a run of [find_amen] can go. *)
Lemma find_amen_cases (w : world) (video_path : string)
    (so sd : Z) (dir : string) (thr : R) :
  let p := path_join dir "amen_chroma.npy" in
  let run := find_amen w video_path so sd dir thr in
  (path_exists w p = false /\
   run = ([EvExists p], Ok (NotDetected (TemplateNotFound p) None))) \/
  (exists e, path_exists w p = true /\ np_load w p = Raise e /\
     run = ([EvExists p; EvLoad p], Raise e)) \/
  (exists T e, path_exists w p = true /\ np_load w p = Ok T /\
     outcome_of (get_video_duration w video_path) = Raise e /\
     run = ([EvExists p; EvLoad p; EvProbe video_path],
            Ok (NotDetected (DurationFailed e) None))) \/
  (exists T d, probed w video_path dir T d /\
     window_duration sd so d <= 0 /\
     run = ([EvExists p; EvLoad p; EvProbe video_path],
            Ok (NotDetected (VideoTooShort d (so * 60)) None))) \/
  (exists T d returncode, probed w video_path dir T d /\
     0 < window_duration sd so d /\
     ffmpeg w video_path (so * 60) (window_duration sd so d) (tmp_name w)
       = Ok returncode /\
     returncode <> 0%Z /\
     run = (([EvExists p; EvLoad p; EvProbe video_path; EvMkTemp (tmp_name w);
              EvExtract video_path (so * 60) (window_duration sd so d)
                (tmp_name w)] ++ cleanup w)%list,
            Ok (NotDetected ExtractFailed None))) \/
  (exists T d e, probed w video_path dir T d /\
     0 < window_duration sd so d /\
     ffmpeg w video_path (so * 60) (window_duration sd so d) (tmp_name w)
       = Raise e /\
     run = (([EvExists p; EvLoad p; EvProbe video_path; EvMkTemp (tmp_name w);
              EvExtract video_path (so * 60) (window_duration sd so d)
                (tmp_name w)] ++ cleanup w)%list,
            Raise e)) \/
  (exists T d e, probed w video_path dir T d /\
     0 < window_duration sd so d /\
     ffmpeg w video_path (so * 60) (window_duration sd so d) (tmp_name w)
       = Ok 0%Z /\
     librosa_chroma w (tmp_name w) 512 = Raise e /\
     run = (([EvExists p; EvLoad p; EvProbe video_path; EvMkTemp (tmp_name w);
              EvExtract video_path (so * 60) (window_duration sd so d)
                (tmp_name w);
              EvChroma (tmp_name w)] ++ cleanup w)%list,
            Raise e)) \/
  (exists T S d, reaches_matcher w video_path so sd dir T S /\
     probed w video_path dir T d /\
     run = (([EvExists p; EvLoad p; EvProbe video_path; EvMkTemp (tmp_name w);
              EvExtract video_path (so * 60) (window_duration sd so d)
                (tmp_name w);
              EvChroma (tmp_name w); EvMatch] ++ cleanup w)%list,
            match match_template_chroma T S with
            | Ok (best_idx, best_score) =>
                Ok (localize T (so * 60) 22050 512 thr best_idx best_score)
            | Raise e => Raise e
            end)).
Proof.
  intros p run. subst run.
  destruct (path_exists w p) eqn:Hp.
  2:{ left. split; [reflexivity|]. apply find_amen_no_template. exact Hp. }
  right. destruct (np_load w p) as [T | e] eqn:Hl.
  2:{ left. exists e. split; [reflexivity|]. split; [reflexivity|].
      apply find_amen_load_raises; assumption. }
  right. destruct (outcome_of (get_video_duration w video_path)) as [d | e] eqn:Hd.
  2:{ left. exists T, e. do 3 (split; [reflexivity|]).
      apply (find_amen_probe_raises _ _ _ _ _ _ T e Hp Hl Hd). }
  right. apply get_video_duration_ok in Hd.
  assert (Hprobed : probed w video_path dir T d) by (repeat split; assumption).
  destruct (Rle_dec (window_duration sd so d) 0) as [Hdur | Hdur].
  { left. exists T, d. split; [exact Hprobed|]. split; [exact Hdur|].
    apply (@find_amen_too_short w video_path so sd dir thr T d Hprobed Hdur). }
  right. apply Rnot_le_lt in Hdur.
  destruct (ffmpeg w video_path (so * 60) (window_duration sd so d) (tmp_name w))
    as [returncode | e] eqn:Hrun.
  2:{ right. left. exists T, d, e. do 3 (split; [first [assumption | reflexivity]|]).
      apply (@find_amen_extract_raises w video_path so sd dir thr T d e
               Hprobed Hdur Hrun). }
  destruct (Z.eq_dec returncode 0) as [-> | Hrc].
  2:{ left. exists T, d, returncode.
      do 4 (split; [first [assumption | reflexivity]|]).
      apply (@find_amen_extract_fails w video_path so sd dir thr T d returncode
               Hprobed Hdur Hrun Hrc). }
  right. right. destruct (librosa_chroma w (tmp_name w) 512) as [S | e] eqn:Hchroma.
  2:{ left. exists T, d, e. do 4 (split; [first [assumption | reflexivity]|]).
      apply (find_amen_chroma_raises _ _ _ _ _ _ T d e Hprobed Hdur Hrun Hchroma). }
  right. exists T, S, d. split; [exists d; repeat split; try assumption; apply Hprobed|].
  split; [exact Hprobed|].
  apply (find_amen_matched_run _ _ _ _ _ _ T S d Hprobed Hdur Hrun Hchroma).
Qed.

End PipelineCases.

(** The ways a run can go, told apart for a proof: [Hrun] is the
    equation of the run. *)
Tactic Notation "find_amen_run" constr(w) constr(video_path) constr(so)
    constr(sd) constr(dir) constr(thr)
    "as" ident(T) ident(S) ident(d) ident(e) ident(Hrun) :=
  destruct (find_amen_cases w video_path so sd dir thr)
    as [(_ & Hrun)
       | [(e & _ & _ & Hrun)
       | [(T & e & _ & _ & _ & Hrun)
       | [(T & d & _ & _ & Hrun)
       | [(T & d & ? & _ & _ & _ & _ & Hrun)
       | [(T & d & e & _ & _ & _ & Hrun)
       | [(T & d & e & _ & _ & _ & _ & Hrun)
       | (T & S & d & ? & _ & Hrun)]]]]]]].

Section PipelineReturns.

Import Np Sys DetectAmen.
Local Open Scope R_scope.
Local Open Scope string_scope.

Unset Implicit Arguments.


Lemma reaches_matcher_trace (w : world) (video_path : string) (so sd : Z)
    (dir : string) (thr : R) (T S : matrix) :
  reaches_matcher w video_path so sd dir T S ->
  In EvMatch (trace (find_amen w video_path so sd dir thr)).
Proof.
  intros (d & Hprobed & Hdur & Hrc & Hchroma).
  rewrite (find_amen_matched_run _ _ _ _ _ _ T S d Hprobed Hdur Hrc Hchroma).
  unfold trace. cbn [fst]. apply in_or_app. left. simpl. auto 8.
Qed.

End PipelineReturns.

(* ================================================================== *)
(** * A concrete world *)
(* ================================================================== *)

Section Studio.

Import Np Sys DetectAmen.
Local Open Scope R_scope.
Local Open Scope string_scope.

(** A two-hour recording, searched from minute 20 for 90 minutes. *)
Lemma two_hours_window : window_duration 90 20 7200 = 5400.
Proof.
  unfold window_duration. change (90 * 60)%Z with 5400%Z.
  change (20 * 60)%Z with 1200%Z. unfold Rmin.
  destruct (Rle_dec 5400 (7200 - 1200)); lra.
Qed.

Lemma studio_reaches_matcher (T S : matrix) :
  reaches_matcher (studio (Ok T) (0%Z, Some 7200) 0 (Ok S)) "service.mp4"
    20 90 "templates" T S.
Proof.
  exists 7200. split; [repeat split|].
  rewrite two_hours_window. repeat split. lra.
Qed.

End Studio.

(* ================================================================== *)
(** * Threshold and timestamps *)
(* ================================================================== *)

Section Decision.

Import Np Sys DetectAmen.
Local Open Scope R_scope.
Local Open Scope string_scope.

Lemma localize_times (T : matrix) (A sr hop : Z) (thr : R) (k : nat) (s : R) :
  exists start_time end_time,
    start_time = IZR A + INR k * IZR hop / IZR sr /\
    end_time - start_time = INR (shape1 T) * IZR hop / IZR sr /\
    localize T A sr hop thr k s =
    if Rlt_dec s thr then
      NotDetected (BelowThreshold s thr) (Some (s, seconds_to_timestamp end_time))
    else
      Detected (seconds_to_timestamp start_time) (int_of_float start_time)
               (seconds_to_timestamp end_time) (int_of_float end_time) s.
Proof.
  exists (IZR A + IZR (Z.of_nat k * hop) / IZR sr),
         (IZR A + IZR (Z.of_nat k * hop) / IZR sr
          + IZR (Z.of_nat (shape1 T) * hop) / IZR sr).
  split; [|split].
  - rewrite mult_IZR, <- INR_IZR_INZ. reflexivity.
  - rewrite !mult_IZR, <- !INR_IZR_INZ. unfold Rdiv. ring.
  - reflexivity.
Qed.


(** C3.  When every stage up to the matcher succeeds and the matcher
    answers offset [k] and score [s]: if [s] is at least the threshold
    (equality included) the outcome is Detected with confidence [s];
    if [s] is below the threshold the outcome is NotDetected, and it
    still carries [s] as best score and the end time of the candidate
    as best time.  The default threshold is 0.50. *)
Theorem find_amen_threshold (w : world) (video_path : string) (so sd : Z)
    (dir : string) (T S : matrix) (k : nat) (s thr : R) :
  reaches_matcher w video_path so sd dir T S ->
  match_template_chroma T S = Ok (k, s) ->
  let start_time := IZR (so * 60) + IZR (Z.of_nat k * 512) / IZR 22050 in
  let end_time := start_time + IZR (Z.of_nat (shape1 T) * 512) / IZR 22050 in
  (thr <= s ->
   outcome_of (find_amen w video_path so sd dir thr) =
   Ok (Detected (seconds_to_timestamp start_time) (int_of_float start_time)
                (seconds_to_timestamp end_time) (int_of_float end_time) s)) /\
  (s < thr ->
   outcome_of (find_amen w video_path so sd dir thr) =
   Ok (NotDetected (BelowThreshold s thr)
                   (Some (s, seconds_to_timestamp end_time)))) /\
  default_min_confidence = 1 / 2.
Proof.
  intros Hreach Hmatch start_time end_time.
  rewrite (find_amen_matched thr Hreach), Hmatch.
  unfold localize. fold start_time. fold end_time.
  split; [|split].
  - intros Hle. destruct (Rlt_dec s thr); [lra | reflexivity].
  - intros Hlt. destruct (Rlt_dec s thr); [reflexivity | lra].
  - unfold default_min_confidence. lra.
Qed.

Lemma find_amen_threshold_witness :
  (1 / 4 <= / (2 * (1 + epsilon)) ->
   outcome_of
     (find_amen (studio (Ok loud_template) (0%Z, Some 7200) 0 (Ok quiet_search))
        "service.mp4" 20 90 "templates" (1 / 4)) =
   Ok (Detected (seconds_to_timestamp studio_start) (int_of_float studio_start)
                (seconds_to_timestamp studio_end) (int_of_float studio_end)
                (/ (2 * (1 + epsilon))))) /\
  (/ (2 * (1 + epsilon)) < 1 / 4 ->
   outcome_of
     (find_amen (studio (Ok loud_template) (0%Z, Some 7200) 0 (Ok quiet_search))
        "service.mp4" 20 90 "templates" (1 / 4)) =
   Ok (NotDetected (BelowThreshold (/ (2 * (1 + epsilon))) (1 / 4))
                   (Some (/ (2 * (1 + epsilon)), seconds_to_timestamp studio_end)))) /\
  default_min_confidence = 1 / 2.
Proof.
  apply (@find_amen_threshold
           (studio (Ok loud_template) (0%Z, Some 7200) 0 (Ok quiet_search))
           "service.mp4" 20 90 "templates" loud_template quiet_search 0
           (/ (2 * (1 + epsilon))) (1 / 4)).
  - apply studio_reaches_matcher.
  - exact quiet_search_score.
Defined.

(** C4.  For a match at frame offset [k] in a search window that starts
    at [A] seconds, with hop [h], sample rate [r] and a template of [M]
    frames, the start time is [A + k * h / r] and the end time minus the
    start time is the template duration [M * h / r]; these are the times
    from which the outcome is built, and [find_amen] builds its outcome
    this way with [A] the start offset in seconds, [h = 512] and
    [r = 22050]. *)
Theorem find_amen_timestamps (w : world) (video_path : string) (so sd : Z)
    (dir : string) (T S : matrix) (k : nat) (s thr : R) :
  reaches_matcher w video_path so sd dir T S ->
  match_template_chroma T S = Ok (k, s) ->
  (forall (A r h : Z) (k' : nat) (s' thr' : R),
     exists start_time end_time,
       start_time = IZR A + INR k' * IZR h / IZR r /\
       end_time - start_time = INR (shape1 T) * IZR h / IZR r /\
       localize T A r h thr' k' s' =
       if Rlt_dec s' thr' then
         NotDetected (BelowThreshold s' thr')
                     (Some (s', seconds_to_timestamp end_time))
       else
         Detected (seconds_to_timestamp start_time) (int_of_float start_time)
                  (seconds_to_timestamp end_time) (int_of_float end_time) s') /\
  outcome_of (find_amen w video_path so sd dir thr) =
  Ok (localize T (so * 60) 22050 512 thr k s).
Proof.
  intros Hreach Hmatch. split.
  - intros A r h k' s' thr'. apply localize_times.
  - rewrite (find_amen_matched thr Hreach), Hmatch. reflexivity.
Qed.

Lemma find_amen_timestamps_witness :
  (forall (A r h : Z) (k' : nat) (s' thr' : R),
     exists start_time end_time,
       start_time = IZR A + INR k' * IZR h / IZR r /\
       end_time - start_time = INR (shape1 loud_template) * IZR h / IZR r /\
       localize loud_template A r h thr' k' s' =
       if Rlt_dec s' thr' then
         NotDetected (BelowThreshold s' thr')
                     (Some (s', seconds_to_timestamp end_time))
       else
         Detected (seconds_to_timestamp start_time) (int_of_float start_time)
                  (seconds_to_timestamp end_time) (int_of_float end_time) s') /\
  outcome_of
    (find_amen (studio (Ok loud_template) (0%Z, Some 7200) 0 (Ok quiet_search))
       "service.mp4" 20 90 "templates" (1 / 2)) =
  Ok (localize loud_template (20 * 60) 22050 512 (1 / 2) 0
        (/ (2 * (1 + epsilon)))).
Proof.
  apply (@find_amen_timestamps
           (studio (Ok loud_template) (0%Z, Some 7200) 0 (Ok quiet_search))
           "service.mp4" 20 90 "templates" loud_template quiet_search 0
           (/ (2 * (1 + epsilon))) (1 / 2)).
  - apply studio_reaches_matcher.
  - exact quiet_search_score.
Defined.

End Decision.

(* ================================================================== *)
(** * The search window *)
(* ================================================================== *)

Section SearchWindow.

Import Np Sys DetectAmen.
Local Open Scope R_scope.
Local Open Scope string_scope.

Lemma window_duration_fits (sd so : Z) (d : R) :
  IZR (so * 60) + window_duration sd so d <= d.
Proof.
  unfold window_duration.
  pose proof (Rmin_r (IZR (sd * 60)) (d - IZR (so * 60))). lra.
Qed.

(** With a window that is not empty the extraction is asked for exactly
    that window, once; what follows are the later stages. *)
Lemma find_amen_window_trace (w : world) (video_path : string)
    (so sd : Z) (dir : string) (thr : R) (T : matrix) (d : R) :
  probed w video_path dir T d ->
  0 < window_duration sd so d ->
  exists rest,
    trace (find_amen w video_path so sd dir thr) =
    ([EvExists (path_join dir "amen_chroma.npy");
      EvLoad (path_join dir "amen_chroma.npy");
      EvProbe video_path;
      EvMkTemp (tmp_name w);
      EvExtract video_path (so * 60) (window_duration sd so d) (tmp_name w)]
     ++ rest)%list /\
    Forall (fun ev => ev = EvChroma (tmp_name w) \/ ev = EvMatch \/
                      ev = EvExists (tmp_name w) \/
                      ev = EvRemove (tmp_name w)) rest.
Proof.
  intros (Hp & Hl & Hd) Hdur. unfold find_amen, get_video_duration. cbv zeta.
  rewrite Hp, Hl, Hd. simpl.
  fold (window_duration sd so d).
  destruct (Rle_dec (window_duration sd so d) 0); [lra|].
  unfold extract_audio, compute_chroma. simpl.
  destruct (ffmpeg w video_path (so * 60) (window_duration sd so d) (tmp_name w))
    as [returncode | e]; simpl.
  - destruct (returncode =? 0)%Z; simpl.
    + destruct (librosa_chroma w (tmp_name w) 512) as [S | e]; simpl.
      * destruct (match_template_chroma T S) as [[k s] | e]; simpl;
          destruct (path_exists w (tmp_name w)); simpl;
          eexists; (split; [reflexivity|]);
          repeat first [apply Forall_nil | apply Forall_cons; [solve [auto 6] |]].
      * destruct (path_exists w (tmp_name w)); simpl;
          eexists; (split; [reflexivity|]);
          repeat first [apply Forall_nil | apply Forall_cons; [solve [auto 6] |]].
    + destruct (path_exists w (tmp_name w)); simpl;
        eexists; (split; [reflexivity|]);
        repeat first [apply Forall_nil | apply Forall_cons; [solve [auto 6] |]].
  - destruct (path_exists w (tmp_name w)); simpl;
      eexists; (split; [reflexivity|]);
      repeat first [apply Forall_nil | apply Forall_cons; [solve [auto 6] |]].
Qed.

(** C7.  With the template loaded and the duration [d] of the recording
    probed, the duration of the search window is the minimum of the
    requested duration and of [d] minus the offset, so offset plus
    duration is at most [d].  If it is not positive the run ends with
    the structured failure VideoTooShort right after the probe, before
    any extraction or correlation; if it is positive the extraction is
    asked for exactly this offset and this duration. *)
Theorem find_amen_search_window (w : world) (video_path : string)
    (so sd : Z) (dir : string) (thr : R) (T : matrix) (d : R) :
  probed w video_path dir T d ->
  window_duration sd so d = Rmin (IZR (sd * 60)) (d - IZR (so * 60)) /\
  IZR (so * 60) + window_duration sd so d <= d /\
  (window_duration sd so d <= 0 ->
   find_amen w video_path so sd dir thr =
   ([EvExists (path_join dir "amen_chroma.npy");
     EvLoad (path_join dir "amen_chroma.npy");
     EvProbe video_path],
    Ok (NotDetected (VideoTooShort d (so * 60)) None))) /\
  (0 < window_duration sd so d ->
   forall v start_sec duration_sec out,
     In (EvExtract v start_sec duration_sec out)
        (trace (find_amen w video_path so sd dir thr)) <->
     (v = video_path /\ start_sec = (so * 60)%Z /\
      duration_sec = window_duration sd so d /\ out = tmp_name w)).
Proof.
  intros Hprobed. split; [reflexivity|].
  split; [apply window_duration_fits|]. split.
  - intros Hdur. apply find_amen_too_short with (T := T); assumption.
  - intros Hdur v start_sec duration_sec out.
    destruct (@find_amen_window_trace w video_path so sd dir thr T d Hprobed Hdur)
      as (rest & -> & Hrest).
    rewrite Forall_forall in Hrest. split.
    + intros Hin. apply in_app_or in Hin. destruct Hin as [Hin | Hin].
      * simpl in Hin.
        destruct Hin as [H | [H | [H | [H | [H | []]]]]]; try discriminate.
        injection H as <- <- <- <-. auto.
      * apply Hrest in Hin. destruct Hin as [H | [H | [H | H]]]; discriminate.
    + intros (-> & -> & -> & ->). apply in_or_app. left. simpl. auto 6.
Qed.

Lemma find_amen_search_window_witness :
  window_duration 90 20 7200 = Rmin (IZR (90 * 60)) (7200 - IZR (20 * 60)) /\
  IZR (20 * 60) + window_duration 90 20 7200 <= 7200 /\
  (window_duration 90 20 7200 <= 0 ->
   find_amen (studio (Ok template_1) (0%Z, Some 7200) 0 (Ok search_2))
     "service.mp4" 20 90 "templates" (1 / 2) =
   ([EvExists (path_join "templates" "amen_chroma.npy");
     EvLoad (path_join "templates" "amen_chroma.npy");
     EvProbe "service.mp4"],
    Ok (NotDetected (VideoTooShort 7200 (20 * 60)) None))) /\
  (0 < window_duration 90 20 7200 ->
   forall v start_sec duration_sec out,
     In (EvExtract v start_sec duration_sec out)
        (trace (find_amen (studio (Ok template_1) (0%Z, Some 7200) 0 (Ok search_2))
                  "service.mp4" 20 90 "templates" (1 / 2))) <->
     (v = "service.mp4" /\ start_sec = (20 * 60)%Z /\
      duration_sec = window_duration 90 20 7200 /\
      out = tmp_name (studio (Ok template_1) (0%Z, Some 7200) 0 (Ok search_2)))).
Proof.
  apply (@find_amen_search_window
           (studio (Ok template_1) (0%Z, Some 7200) 0 (Ok search_2))
           "service.mp4" 20 90 "templates" (1 / 2) template_1 7200).
  repeat split.
Defined.

End SearchWindow.

(* ================================================================== *)
(** * Printing and reading integers *)
(* ================================================================== *)

Section Numerals.

Unset Implicit Arguments.

Local Open Scope string_scope.
Local Open Scope Z_scope.

Lemma plain_char_cases (c : ascii) :
  plain_char c = true ->
  is_space c = false /\ Ascii.eqb c ":" = false /\
  (N_of_ascii c <? 0x80)%N = true /\
  (is_digit c = true \/ c = "-"%char).
Proof.
  destruct c as [[|] [|] [|] [|] [|] [|] [|] [|]];
    vm_compute; intros H; try discriminate H; auto.
Qed.

Lemma digit_char_digit (d : Z) :
  0 <= d < 10 ->
  is_digit (digit_char d) = true /\ digit_value (digit_char d) = d /\
  plain_char (digit_char d) = true.
Proof.
  intros Hd.
  assert (H : d = 0 \/ d = 1 \/ d = 2 \/ d = 3 \/ d = 4 \/ d = 5 \/ d = 6 \/
              d = 7 \/ d = 8 \/ d = 9) by lia.
  repeat (destruct H as [-> | H]; [vm_compute; auto|]).
  subst d. vm_compute. auto.
Qed.

Lemma trim_left_plain (s : string) : plain s = true -> trim_left s = s.
Proof.
  destruct s as [|c s]; [reflexivity|]. simpl. intros H.
  apply andb_prop in H. destruct H as [Hc _].
  destruct (plain_char_cases c Hc) as (-> & _). reflexivity.
Qed.

Lemma trim_right_plain (s : string) : plain s = true -> trim_right s = s.
Proof.
  induction s as [|c s IH]; [reflexivity|]. simpl. intros H.
  apply andb_prop in H. destruct H as [Hc Hs].
  rewrite (IH Hs). destruct (plain_char_cases c Hc) as (-> & _).
  destruct s; reflexivity.
Qed.

Lemma trim_plain (s : string) : plain s = true -> trim s = s.
Proof.
  intros H. unfold trim. rewrite (trim_left_plain s H). apply trim_right_plain, H.
Qed.

(** A printed integer is ASCII: the first step of [int] keeps it. *)
Lemma to_ascii_decimal_plain (s : string) :
  plain s = true -> to_ascii_decimal s = Some s.
Proof.
  induction s as [|c s IH]; [reflexivity|]. intros H.
  cbn [plain] in H. apply andb_prop in H. destruct H as [Hc Hs].
  cbn [to_ascii_decimal]. rewrite (IH Hs).
  destruct (plain_char_cases c Hc) as (_ & _ & Hlow & _). rewrite Hlow. reflexivity.
Qed.

Lemma int_of_str_plain (s : string) :
  plain s = true -> int_of_str s = int_of_literal s.
Proof.
  intros H. unfold int_of_str.
  rewrite (to_ascii_decimal_plain s H), (trim_plain s H). reflexivity.
Qed.

Lemma split_plain (s : string) : plain s = true -> split ":" s = [s].
Proof.
  induction s as [|c s IH]; [reflexivity|]. simpl. intros H.
  apply andb_prop in H. destruct H as [Hc Hs].
  destruct (plain_char_cases c Hc) as (_ & -> & _).
  rewrite (IH Hs). reflexivity.
Qed.

Lemma split_plain_colon (s rest : string) :
  plain s = true -> split ":" (s ++ String ":" rest) = s :: split ":" rest.
Proof.
  induction s as [|c s IH]; [reflexivity|]. simpl. intros H.
  apply andb_prop in H. destruct H as [Hc Hs].
  destruct (plain_char_cases c Hc) as (_ & -> & _).
  rewrite (IH Hs). reflexivity.
Qed.

Lemma digits_fuel_step (fuel : nat) (n : Z) (rest : string) :
  digits_fuel (S fuel) n rest =
  if n / 10 =? 0 then String (digit_char (n mod 10)) rest
  else digits_fuel fuel (n / 10) (String (digit_char (n mod 10)) rest).
Proof. reflexivity. Qed.

Lemma parse_digits_step (a : Z) (b : bool) (c : ascii) (rest : string) :
  is_digit c = true ->
  parse_digits a b (String c rest) =
  parse_digits (10 * a + digit_value c) true rest.
Proof. intros Hc. cbn [parse_digits]. rewrite Hc. reflexivity. Qed.

(** Reading what [digits_fuel] printed: the digits of [n] shift the
    accumulator by a power of ten and add [n]. *)
Lemma parse_digits_fuel (fuel : nat) :
  forall (n : Z) (rest : string),
  0 <= n < 2 ^ (Z.of_nat fuel + 1) ->
  exists p, forall (a : Z) (b : bool),
    parse_digits a b (digits_fuel (S fuel) n rest) =
    parse_digits (a * p + n) true rest.
Proof.
  induction fuel as [|fuel IH]; intros n rest Hn.
  - exists 10. intros a b. change (2 ^ (Z.of_nat 0 + 1)) with 2 in Hn.
    rewrite digits_fuel_step.
    assert (Hq : n / 10 = 0) by (apply Z.div_small; lia).
    assert (Hm : n mod 10 = n) by (apply Z.mod_small; lia).
    rewrite Hq, Hm. cbn [Z.eqb].
    destruct (digit_char_digit n) as (Hd & Hv & _); [lia|].
    rewrite (parse_digits_step _ _ _ _ Hd), Hv. f_equal. lia.
  - assert (Hmod : 0 <= n mod 10 < 10) by (apply Z.mod_pos_bound; lia).
    destruct (digit_char_digit (n mod 10) Hmod) as (Hd & Hv & _).
    rewrite digits_fuel_step.
    destruct (Z.eqb_spec (n / 10) 0) as [Hq | Hq].
    + exists 10. intros a b.
      rewrite (parse_digits_step _ _ _ _ Hd), Hv. f_equal.
      pose proof (Z.div_mod n 10). lia.
    + assert (Hdiv : 0 <= n / 10 < 2 ^ (Z.of_nat fuel + 1)).
      { split; [apply Z.div_pos; lia|].
        apply Z.div_lt_upper_bound; [lia|].
        replace (Z.of_nat (S fuel) + 1) with (Z.succ (Z.of_nat fuel + 1)) in Hn by lia.
        rewrite Z.pow_succ_r in Hn by lia. lia. }
      destruct (IH (n / 10) (String (digit_char (n mod 10)) rest) Hdiv) as (p & Hp).
      exists (10 * p). intros a b.
      rewrite Hp, (parse_digits_step _ _ _ _ Hd), Hv. f_equal.
      pose proof (Z.div_mod n 10). lia.
Qed.

Lemma plain_cons (c : ascii) (rest : string) :
  plain_char c = true -> plain rest = true -> plain (String c rest) = true.
Proof. intros Hc Hrest. cbn [plain]. rewrite Hc, Hrest. reflexivity. Qed.

Lemma digits_fuel_plain (fuel : nat) :
  forall (n : Z) (rest : string),
  plain rest = true -> plain (digits_fuel fuel n rest) = true.
Proof.
  induction fuel as [|fuel IH]; intros n rest Hrest; [exact Hrest|].
  assert (Hmod : 0 <= n mod 10 < 10) by (apply Z.mod_pos_bound; lia).
  destruct (digit_char_digit (n mod 10) Hmod) as (_ & _ & Hp).
  rewrite digits_fuel_step. destruct (n / 10 =? 0).
  - apply plain_cons; assumption.
  - apply IH. apply plain_cons; assumption.
Qed.

(** A printed number begins with a digit. *)
Lemma digits_fuel_head (fuel : nat) :
  forall (n : Z) (rest : string),
  exists c tail, digits_fuel (S fuel) n rest = String c tail /\ is_digit c = true.
Proof.
  induction fuel as [|fuel IH]; intros n rest.
  - assert (Hmod : 0 <= n mod 10 < 10) by (apply Z.mod_pos_bound; lia).
    destruct (digit_char_digit (n mod 10) Hmod) as (Hd & _).
    rewrite digits_fuel_step. cbn [digits_fuel]. destruct (n / 10 =? 0); eauto.
  - assert (Hmod : 0 <= n mod 10 < 10) by (apply Z.mod_pos_bound; lia).
    destruct (digit_char_digit (n mod 10) Hmod) as (Hd & _).
    rewrite digits_fuel_step.
    destruct (n / 10 =? 0); [eauto | apply IH].
Qed.

Lemma digits_bound (n : Z) :
  0 <= n -> 0 <= n < 2 ^ (Z.of_nat (Z.to_nat (Z.log2 n)) + 1).
Proof.
  intros Hn. split; [exact Hn|].
  rewrite Z2Nat.id by apply Z.log2_nonneg.
  destruct (Z.eq_dec n 0) as [-> | Hne]; [reflexivity|].
  apply Z.log2_spec. lia.
Qed.

Lemma int_of_digits_digits (n : Z) : 0 <= n -> int_of_digits (digits n) = Ok n.
Proof.
  intros Hn. unfold int_of_digits, digits.
  destruct (parse_digits_fuel (Z.to_nat (Z.log2 n)) n EmptyString (digits_bound n Hn))
    as (p & Hp).
  rewrite Hp. cbn [parse_digits]. f_equal; lia.
Qed.

Lemma digits_plain (n : Z) : plain (digits n) = true.
Proof. apply digits_fuel_plain. reflexivity. Qed.

Lemma int_of_str_digit_head (c : ascii) (tail : string) :
  is_digit c = true -> plain tail = true ->
  int_of_str (String c tail) = int_of_digits (String c tail).
Proof.
  intros Hc Htail.
  rewrite int_of_str_plain
    by (apply plain_cons; [unfold plain_char; rewrite Hc; reflexivity | exact Htail]).
  destruct c as [[|] [|] [|] [|] [|] [|] [|] [|]];
    try discriminate Hc; reflexivity.
Qed.

Lemma int_of_str_digits (n : Z) : 0 <= n -> int_of_str (digits n) = Ok n.
Proof.
  intros Hn. pose proof (digits_plain n) as Hplain.
  destruct (digits_fuel_head (Z.to_nat (Z.log2 n)) n EmptyString)
    as (c & tail & Heq & Hc).
  fold (digits n) in Heq. rewrite Heq in Hplain |- *.
  cbn [plain] in Hplain. apply andb_prop in Hplain. destruct Hplain as [_ Htail].
  rewrite (int_of_str_digit_head c tail Hc Htail), <- Heq.
  apply int_of_digits_digits, Hn.
Qed.

Lemma minus_plain : plain_char "-" = true.
Proof. reflexivity. Qed.

Lemma zero_digit : is_digit "0" = true.
Proof. reflexivity. Qed.

Lemma format_02d_plain (n : Z) : plain (format_02d n) = true.
Proof.
  unfold format_02d, str_of_int.
  destruct ((0 <=? n) && (n <? 10))%bool.
  - apply plain_cons; [reflexivity | apply digits_plain].
  - destruct (n <? 0); [|apply digits_plain].
    apply plain_cons; [exact minus_plain | apply digits_plain].
Qed.

(** [int(f"{n:02d}")] is [n]. *)
Lemma int_of_str_format_02d (n : Z) : int_of_str (format_02d n) = Ok n.
Proof.
  unfold format_02d, str_of_int.
  destruct (Z.leb_spec 0 n) as [Hpos | Hneg]; cbn [andb].
  - destruct (Z.ltb_spec n 10) as [Hlt | Hge].
    + rewrite (int_of_str_digit_head _ _ zero_digit (digits_plain n)).
      unfold int_of_digits.
      rewrite (parse_digits_step _ _ _ _ zero_digit).
      unfold digits.
      destruct (parse_digits_fuel (Z.to_nat (Z.log2 n)) n EmptyString
                  (digits_bound n Hpos)) as (p & Hp).
      rewrite Hp. cbn [parse_digits]. f_equal; lia.
    + destruct (Z.ltb_spec n 0); [lia|]. apply int_of_str_digits, Hpos.
  - destruct (Z.ltb_spec n 0); [|lia].
    rewrite int_of_str_plain
      by (apply plain_cons; [exact minus_plain | apply digits_plain]).
    cbn [int_of_literal].
    rewrite int_of_digits_digits by lia. cbn [Py.bind]. f_equal. lia.
Qed.

Lemma format_02d_width (n : Z) :
  0 <= n < 100 -> String.length (format_02d n) = 2%nat.
Proof.
  intros Hn.
  assert (Hall : forallb (fun k => Nat.eqb (String.length (format_02d (Z.of_nat k))) 2)
                   (seq 0 100) = true) by (vm_compute; reflexivity).
  rewrite forallb_forall in Hall.
  specialize (Hall (Z.to_nat n)). rewrite Z2Nat.id in Hall by lia.
  apply Nat.eqb_eq, Hall, in_seq. lia.
Qed.

End Numerals.

(* ================================================================== *)
(** * Timestamps *)
(* ================================================================== *)

Section Timestamps.

Import Np Sys DetectAmen CreateAmenTemplate.
Local Open Scope string_scope.

Unset Implicit Arguments.

Lemma seconds_to_timestamp_clock (secs : R) :
  seconds_to_timestamp secs = clock (int_of_float secs).
Proof. reflexivity. Qed.

Lemma parse_timestamp_clock (n : Z) : parse_timestamp (clock n) = Ok n.
Proof.
  unfold parse_timestamp, clock. cbn [append].
  rewrite split_plain_colon by apply format_02d_plain.
  rewrite split_plain_colon by apply format_02d_plain.
  rewrite split_plain by apply format_02d_plain.
  rewrite !int_of_str_format_02d. cbn [Py.bind]. f_equal.
  Z.div_mod_to_equations. lia.
Qed.


Lemma int_of_float_floor (x : R) :
  (0 <= x)%R -> int_of_float x = Int_part x /\ (0 <= Int_part x)%Z.
Proof.
  intros Hx. unfold int_of_float.
  destruct (Rle_dec 0 x); [|contradiction]. split; [reflexivity|].
  pose proof (base_Int_part x) as [_ Hlow].
  assert (H : (IZR (-1) < IZR (Int_part x))%R) by lra.
  apply lt_IZR in H. lia.
Qed.

(** C9.  For a non-negative number of seconds [s] the timestamp is
    hours, minutes and seconds separated by colons, the minutes and the
    seconds lie in [[0, 60)] and are printed on two characters, and
    [parse_timestamp] reads the timestamp back as the floor of [s]. *)
Theorem timestamp_round_trip (s : R) :
  (0 <= s)%R ->
  exists h m sec : Z,
    seconds_to_timestamp s
      = format_02d h ++ ":" ++ format_02d m ++ ":" ++ format_02d sec /\
    (0 <= h)%Z /\ (0 <= m < 60)%Z /\ (0 <= sec < 60)%Z /\
    String.length (format_02d m) = 2%nat /\
    String.length (format_02d sec) = 2%nat /\
    parse_timestamp (seconds_to_timestamp s) = Ok (Int_part s) /\
    (IZR (Int_part s) <= s < IZR (Int_part s) + 1)%R.
Proof.
  intros Hs. destruct (int_of_float_floor s Hs) as [Hint Hpos].
  exists (Int_part s / 3600)%Z, (Int_part s mod 3600 / 60)%Z, (Int_part s mod 60)%Z.
  assert (Hm : (0 <= Int_part s mod 3600 / 60 < 60)%Z).
  { pose proof (Z.mod_pos_bound (Int_part s) 3600 ltac:(lia)).
    split; [apply Z.div_pos; lia | apply Z.div_lt_upper_bound; lia]. }
  assert (Hsec : (0 <= Int_part s mod 60 < 60)%Z)
    by (apply Z.mod_pos_bound; lia).
  rewrite seconds_to_timestamp_clock, Hint.
  split; [reflexivity|].
  split; [apply Z.div_pos; lia|].
  split; [exact Hm|]. split; [exact Hsec|].
  split; [apply format_02d_width; lia|].
  split; [apply format_02d_width; lia|].
  split; [apply parse_timestamp_clock|].
  pose proof (base_Int_part s). lra.
Qed.

Lemma timestamp_round_trip_witness :
  exists h m sec : Z,
    seconds_to_timestamp 4520
      = format_02d h ++ ":" ++ format_02d m ++ ":" ++ format_02d sec /\
    (0 <= h)%Z /\ (0 <= m < 60)%Z /\ (0 <= sec < 60)%Z /\
    String.length (format_02d m) = 2%nat /\
    String.length (format_02d sec) = 2%nat /\
    parse_timestamp (seconds_to_timestamp 4520) = Ok (Int_part 4520) /\
    (IZR (Int_part 4520) <= 4520 < IZR (Int_part 4520) + 1)%R.
Proof.
  apply (timestamp_round_trip 4520). lra.
Defined.

Lemma int_of_float_IZR (z : Z) : int_of_float (IZR z) = z.
Proof.
  unfold int_of_float. destruct (Rle_dec 0 (IZR z)) as [Hz | Hz].
  - symmetry. apply Int_part_spec. lra.
  - rewrite <- opp_IZR.
    rewrite <- (Int_part_spec (IZR (- z)) (- z)) by lra. lia.
Qed.

(** The example of the usage text of [detect_amen.py]: 4520 seconds
    are printed as 01:15:20. *)
Example usage_timestamp : seconds_to_timestamp 4520 = "01:15:20".
Proof.
  rewrite seconds_to_timestamp_clock, int_of_float_IZR. reflexivity.
Qed.

(** The example of the usage text of [create_amen_template.py]. *)
Example usage_parse :
  parse_timestamp "01:54:04" = Ok 6844%Z /\ parse_timestamp "01:54:22" = Ok 6862%Z /\
  parse_timestamp "54:22" = Ok 3262%Z /\ parse_timestamp "6862" = Raise ValueError.
Proof. repeat split. Qed.

(** Of two equal maxima [np.argmax] keeps the first. *)
Example argmax_tie : argmax [1; 3; 3; 2]%R = Ok 1%nat.
Proof.
  simpl.
  repeat match goal with
         | |- context [Rlt_dec ?a ?b] => destruct (Rlt_dec a b); try lra
         end.
  reflexivity.
Qed.





End Timestamps.

(* ================================================================== *)
(** * Failures at the boundary of the process *)
(* ================================================================== *)

Section Boundary.

Import Np Sys DetectAmen.
Local Open Scope string_scope.

Unset Implicit Arguments.

Lemma main_launches (w : world) (argv : list string) (video_path : string)
    (so sd : Z) (dir : string) :
  launches w argv video_path so sd dir ->
  main w argv =
  match find_amen w video_path so sd dir default_min_confidence with
  | (t, Ok result) =>
      {| stdout := [PrintJson result]; events := EvExists video_path :: t;
         status := Exit 0 |}
  | (t, Raise e) =>
      {| stdout := []; events := EvExists video_path :: t; status := Traceback e |}
  end.
Proof.
  intros (Hlen & -> & Hhelp & Hdeps & Hso & Hsd & -> & Hvideo).
  unfold main. rewrite Hhelp, andb_false_r.
  destruct (Nat.ltb_spec (length argv) 2); [lia|].
  rewrite Hdeps.
  unfold arg_offset in Hso. unfold arg_duration in Hsd.
  rewrite Hso, Hsd, Hvideo. reflexivity.
Qed.

(** X21.  The failures that the script does handle: missing
    arguments, missing packages, a missing video, a missing template, a
    failed duration probe (whatever it raised), an empty search window
    and an extraction that [ffmpeg] ran and failed are each turned into
    a NotDetected dictionary that is printed, the process exits without
    a traceback, and no later stage (chromagram, matching) has been
    attempted. *)
Theorem handled_failures_are_structured (w : world) (argv : list string)
    (o : outcome) (evs : list event) (code : Z) :
  handled_failure w argv o evs code ->
  main w argv = {| stdout := [PrintJson o]; events := evs; status := Exit code |} /\
  (exists error, o = NotDetected error None) /\
  forallb (fun ev => negb (later_stage ev)) evs = true.
Proof.
  intros Hfail.
  destruct Hfail
    as [ Hlen
       | dep_error Hlen Hhelp Hdeps
       | so sd Hlen Hhelp Hdeps Hso Hsd Hvideo
       | video_path so sd dir Hlaunch Htemplate
       | video_path so sd dir T e Hlaunch Htemplate Hload Hprobe
       | video_path so sd dir T d Hlaunch Hprobed Hwindow
       | video_path so sd dir T d returncode Hlaunch Hprobed Hwindow Hffmpeg Hrc ].
  - (* missing arguments *)
    split; [|split; [eauto | reflexivity]].
    unfold main.
    destruct (Nat.ltb_spec 1 (length argv)); [lia|].
    destruct (Nat.ltb_spec (length argv) 2); [reflexivity | lia].
  - (* missing packages *)
    split; [|split; [|reflexivity]].
    + unfold main. rewrite Hhelp, andb_false_r.
      destruct (Nat.ltb_spec (length argv) 2); [lia|].
      rewrite Hdeps. reflexivity.
    + unfold check_dependencies in Hdeps.
      destruct ((if numpy_available w then [] else ["numpy"]) ++
                (if librosa_available w then [] else ["librosa"]) ++
                (if scipy_available w then [] else ["scipy"]))%list;
        [discriminate Hdeps | injection Hdeps as <-; eauto].
  - (* missing video *)
    split; [|split; [eauto | reflexivity]].
    unfold main. rewrite Hhelp, andb_false_r.
    destruct (Nat.ltb_spec (length argv) 2); [lia|].
    unfold arg_offset in Hso. unfold arg_duration in Hsd.
    rewrite Hdeps, Hso, Hsd, Hvideo. reflexivity.
  - (* missing template *)
    split; [|split; [eauto | reflexivity]].
    rewrite (main_launches _ _ _ _ _ _ Hlaunch).
    rewrite (@find_amen_no_template w video_path so sd dir default_min_confidence
               Htemplate).
    reflexivity.
  - (* failed probe *)
    split; [|split; [eauto | reflexivity]].
    rewrite (main_launches _ _ _ _ _ _ Hlaunch).
    rewrite (find_amen_probe_raises w video_path so sd dir default_min_confidence
               T e Htemplate Hload Hprobe).
    reflexivity.
  - (* empty window *)
    split; [|split; [eauto | reflexivity]].
    rewrite (main_launches _ _ _ _ _ _ Hlaunch).
    rewrite (@find_amen_too_short w video_path so sd dir default_min_confidence
               T d Hprobed Hwindow).
    reflexivity.
  - (* failed extraction *)
    split; [|split; [eauto|]].
    + rewrite (main_launches _ _ _ _ _ _ Hlaunch).
      rewrite (@find_amen_extract_fails w video_path so sd dir default_min_confidence
                 T d returncode Hprobed Hwindow Hffmpeg Hrc).
      reflexivity.
    + unfold cleanup. destruct (path_exists w (tmp_name w)); reflexivity.
Qed.

(** The extraction fails on a machine that has everything else. *)
Lemma studio_failed_extraction :
  handled_failure
    (studio (Ok template_1) (0%Z, Some 7200%R) 1 (Ok search_2))
    ["detect_amen.py"; "service.mp4"]
    (NotDetected ExtractFailed None)
    ([EvExists "service.mp4";
      EvExists (path_join "config/audio_templates" "amen_chroma.npy");
      EvLoad (path_join "config/audio_templates" "amen_chroma.npy");
      EvProbe "service.mp4";
      EvMkTemp "/tmp/search.wav";
      EvExtract "service.mp4" (20 * 60) (window_duration 90 20 7200) "/tmp/search.wav"]
     ++ cleanup (studio (Ok template_1) (0%Z, Some 7200%R) 1 (Ok search_2)))%list
    0.
Proof.
  apply (failed_extraction
           (studio (Ok template_1) (0%Z, Some 7200%R) 1 (Ok search_2))
           ["detect_amen.py"; "service.mp4"] "service.mp4" 20 90
           "config/audio_templates" template_1 7200%R 1).
  - unfold launches. simpl. repeat split. lia.
  - repeat split.
  - rewrite two_hours_window. lra.
  - reflexivity.
  - discriminate.
Qed.

Lemma handled_failures_are_structured_witness :
  main (studio (Ok template_1) (0%Z, Some 7200%R) 1 (Ok search_2))
       ["detect_amen.py"; "service.mp4"] =
  {| stdout := [PrintJson (NotDetected ExtractFailed None)];
     events :=
       ([EvExists "service.mp4";
         EvExists (path_join "config/audio_templates" "amen_chroma.npy");
         EvLoad (path_join "config/audio_templates" "amen_chroma.npy");
         EvProbe "service.mp4";
         EvMkTemp "/tmp/search.wav";
         EvExtract "service.mp4" (20 * 60) (window_duration 90 20 7200)
           "/tmp/search.wav"]
        ++ cleanup (studio (Ok template_1) (0%Z, Some 7200%R) 1 (Ok search_2)))%list;
     status := Exit 0 |} /\
  (exists error, NotDetected ExtractFailed None = NotDetected error None) /\
  forallb (fun ev => negb (later_stage ev))
    ([EvExists "service.mp4";
      EvExists (path_join "config/audio_templates" "amen_chroma.npy");
      EvLoad (path_join "config/audio_templates" "amen_chroma.npy");
      EvProbe "service.mp4";
      EvMkTemp "/tmp/search.wav";
      EvExtract "service.mp4" (20 * 60) (window_duration 90 20 7200)
        "/tmp/search.wav"]
     ++ cleanup (studio (Ok template_1) (0%Z, Some 7200%R) 1 (Ok search_2)))%list
  = true.
Proof.
  exact (handled_failures_are_structured _ _ _ _ _ studio_failed_extraction).
Defined.

Lemma studio_launches (template : result matrix) (probe : Z * option R)
    (ffmpeg_code : Z) (chroma : result matrix) :
  launches (studio template probe ffmpeg_code chroma)
    ["detect_amen.py"; "service.mp4"] "service.mp4" 20 90
    "config/audio_templates".
Proof. unfold launches. simpl. repeat split. lia. Qed.

(** C5.  Failures that cross the boundary of the process: an offset
    that is not a number, a template file that cannot be loaded, and an
    [ffmpeg] that is not installed each end the process with a
    traceback, exit status 1 and nothing printed, where the usage text
    of the script promises a dictionary; the last one
    after the temporary file was made, and cleaned up. *)
Theorem bad_argument_and_corrupt_template_escape :
  main (studio (Ok template_1) (0%Z, Some 7200%R) 0 (Ok search_2))
       ["detect_amen.py"; "service.mp4"; "soon"] =
  {| stdout := []; events := []; status := Traceback ValueError |} /\
  main (studio (Raise ValueError) (0%Z, Some 7200%R) 0 (Ok search_2))
       ["detect_amen.py"; "service.mp4"] =
  {| stdout := [];
     events := [EvExists "service.mp4";
                EvExists "config/audio_templates/amen_chroma.npy";
                EvLoad "config/audio_templates/amen_chroma.npy"];
     status := Traceback ValueError |} /\
  main (without_ffmpeg (studio (Ok template_1) (0%Z, Some 7200%R) 0 (Ok search_2)))
       ["detect_amen.py"; "service.mp4"] =
  {| stdout := [];
     events := [EvExists "service.mp4";
                EvExists "config/audio_templates/amen_chroma.npy";
                EvLoad "config/audio_templates/amen_chroma.npy";
                EvProbe "service.mp4";
                EvMkTemp "/tmp/search.wav";
                EvExtract "service.mp4" (20 * 60) (window_duration 90 20 7200)
                  "/tmp/search.wav";
                EvExists "/tmp/search.wav";
                EvRemove "/tmp/search.wav"];
     status := Traceback OSError |} /\
  exit_status (Traceback ValueError) = 1%Z /\
  exit_status (Traceback OSError) = 1%Z.
Proof.
  split; [reflexivity|]. split; [|split; [|split; reflexivity]].
  - rewrite (main_launches _ _ "service.mp4" 20 90 "config/audio_templates")
      by apply studio_launches.
    rewrite (@find_amen_load_raises _ "service.mp4" 20 90 "config/audio_templates"
               default_min_confidence ValueError) by reflexivity.
    reflexivity.
  - rewrite (main_launches _ _ "service.mp4" 20 90 "config/audio_templates")
      by (unfold launches; simpl; repeat split; lia).
    rewrite (@find_amen_extract_raises _ "service.mp4" 20 90
               "config/audio_templates" default_min_confidence template_1
               7200%R OSError).
    + reflexivity.
    + repeat split.
    + rewrite two_hours_window. lra.
    + reflexivity.
Qed.

(** A recording of one minute, searched from minute 20. *)
Lemma one_minute_window : (window_duration 90 20 60 <= 0)%R.
Proof.
  unfold window_duration. change (20 * 60)%Z with 1200%Z.
  pose proof (Rmin_r (IZR (90 * 60)) (60 - 1200)). lra.
Qed.

(** C2.  A template with more frames than the search matrix makes the
    matcher raise the [ValueError] of the array library, whatever the
    two frame counts; the code has no length check and no error of its
    own for this case.  With a two-frame template and a one-frame
    search window the buffer is allocated (empty), the first row is
    correlated, and only the addition into the buffer raises: after the
    extraction, the chromagram and the call of the matcher.  The
    process ends with a traceback, exit status 1 and nothing printed.
    The precondition next to it, a recording too short for the search
    window, is returned as a dictionary and printed. *)
Theorem long_template_ends_in_traceback :
  (forall (T S : matrix) (M N : nat),
     is_matrix 12 M T -> is_matrix 12 N S -> (N < M)%nat ->
     match_template_chroma T S = Raise ValueError) /\
  zeros (Z.of_nat (shape1 search_1) - Z.of_nat (shape1 template_2) + 1) = Ok [] /\
  (exists corr,
     correlate_valid (norm_row search_1 0) (norm_row template_2 0) = Ok corr /\
     length corr = 2%nat) /\
  match_template_chroma template_2 search_1 = Raise ValueError /\
  main (studio (Ok template_2) (0%Z, Some 7200%R) 0 (Ok search_1))
       ["detect_amen.py"; "service.mp4"] =
  {| stdout := [];
     events := [EvExists "service.mp4";
                EvExists "config/audio_templates/amen_chroma.npy";
                EvLoad "config/audio_templates/amen_chroma.npy";
                EvProbe "service.mp4";
                EvMkTemp "/tmp/search.wav";
                EvExtract "service.mp4" (20 * 60) (window_duration 90 20 7200)
                  "/tmp/search.wav";
                EvChroma "/tmp/search.wav";
                EvMatch;
                EvExists "/tmp/search.wav";
                EvRemove "/tmp/search.wav"];
     status := Traceback ValueError |} /\
  exit_status (Traceback ValueError) = 1%Z /\
  main (studio (Ok template_2) (0%Z, Some 60%R) 0 (Ok search_1))
       ["detect_amen.py"; "service.mp4"] =
  {| stdout := [PrintJson (NotDetected (VideoTooShort 60 (20 * 60)) None)];
     events := [EvExists "service.mp4";
                EvExists "config/audio_templates/amen_chroma.npy";
                EvLoad "config/audio_templates/amen_chroma.npy";
                EvProbe "service.mp4"];
     status := Exit 0 |}.
Proof.
  assert (Hmatch : match_template_chroma template_2 search_1 = Raise ValueError)
    by reflexivity.
  split; [exact long_template_raises|].
  split; [reflexivity|].
  split; [eexists; split; reflexivity|].
  split; [exact Hmatch|].
  split; [|split; [reflexivity|]].
  - rewrite (main_launches _ _ "service.mp4" 20 90 "config/audio_templates")
      by apply studio_launches.
    rewrite (find_amen_matched_run _ "service.mp4" 20 90 "config/audio_templates"
               default_min_confidence template_2 search_1 7200%R).
    + rewrite Hmatch. reflexivity.
    + repeat split.
    + rewrite two_hours_window. lra.
    + reflexivity.
    + reflexivity.
  - rewrite (main_launches _ _ "service.mp4" 20 90 "config/audio_templates")
      by apply studio_launches.
    rewrite (@find_amen_too_short _ "service.mp4" 20 90 "config/audio_templates"
               default_min_confidence template_2 60%R).
    + reflexivity.
    + repeat split.
    + exact one_minute_window.
Qed.

End Boundary.

(* ================================================================== *)
(** * Further properties of the matcher *)
(* ================================================================== *)

Section MatcherFurther.

Import Np Spec DetectAmen.
Local Open Scope R_scope.

Unset Implicit Arguments.




Lemma for_each_app (A X : Type) (xs ys : list X)
    (body : X -> A -> result A) (acc : A) :
  for_each (xs ++ ys) body acc =
  Py.bind (for_each xs body acc) (for_each ys body).
Proof.
  revert acc. induction xs as [|x xs IH]; intros acc; [reflexivity|].
  simpl. destruct (body x acc) as [acc' | e]; simpl; [apply IH | reflexivity].
Qed.

Lemma getitem_overflow (A : Type) (l : list A) (i : nat) :
  (length l <= i)%nat -> getitem l i = Raise IndexError.
Proof.
  intros Hi. unfold getitem.
  rewrite (proj2 (nth_error_None l i) Hi). reflexivity.
Qed.

(** X4.  A template with fewer than 12 rows is not refused when it is
    loaded; the matcher correlates the rows that are there and raises
    [IndexError] at the first missing one. *)
Theorem match_template_chroma_missing_rows (T S : matrix) (r M N : nat) :
  is_matrix r M T -> (r < 12)%nat -> is_matrix 12 N S -> (1 <= M <= N)%nat ->
  match_template_chroma T S = Raise IndexError.
Proof.
  intros HT Hr HS HMN. unfold match_template_chroma.
  assert (HlenT : length T = r) by (destruct HT; assumption).
  assert (HlenS : length S = 12%nat) by (destruct HS; assumption).
  rewrite (is_matrix_shape1 HS) by lia.
  assert (Hbuffer : exists L,
            zeros (Z.of_nat N - Z.of_nat (shape1 T) + 1) =
            Ok (map (fun _ => 0) (seq 0 L)) /\
            (0 < r -> L = N - M + 1 /\ shape1 T = M)%nat).
  { destruct r as [|r'].
    - destruct T; [|discriminate HlenT]. simpl shape1.
      exists (N + 1)%nat.
      replace (Z.of_nat N - Z.of_nat 0 + 1)%Z with (Z.of_nat (N + 1)) by lia.
      split; [apply zeros_ok | lia].
    - rewrite (is_matrix_shape1 HT) by lia.
      exists (N - M + 1)%nat.
      replace (Z.of_nat N - Z.of_nat M + 1)%Z with (Z.of_nat (N - M + 1)) by lia.
      split; [apply zeros_ok | auto]. }
  destruct Hbuffer as (L & -> & HL). unfold Py.bind at 1.
  replace (seq 0 12) with (seq 0 r ++ seq r (12 - r))%list
    by (rewrite <- seq_app; f_equal; lia).
  rewrite for_each_app.
  rewrite (@for_each_accumulate _ (code_row_corr T S) L r 0 (fun _ => 0)).
  - unfold Py.bind at 1.
    destruct (12 - r)%nat as [|n] eqn:Hn; [lia|]. simpl seq. simpl for_each.
    rewrite getitem_sub_div by lia. unfold Py.bind at 2.
    rewrite (getitem_overflow _ (sub_div T _ _) r)
      by (unfold sub_div; rewrite length_map; lia).
    reflexivity.
  - intros i f Hi. destruct (HL ltac:(lia)) as [-> HsT].
    rewrite getitem_sub_div by lia. unfold Py.bind at 1.
    rewrite getitem_sub_div by lia. unfold Py.bind at 1.
    fold (norm_row S i). fold (norm_row T i).
    assert (HlT : length (norm_row T i) = M) by (apply (norm_row_length HT); lia).
    assert (HlS : length (norm_row S i) = N) by (apply (norm_row_length HS); lia).
    rewrite correlate_valid_ok by lia.
    unfold Py.bind. rewrite HlT, HlS.
    rewrite iadd_ok. unfold code_row_corr. rewrite HsT. reflexivity.
Qed.

Lemma match_template_chroma_missing_rows_witness :
  match_template_chroma (repeat [1] 11) search_2 = Raise IndexError.
Proof.
  apply (match_template_chroma_missing_rows (repeat [1] 11) search_2 11 1 2).
  - split; [reflexivity | repeat constructor].
  - lia.
  - exact search_2_shape.
  - lia.
Defined.

End MatcherFurther.

(* ================================================================== *)
(** * Further properties of [find_amen] and [main] *)
(* ================================================================== *)

(** Membership in a list that is written out. *)
Ltac decide_in H :=
  simpl in H; repeat (destruct H as [H | H]; try discriminate H);
  try contradiction.

Section PipelineFurther.

Import Np Sys DetectAmen.
Local Open Scope R_scope.
Local Open Scope string_scope.

Unset Implicit Arguments.

(** X5.  Only the duration probe is guarded.  Whatever
    [get_video_duration] raises (the exception of [subprocess.run], the
    [RuntimeError] of a return code other than 0, the [ValueError] of
    [float]) becomes a DurationFailed outcome; an exception raised by
    [np.load], by the launch of [ffmpeg], by the chromagram or by the
    matcher leaves [find_amen] unchanged. *)
Theorem find_amen_raise_origin (w : world) (video_path : string)
    (so sd : Z) (dir : string) (thr : R) (e : exn) :
  (forall T,
     path_exists w (path_join dir "amen_chroma.npy") = true ->
     np_load w (path_join dir "amen_chroma.npy") = Ok T ->
     outcome_of (get_video_duration w video_path) = Raise e ->
     outcome_of (find_amen w video_path so sd dir thr) =
     Ok (NotDetected (DurationFailed e) None)) /\
  (path_exists w (path_join dir "amen_chroma.npy") = true ->
   np_load w (path_join dir "amen_chroma.npy") = Raise e ->
   outcome_of (find_amen w video_path so sd dir thr) = Raise e) /\
  (forall T d,
     probed w video_path dir T d -> 0 < window_duration sd so d ->
     ffmpeg w video_path (so * 60) (window_duration sd so d) (tmp_name w)
       = Raise e ->
     outcome_of (find_amen w video_path so sd dir thr) = Raise e) /\
  (forall T d,
     probed w video_path dir T d -> 0 < window_duration sd so d ->
     ffmpeg w video_path (so * 60) (window_duration sd so d) (tmp_name w)
       = Ok 0%Z ->
     librosa_chroma w (tmp_name w) 512 = Raise e ->
     outcome_of (find_amen w video_path so sd dir thr) = Raise e) /\
  (forall T S,
     reaches_matcher w video_path so sd dir T S ->
     match_template_chroma T S = Raise e ->
     outcome_of (find_amen w video_path so sd dir thr) = Raise e).
Proof.
  split; [|split; [|split; [|split]]].
  - intros T Hp Hl Hprobe.
    rewrite (find_amen_probe_raises _ _ _ _ _ _ T e Hp Hl Hprobe). reflexivity.
  - intros Hp Hl.
    rewrite (@find_amen_load_raises w video_path so sd dir thr e Hp Hl). reflexivity.
  - intros T d Hprobed Hdur Hrun.
    rewrite (@find_amen_extract_raises w video_path so sd dir thr T d e
               Hprobed Hdur Hrun). reflexivity.
  - intros T d Hprobed Hdur Hrun Hchroma.
    rewrite (find_amen_chroma_raises _ _ _ _ _ _ T d e Hprobed Hdur Hrun Hchroma).
    reflexivity.
  - intros T S Hreach Hmatch.
    rewrite (@find_amen_matched w video_path so sd dir thr T S Hreach), Hmatch.
    reflexivity.
Qed.

(** A run either stops before the temporary file is made, or ends with
    the events of the [finally] clause. *)
Lemma find_amen_trace_shape (w : world) (video_path : string)
    (so sd : Z) (dir : string) (thr : R) :
  (forall q, ~ In (EvMkTemp q) (trace (find_amen w video_path so sd dir thr)) /\
             ~ In (EvRemove q) (trace (find_amen w video_path so sd dir thr))) \/
  (exists before,
     trace (find_amen w video_path so sd dir thr) = (before ++ cleanup w)%list /\
     In (EvMkTemp (tmp_name w)) before /\
     (forall q, In (EvMkTemp q) before -> q = tmp_name w) /\
     (forall q, ~ In (EvRemove q) before)).
Proof.
  find_amen_run w video_path so sd dir thr as T S d e Hrun;
    rewrite Hrun; unfold trace; cbn [fst].
  1-4: left; intros q; split; intros Hin; decide_in Hin.
  all: right; eexists; split; [reflexivity|];
    (split; [simpl; auto 8|]); split; intros q Hin; decide_in Hin;
    injection Hin as <-; reflexivity.
Qed.

Lemma cleanup_events (w : world) (ev : event) :
  In ev (cleanup w) ->
  ev = EvExists (tmp_name w) \/
  (ev = EvRemove (tmp_name w) /\ path_exists w (tmp_name w) = true).
Proof.
  unfold cleanup. intros [<- | Hin]; [auto|].
  destruct (path_exists w (tmp_name w)); [|destruct Hin].
  destruct Hin as [<- | []]. auto.
Qed.

(** X6.  The temporary file is cleaned up on every path: once it has
    been created the run ends with the events of the [finally] clause,
    whether [find_amen] returns or raises; and nothing is removed that
    the run did not create. *)
Theorem find_amen_cleans_up (w : world) (video_path : string)
    (so sd : Z) (dir : string) (thr : R) (q : string) :
  (In (EvMkTemp q) (trace (find_amen w video_path so sd dir thr)) ->
   q = tmp_name w /\
   exists before,
     trace (find_amen w video_path so sd dir thr) = (before ++ cleanup w)%list) /\
  (In (EvRemove q) (trace (find_amen w video_path so sd dir thr)) ->
   In (EvMkTemp q) (trace (find_amen w video_path so sd dir thr)) /\
   path_exists w q = true).
Proof.
  destruct (find_amen_trace_shape w video_path so sd dir thr)
    as [Hearly | (before & Htrace & Hmade & Honly & Hnone)].
  - split; intros Hin; destruct (Hearly q) as [H1 H2]; contradiction.
  - rewrite Htrace. split; intros Hin; apply in_app_or in Hin;
      destruct Hin as [Hin | Hin].
    + split; [apply Honly; exact Hin | exists before; reflexivity].
    + apply cleanup_events in Hin. destruct Hin as [Hin | [Hin _]]; discriminate Hin.
    + destruct (Hnone q Hin).
    + apply cleanup_events in Hin. destruct Hin as [Hin | [Hin Hex]];
        [discriminate Hin|].
      injection Hin as ->. split; [apply in_or_app; left; exact Hmade | exact Hex].
Qed.

(** X7.  The matcher runs exactly when the template was found and
    loaded, the duration was probed, the window is not empty, the
    extraction succeeded and the chromagram was computed. *)
Theorem find_amen_matches_iff (w : world) (video_path : string)
    (so sd : Z) (dir : string) (thr : R) :
  In EvMatch (trace (find_amen w video_path so sd dir thr)) <->
  exists T S, reaches_matcher w video_path so sd dir T S.
Proof.
  split.
  - intros Hin.
    find_amen_run w video_path so sd dir thr as T S d e Hrun;
      [exfalso .. | exists T, S; assumption];
      rewrite Hrun in Hin; unfold trace, cleanup in Hin; cbn [fst] in Hin;
      try (apply in_app_or in Hin; destruct Hin as [Hin | Hin]);
      try destruct (path_exists w (tmp_name w));
      simpl in Hin;
      repeat (destruct Hin as [Hin | Hin]; try discriminate Hin);
      contradiction.
  - intros (T & S & Hreach).
    apply (reaches_matcher_trace _ _ _ _ _ _ T S Hreach).
Qed.







(** X10.  The process prints at most one thing, and it prints nothing
    exactly when it ends with a traceback.  An exit status of 1 with a
    dictionary printed means that the detection never started: the only
    thing looked at outside was whether the video exists.  Once
    [find_amen] is called, whatever it returns, detected or not, is
    printed with exit status 0, and an exception that leaves it ends the
    process with exit status 1 and nothing printed. *)
Theorem main_prints_once (w : world) (argv : list string) :
  (length (stdout (main w argv)) <= 1)%nat /\
  (stdout (main w argv) = [] <-> exists e, status (main w argv) = Traceback e) /\
  (exit_status (status (main w argv)) = 1%Z -> stdout (main w argv) <> [] ->
   forall ev, In ev (events (main w argv)) -> ev = EvExists (nth 1 argv "")) /\
  (forall video_path so sd dir t r,
     launches w argv video_path so sd dir ->
     find_amen w video_path so sd dir default_min_confidence = (t, r) ->
     match r with
     | Ok o =>
         stdout (main w argv) = [PrintJson o] /\
         exit_status (status (main w argv)) = 0%Z
     | Raise e =>
         stdout (main w argv) = [] /\
         exit_status (status (main w argv)) = 1%Z
     end).
Proof.
  assert (Hsettle : forall (out : list printed) (evs : list event)
                      (st : termination),
            (length out <= 1)%nat ->
            (out = [] <-> exists e, st = Traceback e) ->
            (exit_status st = 1%Z -> out <> [] ->
             forall ev, In ev evs -> ev = EvExists (nth 1 argv "")) ->
            (length (stdout {| stdout := out; events := evs; status := st |}) <= 1)%nat /\
            (stdout {| stdout := out; events := evs; status := st |} = [] <->
             exists e, status {| stdout := out; events := evs; status := st |}
                       = Traceback e) /\
            (exit_status (status {| stdout := out; events := evs; status := st |})
               = 1%Z ->
             stdout {| stdout := out; events := evs; status := st |} <> [] ->
             forall ev, In ev (events {| stdout := out; events := evs; status := st |})
                        -> ev = EvExists (nth 1 argv ""))).
  { intros out evs st H1 H2 H3. simpl. auto. }
  assert (Hprinted : forall (x : printed) (code : Z),
            [x] = [] <-> exists e, Exit code = Traceback e).
  { intros x code. split; [discriminate | intros (e & He); discriminate He]. }
  assert (Hcrashed : forall e0 : exn,
            @nil printed = [] <-> exists e, Traceback e0 = Traceback e).
  { intros e0. split; eauto. }
  rewrite <- !and_assoc. split.
  2:{ intros video_path so sd dir t r Hlaunch Hrun.
      rewrite (main_launches _ _ _ _ _ _ Hlaunch), Hrun.
      destruct r as [o | e]; split; reflexivity. }
  rewrite !and_assoc.
  unfold main.
  destruct ((1 <? length argv)%nat && is_help (nth 1 argv ""))%bool.
  { apply Hsettle; [simpl; lia | apply Hprinted | discriminate]. }
  destruct (length argv <? 2)%nat.
  { apply Hsettle; [simpl; lia | apply Hprinted | intros _ _ ev []]. }
  destruct (check_dependencies w) as [dep_error |].
  { apply Hsettle; [simpl; lia | apply Hprinted | intros _ _ ev []]. }
  destruct (if (2 <? length argv)%nat then int_of_str (nth 2 argv "") else Ok 20%Z)
    as [so | e].
  2:{ apply Hsettle; [simpl; lia | apply Hcrashed | intros _ H; contradiction]. }
  destruct (if (3 <? length argv)%nat then int_of_str (nth 3 argv "") else Ok 90%Z)
    as [sd | e].
  2:{ apply Hsettle; [simpl; lia | apply Hcrashed | intros _ H; contradiction]. }
  destruct (path_exists w (nth 1 argv "")).
  2:{ apply Hsettle; [simpl; lia | apply Hprinted |].
      intros _ _ ev [<- | []]. reflexivity. }
  cbn [negb].
  destruct (find_amen w (nth 1 argv "") so sd _ default_min_confidence)
    as [t [o | e]].
  - apply Hsettle; [simpl; lia | apply Hprinted | discriminate].
  - apply Hsettle; [simpl; lia | apply Hcrashed | intros _ H; contradiction].
Qed.

End PipelineFurther.

(* ================================================================== *)
(** * Further properties of the timestamps *)
(* ================================================================== *)

Section TimestampsFurther.

Import Np Sys DetectAmen CreateAmenTemplate.
Local Open Scope string_scope.

Unset Implicit Arguments.

(** X11.  For every number of seconds, negative ones included,
    [parse_timestamp] reads a timestamp back as the whole second it was
    printed from; so two timestamps are equal exactly when the whole
    seconds are. *)
Theorem timestamp_whole_second (x y : R) :
  parse_timestamp (seconds_to_timestamp x) = Ok (int_of_float x) /\
  (seconds_to_timestamp x = seconds_to_timestamp y <->
   int_of_float x = int_of_float y).
Proof.
  split.
  - rewrite seconds_to_timestamp_clock. apply parse_timestamp_clock.
  - split.
    + intros Heq.
      pose proof (parse_timestamp_clock (int_of_float x)) as Hx.
      pose proof (parse_timestamp_clock (int_of_float y)) as Hy.
      rewrite <- !seconds_to_timestamp_clock in Hx, Hy.
      rewrite Heq in Hx. congruence.
    + intros Heq. rewrite !seconds_to_timestamp_clock, Heq. reflexivity.
Qed.

Lemma str_of_int_plain (n : Z) : plain (str_of_int n) = true.
Proof.
  unfold str_of_int. destruct (n <? 0)%Z; [|apply digits_plain].
  apply plain_cons; [exact minus_plain | apply digits_plain].
Qed.

(** [int(str(n))] is [n]. *)
Lemma int_of_str_str_of_int (n : Z) : int_of_str (str_of_int n) = Ok n.
Proof.
  unfold str_of_int. destruct (Z.ltb_spec n 0) as [Hneg | Hpos].
  - rewrite int_of_str_plain
      by (apply plain_cons; [exact minus_plain | apply digits_plain]).
    cbn [int_of_literal].
    rewrite int_of_digits_digits by lia. cbn [Py.bind]. f_equal. lia.
  - apply int_of_str_digits, Hpos.
Qed.

(** X12.  [parse_timestamp] checks no range: whatever integers are
    written in the fields, negative or above 59, it answers
    [3600 * a + 60 * b + c] for three fields and [60 * a + b] for two. *)
Theorem parse_timestamp_any_fields (a b c : Z) :
  parse_timestamp (str_of_int a ++ ":" ++ str_of_int b ++ ":" ++ str_of_int c)
    = Ok (a * 3600 + b * 60 + c)%Z /\
  parse_timestamp (str_of_int a ++ ":" ++ str_of_int b) = Ok (a * 60 + b)%Z.
Proof.
  unfold parse_timestamp. cbn [append]. split.
  - rewrite split_plain_colon by apply str_of_int_plain.
    rewrite split_plain_colon by apply str_of_int_plain.
    rewrite split_plain by apply str_of_int_plain.
    rewrite !int_of_str_str_of_int. reflexivity.
  - rewrite split_plain_colon by apply str_of_int_plain.
    rewrite split_plain by apply str_of_int_plain.
    rewrite !int_of_str_str_of_int. reflexivity.
Qed.

Lemma split_length (s : string) : length (split ":" s) = S (colons s).
Proof.
  induction s as [|c s IH]; [reflexivity|].
  cbn [split colons]. destruct (Ascii.eqb c ":").
  - cbn [length]. rewrite IH. reflexivity.
  - destruct (split ":" s) as [|piece pieces]; [discriminate IH|].
    cbn [length] in *. lia.
Qed.

Lemma int_of_str_raises (s : string) (e : exn) :
  int_of_str s = Raise e -> e = ValueError.
Proof.
  unfold int_of_str, int_of_literal, int_of_digits.
  destruct (to_ascii_decimal s) as [t|]; [|intros H; congruence].
  destruct (trim t) as [|c rest]; simpl.
  - intros H. congruence.
  - destruct c as [[|] [|] [|] [|] [|] [|] [|] [|]];
      repeat match goal with
             | |- context [parse_digits ?a ?b ?r] => destruct (parse_digits a b r)
             end; simpl; intros H; congruence.
Qed.

Lemma parse_timestamp_raises (ts : string) (e : exn) :
  parse_timestamp ts = Raise e -> e = ValueError.
Proof.
  unfold parse_timestamp.
  destruct (split ":" ts) as [|p0 [|p1 [|p2 [|p3 rest]]]]; try congruence.
  - destruct (int_of_str p0) as [a | e0] eqn:H0; cbn [Py.bind];
      [|intros H; injection H as <-; apply (int_of_str_raises _ _ H0)].
    destruct (int_of_str p1) as [b | e1] eqn:H1; cbn [Py.bind];
      [discriminate|intros H; injection H as <-; apply (int_of_str_raises _ _ H1)].
  - destruct (int_of_str p0) as [a | e0] eqn:H0; cbn [Py.bind];
      [|intros H; injection H as <-; apply (int_of_str_raises _ _ H0)].
    destruct (int_of_str p1) as [b | e1] eqn:H1; cbn [Py.bind];
      [|intros H; injection H as <-; apply (int_of_str_raises _ _ H1)].
    destruct (int_of_str p2) as [c | e2] eqn:H2; cbn [Py.bind];
      [discriminate|intros H; injection H as <-; apply (int_of_str_raises _ _ H2)].
Qed.

(** X13.  [parse_timestamp] raises [ValueError] and nothing else; it
    does so for every string without a colon and for every string with
    three colons or more. *)
Theorem parse_timestamp_rejects (ts : string) :
  (forall e, parse_timestamp ts = Raise e -> e = ValueError) /\
  (colons ts = 0%nat \/ (3 <= colons ts)%nat ->
   parse_timestamp ts = Raise ValueError).
Proof.
  split; [intros e; apply parse_timestamp_raises|].
  pose proof (split_length ts) as Hlen. unfold parse_timestamp.
  destruct (split ":" ts) as [|p0 [|p1 [|p2 [|p3 rest]]]]; cbn [length] in Hlen.
  - discriminate Hlen.
  - reflexivity.
  - lia.
  - lia.
  - reflexivity.
Qed.

End TimestampsFurther.

(* ================================================================== *)
(** * The template script *)
(* ================================================================== *)

Section TemplateScript.

Import Np Sys CreateAmenTemplate CreateAmenTemplateRun.
Local Open Scope string_scope.
Local Open Scope Z_scope.

Unset Implicit Arguments.

(** The two timestamps of the command line, parsed. *)
Lemma parsed_timestamps (start_ts end_ts : string) :
  (exists start_sec end_sec,
     parse_timestamp start_ts = Ok start_sec /\
     parse_timestamp end_ts = Ok end_sec /\
     Py.bind (parse_timestamp start_ts)
       (fun s => Py.bind (parse_timestamp end_ts) (fun e => Ok (s, e)))
     = Ok (start_sec, end_sec)) \/
  ((forall start_sec end_sec,
      parse_timestamp start_ts = Ok start_sec ->
      parse_timestamp end_ts = Ok end_sec -> False) /\
   Py.bind (parse_timestamp start_ts)
     (fun s => Py.bind (parse_timestamp end_ts) (fun e => Ok (s, e)))
   = Raise ValueError).
Proof.
  destruct (parse_timestamp start_ts) as [s | e1] eqn:H1.
  - destruct (parse_timestamp end_ts) as [e | e2] eqn:H2.
    + left. exists s, e. auto.
    + right. split; [intros ? ? _ H; discriminate H|].
      rewrite (parse_timestamp_raises end_ts e2 H2). reflexivity.
  - right. split; [intros ? ? H; discriminate H|].
    rewrite (parse_timestamp_raises start_ts e1 H1). reflexivity.
Qed.

(** The eight ways a run of the template script's [main] can go. *)
Lemma template_main_cases (w : world) (argv : list string) :
  let video_path := nth 1 argv "" in
  let dir := arg_template_dir w argv in
  let wav_path := path_join dir "amen_template.wav" in
  let chroma_path := path_join dir "amen_chroma.npy" in
  ((length argv < 4)%nat /\
   main w argv = {| lines := [Doc]; actions := []; ending := DetectAmen.Exit 1 |}) \/
  ((4 <= length argv)%nat /\ path_exists w video_path = false /\
   main w argv = {| lines := [VideoNotFound video_path];
                    actions := [AExists video_path];
                    ending := DetectAmen.Exit 1 |}) \/
  ((4 <= length argv)%nat /\ path_exists w video_path = true /\
   (forall s e, parse_timestamp (nth 2 argv "") = Ok s ->
                parse_timestamp (nth 3 argv "") = Ok e -> False) /\
   main w argv = {| lines := [TimestampError ValueError];
                    actions := [AExists video_path];
                    ending := DetectAmen.Exit 1 |}) \/
  (exists s e,
     (4 <= length argv)%nat /\ path_exists w video_path = true /\
     parse_timestamp (nth 2 argv "") = Ok s /\
     parse_timestamp (nth 3 argv "") = Ok e /\
     ((e - s <= 0 /\
       main w argv = {| lines := [EndNotAfterStart];
                        actions := [AExists video_path];
                        ending := DetectAmen.Exit 1 |}) \/
      (0 < e - s /\
       ((exists err,
           ffmpeg w video_path s (IZR (e - s)) wav_path = Raise err /\
           actions (main w argv) =
             [AExists video_path; AMakedirs dir;
              AFfmpeg video_path s (e - s) wav_path] /\
           ending (main w argv) = DetectAmen.Traceback err) \/
        (exists returncode,
           ffmpeg w video_path s (IZR (e - s)) wav_path = Ok returncode /\
           returncode <> 0 /\
           actions (main w argv) =
             [AExists video_path; AMakedirs dir;
              AFfmpeg video_path s (e - s) wav_path] /\
           ending (main w argv) = DetectAmen.Exit 1 /\
           last (lines (main w argv)) Doc = ExtractFailed) \/
        (ffmpeg w video_path s (IZR (e - s)) wav_path = Ok 0 /\
         ((exists err,
             librosa_chroma w wav_path 512 = Raise err /\
             actions (main w argv) =
               [AExists video_path; AMakedirs dir;
                AFfmpeg video_path s (e - s) wav_path; AChroma wav_path] /\
             ending (main w argv) = DetectAmen.Traceback err) \/
          (exists chroma,
             librosa_chroma w wav_path 512 = Ok chroma /\
             actions (main w argv) =
               [AExists video_path; AMakedirs dir;
                AFfmpeg video_path s (e - s) wav_path; AChroma wav_path;
                ASave chroma_path chroma] /\
             ending (main w argv) = DetectAmen.Exit 0 /\
             In (ComputedDuration
                   (IZR (Z.of_nat (shape1 chroma) * 512) / IZR 22050))
                (lines (main w argv))))))))).
Proof.
  intros video_path dir wav_path chroma_path.
  unfold main. fold video_path.
  change (if (4 <? length argv)%nat then nth 4 argv "" else default_template_dir w)
    with dir.
  fold wav_path. fold chroma_path.
  destruct (Nat.ltb_spec (length argv) 4) as [Hlen | Hlen]; [left; auto|].
  right. destruct (path_exists w video_path) eqn:Hvideo; [|left; auto].
  right. cbn [negb].
  destruct (parsed_timestamps (nth 2 argv "") (nth 3 argv ""))
    as [(s & e & Hs & He & ->) | (Hnone & ->)]; [|left; auto].
  right. exists s, e. do 4 (split; [first [assumption | reflexivity]|]).
  destruct (Z.leb_spec (e - s) 0) as [Hdur | Hdur]; [left; auto|].
  right. split; [exact Hdur|]. unfold extract_audio.
  destruct (ffmpeg w video_path s (IZR (e - s)) wav_path) as [returncode | err];
    cbn [Py.bind].
  2:{ left. exists err. cbn [lines actions ending]. auto. }
  right. destruct (Z.eqb_spec returncode 0) as [-> | Hrc].
  - right. split; [reflexivity|]. cbn [negb]. unfold compute_chroma.
    destruct (librosa_chroma w wav_path 512) as [chroma | err].
    + right. exists chroma. cbn [Py.bind]. cbn [lines actions ending].
      repeat split. simpl. auto 20.
    + left. exists err. cbn [Py.bind]. cbn [lines actions ending]. auto.
  - left. exists returncode. split; [reflexivity|]. split; [exact Hrc|].
    cbn [negb]. cbn [lines actions ending]. repeat split.
Qed.

Ltac template_cases w argv :=
  let Hlen := fresh "Hlen" in
  let Hvideo := fresh "Hvideo" in
  let Hnone := fresh "Hnone" in
  let Hmain := fresh "Hmain" in
  let Hs := fresh "Hs" in
  let He := fresh "He" in
  let Hdur := fresh "Hdur" in
  let Hrc := fresh "Hrc" in
  let Hchroma := fresh "Hchroma" in
  let Hact := fresh "Hact" in
  let Hend := fresh "Hend" in
  let Hlast := fresh "Hlast" in
  let Hfailed := fresh "Hfailed" in
  let returncode := fresh "returncode" in
  let Hprinted := fresh "Hprinted" in
  let s := fresh "s" in
  let e := fresh "e" in
  let err := fresh "err" in
  let chroma := fresh "chroma" in
  destruct (template_main_cases w argv)
    as [(Hlen & Hmain)
       | [(Hlen & Hvideo & Hmain)
       | [(Hlen & Hvideo & Hnone & Hmain)
       | (s & e & Hlen & Hvideo & Hs & He &
          [(Hdur & Hmain)
          | (Hdur &
             [(err & Hrc & Hact & Hend)
             | [(returncode & Hrc & Hfailed & Hact & Hend & Hlast)
             | (Hrc &
                [(err & Hchroma & Hact & Hend)
                | (chroma & Hchroma & Hact & Hend & Hprinted)])]])])]]].

(** X14.  The template script asks for an extraction only of an
    existing video, from the parsed start, for the parsed end minus the
    parsed start, which is then positive, into [amen_template.wav] of
    the output directory. *)
Theorem template_extraction_request (w : world) (argv : list string)
    (video_path : string) (start_sec duration_sec : Z) (output_path : string) :
  In (AFfmpeg video_path start_sec duration_sec output_path)
     (actions (main w argv)) ->
  video_path = nth 1 argv "" /\
  path_exists w video_path = true /\
  parse_timestamp (nth 2 argv "") = Ok start_sec /\
  parse_timestamp (nth 3 argv "") = Ok (start_sec + duration_sec) /\
  0 < duration_sec /\
  output_path = path_join (arg_template_dir w argv) "amen_template.wav".
Proof.
  intros Hin. template_cases w argv;
    try (rewrite Hmain in Hin); try (rewrite Hact in Hin);
    decide_in Hin; injection Hin as <- <- <- <-;
    (repeat split; try assumption; try lia);
    rewrite He; f_equal; lia.
Qed.

(** A machine where the video is there, and an ordinary command line
    of the template script. *)
Lemma template_studio_run :
  actions (main (studio (Ok template_1) (0%Z, Some 7200%R) 0 (Ok loud_template))
                ["create_amen_template.py"; "service.mp4"; "01:54:04"; "01:54:22"])
  = [AExists "service.mp4"; AMakedirs "config/audio_templates";
     AFfmpeg "service.mp4" 6844 18 "config/audio_templates/amen_template.wav";
     AChroma "config/audio_templates/amen_template.wav";
     ASave "config/audio_templates/amen_chroma.npy" loud_template].
Proof. reflexivity. Qed.

Lemma template_extraction_request_witness :
  "service.mp4" = nth 1 ["create_amen_template.py"; "service.mp4"; "01:54:04";
                         "01:54:22"] "" /\
  path_exists (studio (Ok template_1) (0%Z, Some 7200%R) 0 (Ok loud_template))
    "service.mp4" = true /\
  parse_timestamp (nth 2 ["create_amen_template.py"; "service.mp4"; "01:54:04";
                          "01:54:22"] "") = Ok 6844 /\
  parse_timestamp (nth 3 ["create_amen_template.py"; "service.mp4"; "01:54:04";
                          "01:54:22"] "") = Ok (6844 + 18) /\
  0 < 18 /\
  "config/audio_templates/amen_template.wav" =
  path_join
    (arg_template_dir
       (studio (Ok template_1) (0%Z, Some 7200%R) 0 (Ok loud_template))
       ["create_amen_template.py"; "service.mp4"; "01:54:04"; "01:54:22"])
    "amen_template.wav".
Proof.
  apply (template_extraction_request
           (studio (Ok template_1) (0%Z, Some 7200%R) 0 (Ok loud_template))
           ["create_amen_template.py"; "service.mp4"; "01:54:04"; "01:54:22"]
           "service.mp4" 6844 18 "config/audio_templates/amen_template.wav").
  rewrite template_studio_run. simpl. auto.
Defined.

(** X15.  Timestamps that do not parse, or an end that is not after
    the start, stop the template script with exit code 1 and one error
    line; nothing has been created or extracted, and there is no
    traceback. *)
Theorem template_bad_timestamps (w : world) (argv : list string) :
  (4 <= length argv)%nat ->
  path_exists w (nth 1 argv "") = true ->
  (forall s e, parse_timestamp (nth 2 argv "") = Ok s ->
               parse_timestamp (nth 3 argv "") = Ok e -> e <= s) ->
  ending (main w argv) = DetectAmen.Exit 1 /\
  actions (main w argv) = [AExists (nth 1 argv "")] /\
  (lines (main w argv) = [TimestampError ValueError] \/
   lines (main w argv) = [EndNotAfterStart]).
Proof.
  intros Hlen' Hvideo' Hbad. template_cases w argv;
    try lia; try congruence;
    try (rewrite Hmain; cbn [lines actions ending]; auto);
    specialize (Hbad s e Hs He); lia.
Qed.

Lemma template_bad_timestamps_witness :
  ending (main (studio (Ok template_1) (0%Z, Some 7200%R) 0 (Ok loud_template))
               ["create_amen_template.py"; "service.mp4"; "01:54:22"; "01:54:04"])
    = DetectAmen.Exit 1 /\
  actions (main (studio (Ok template_1) (0%Z, Some 7200%R) 0 (Ok loud_template))
                ["create_amen_template.py"; "service.mp4"; "01:54:22"; "01:54:04"])
    = [AExists (nth 1 ["create_amen_template.py"; "service.mp4"; "01:54:22";
                       "01:54:04"] "")] /\
  (lines (main (studio (Ok template_1) (0%Z, Some 7200%R) 0 (Ok loud_template))
               ["create_amen_template.py"; "service.mp4"; "01:54:22"; "01:54:04"])
     = [TimestampError ValueError] \/
   lines (main (studio (Ok template_1) (0%Z, Some 7200%R) 0 (Ok loud_template))
               ["create_amen_template.py"; "service.mp4"; "01:54:22"; "01:54:04"])
     = [EndNotAfterStart]).
Proof.
  apply (template_bad_timestamps
           (studio (Ok template_1) (0%Z, Some 7200%R) 0 (Ok loud_template))
           ["create_amen_template.py"; "service.mp4"; "01:54:22"; "01:54:04"]).
  - simpl. lia.
  - reflexivity.
  - intros s e Hs He. vm_compute in Hs, He.
    injection Hs as <-. injection He as <-. lia.
Defined.

(** Where the chromagram is saved, and which one. *)
Lemma template_saved_where (w : world) (argv : list string)
    (p : string) (C : matrix) :
  In (ASave p C) (actions (main w argv)) ->
  p = path_join (arg_template_dir w argv) "amen_chroma.npy" /\
  librosa_chroma w (path_join (arg_template_dir w argv) "amen_template.wav") 512
    = Ok C /\
  last (actions (main w argv)) (ASave p C) = ASave p C.
Proof.
  intros Hin. template_cases w argv;
    try (rewrite Hmain in Hin); try (rewrite Hact in Hin); decide_in Hin.
  injection Hin as <- <-. rewrite Hact.
  split; [reflexivity|]. split; [exact Hchroma | reflexivity].
Qed.

(** X16.  The template script exits with code 0 exactly when it has
    saved a chromagram; what it saves is the chromagram computed from
    the extracted [amen_template.wav], under the name [amen_chroma.npy]
    in the output directory, and saving is the last thing it does. *)
Theorem template_saved_iff_success (w : world) (argv : list string) :
  (ending (main w argv) = DetectAmen.Exit 0 <->
   exists p C, In (ASave p C) (actions (main w argv))) /\
  (forall p C, In (ASave p C) (actions (main w argv)) ->
     p = path_join (arg_template_dir w argv) "amen_chroma.npy" /\
     librosa_chroma w (path_join (arg_template_dir w argv) "amen_template.wav") 512
       = Ok C /\
     last (actions (main w argv)) (ASave p C) = ASave p C).
Proof.
  split; [|intros p C; apply template_saved_where].
  template_cases w argv.
  1-4: rewrite Hmain; cbn [actions ending];
    split; [discriminate | intros (p & C & Hin); decide_in Hin].
  1-3: rewrite Hact, Hend;
    split; [discriminate | intros (p & C & Hin); decide_in Hin].
  rewrite Hact, Hend. split; [intros _ | reflexivity].
  eexists _, chroma. simpl. auto 6.
Qed.

Lemma find_amen_first_event (w : world) (video_path : string) (so sd : Z)
    (dir : string) (thr : R) :
  hd_error (trace (DetectAmen.find_amen w video_path so sd dir thr)) =
  Some (EvExists (path_join dir "amen_chroma.npy")).
Proof.
  find_amen_run w video_path so sd dir thr as T S d e Hrun;
    rewrite Hrun; reflexivity.
Qed.

(** X17.  The two scripts agree on the file: the chromagram that the
    template script saves for an output directory is the file that
    [find_amen] looks for first when it is given that directory as
    template directory, and once that file holds the saved chromagram,
    it is the template that the matcher receives. *)
Theorem template_is_found_by_detection (w : world) (argv : list string)
    (p : string) (C : matrix) :
  In (ASave p C) (actions (main w argv)) ->
  forall (w' : world) (video_path : string) (so sd : Z) (thr : R),
    hd_error (trace (DetectAmen.find_amen w' video_path so sd
                       (arg_template_dir w argv) thr))
      = Some (EvExists p) /\
    (np_load w' p = Ok C ->
     forall T S,
       reaches_matcher w' video_path so sd (arg_template_dir w argv) T S ->
       T = C).
Proof.
  intros Hin w' video_path so sd thr.
  destruct (template_saved_where w argv p C Hin) as (-> & _).
  split; [apply find_amen_first_event|].
  intros Hload T S (d & (_ & Hload' & _) & _). congruence.
Qed.

Lemma template_is_found_by_detection_witness :
  hd_error
    (trace (DetectAmen.find_amen
              (studio (Ok loud_template) (0%Z, Some 7200%R) 0 (Ok quiet_search))
              "service.mp4" 20 90
              (arg_template_dir
                 (studio (Ok template_1) (0%Z, Some 7200%R) 0 (Ok loud_template))
                 ["create_amen_template.py"; "service.mp4"; "01:54:04";
                  "01:54:22"]) (1 / 2)%R))
    = Some (EvExists "config/audio_templates/amen_chroma.npy") /\
  (np_load (studio (Ok loud_template) (0%Z, Some 7200%R) 0 (Ok quiet_search))
     "config/audio_templates/amen_chroma.npy" = Ok loud_template ->
   forall T S,
     reaches_matcher
       (studio (Ok loud_template) (0%Z, Some 7200%R) 0 (Ok quiet_search))
       "service.mp4" 20 90
       (arg_template_dir
          (studio (Ok template_1) (0%Z, Some 7200%R) 0 (Ok loud_template))
          ["create_amen_template.py"; "service.mp4"; "01:54:04"; "01:54:22"])
       T S ->
     T = loud_template).
Proof.
  apply (template_is_found_by_detection
           (studio (Ok template_1) (0%Z, Some 7200%R) 0 (Ok loud_template))
           ["create_amen_template.py"; "service.mp4"; "01:54:04"; "01:54:22"]
           "config/audio_templates/amen_chroma.npy" loud_template).
  rewrite template_studio_run. simpl. auto 6.
Defined.



End TemplateScript.

(* ================================================================== *)
(** * A bound on the score *)
(* ================================================================== *)

Section ScoreBound.

Import Np Spec DetectAmen.
Local Open Scope R_scope.

Unset Implicit Arguments.












End ScoreBound.

(* ================================================================== *)
(** * The shape of a NotDetected outcome *)
(* ================================================================== *)

Section OutcomeShape.

Import Np Sys DetectAmen.
Local Open Scope R_scope.
Local Open Scope string_scope.

Unset Implicit Arguments.




End OutcomeShape.
